(** * better_device_information: the synchronisation of a device inventory

    A shallow embedding of [better_device_information.py].  The script reads
    two JSON documents (the device list and the team list), resolves an
    identity for every device, groups AV-box bundles, and reconciles three
    tables (inventory, AV-box mapping, ledger) inside one database session.

    Conventions of the model.
    - A decoded JSON document is a [json] value; a Python dict is an
      association list in insertion order, looked up by its first binding.
      JSON floats are not part of the model, numbers are integers.
    - Strings are sequences of bytes; [lower] and indexing act on ASCII.
    - A Python exception is the [Raise] outcome of a computation.
    - [str()] and [json.dumps] are left to the Python runtime ([Runtime]).
    - The HTTP fetches are inputs: [fetch_data] answers the decoded document,
      or [JNull] for Python's [None].
    - A table is the list of its rows in insertion order.  The session
      flushes pending rows before a query, so a query sees what the run has
      written so far; [first()] answers the first row that matches.
    - The database is SQLite in memory (line 108).  A [String] column holds
      NULL or a text: a value is converted when it is bound, and a value
      that cannot be bound raises.  The values of a row are bound when the
      row is flushed, at the next query or at the commit; the model binds
      them where the row is written.  Nothing returns from a run between
      the two, so a run commits in the model exactly when it commits in the
      code; the exception a run ends with may differ when the Python code
      faults between a write and its flush.
    - The [timestamp] column of the ledger is filled from the clock when the
      row is written and is not part of the model.  The report printed after
      the commit only reads the tables and is left out. *)

From Stdlib Require Import ZArith List Bool String Ascii Lia Permutation.
From Stdlib Require Import DecimalString.
Import ListNotations.
Local Open Scope string_scope.
Local Open Scope Z_scope.
Local Open Scope list_scope.

(** ** Decoded JSON documents *)

#[local] Set Warnings "-register-all".

Inductive json : Type :=
| JNull
| JBool (b : bool)
| JInt (n : Z)
| JStr (s : string)
| JList (l : list json)
| JObj (o : list (string * json)).

(** ** Exceptions *)

Inductive exn : Type :=
| AttributeError
| KeyError
| TypeError
| IndexError
| NoResultFound
| MultipleResultsFound
| OverflowError
| DBAPIError.

Inductive result (A : Type) : Type :=
| Ok (a : A)
| Raise (e : exn).
Arguments Ok {A} a.
Arguments Raise {A} e.

Definition bind {A B} (m : result A) (k : A -> result B) : result B :=
  match m with
  | Ok a => k a
  | Raise e => Raise e
  end.

Declare Scope py_scope.
Delimit Scope py_scope with py.
Notation "x <- m ;; k" := (bind m (fun x => k))
  (at level 100, m at next level, right associativity) : py_scope.
Local Open Scope py_scope.

Fixpoint foldM {A B} (f : A -> B -> result A) (l : list B) (a : A) : result A :=
  match l with
  | [] => Ok a
  | b :: l' => a' <- f a b ;; foldM f l' a'
  end.

Fixpoint mapM {A B} (f : A -> result B) (l : list A) : result (list B) :=
  match l with
  | [] => Ok []
  | a :: l' => b <- f a ;; bs <- mapM f l' ;; Ok (b :: bs)
  end.

(** ** Python's view of JSON values *)

(** [bool(v)]: [None], [False], [0] and the empty string, list and dict are
    false. *)
Definition truthy (v : json) : bool :=
  match v with
  | JNull => false
  | JBool b => b
  | JInt n => negb (n =? 0)
  | JStr s => negb (s =? "")%string
  | JList l => match l with [] => false | _ => true end
  | JObj o => match o with [] => false | _ => true end
  end.

Fixpoint lookup {A} (k : string) (o : list (string * A)) : option A :=
  match o with
  | [] => None
  | (k', v) :: o' => if (k =? k')%string then Some v else lookup k o'
  end.

(** [a == b].  [True] and [1] are equal, as are [False] and [0]; two dicts
    are equal when they bind the same keys to equal values. *)
Fixpoint py_eq (a b : json) {struct a} : bool :=
  match a, b with
  | JNull, JNull => true
  | JBool x, JBool y => Bool.eqb x y
  | JBool x, JInt n => n =? (if x then 1 else 0)
  | JInt n, JBool x => n =? (if x then 1 else 0)
  | JInt n, JInt m => n =? m
  | JStr s, JStr t => (s =? t)%string
  | JList l, JList m =>
      (fix go (l m : list json) {struct l} : bool :=
         match l, m with
         | [], [] => true
         | x :: l', y :: m' => py_eq x y && go l' m'
         | _, _ => false
         end) l m
  | JObj o, JObj p =>
      (List.length o =? List.length p)%nat &&
      (fix go (o : list (string * json)) {struct o} : bool :=
         match o with
         | [] => true
         | (k, v) :: o' =>
             match lookup k p with
             | Some w => py_eq v w
             | None => false
             end && go o'
         end) o
  | _, _ => false
  end.

(** [x in l] for a list [l]. *)
Definition list_contains (x : json) (l : list json) : bool :=
  existsb (py_eq x) l.

(** [pat in s] for two strings. *)
Fixpoint substring_of (pat s : string) : bool :=
  prefix pat s ||
  match s with
  | EmptyString => false
  | String _ s' => substring_of pat s'
  end.

(** [pat in v] for a string [pat]: substring of a string, element of a
    list, key of a dict; other values are not iterable. *)
Definition py_in (pat : string) (v : json) : result bool :=
  match v with
  | JStr s => Ok (substring_of pat s)
  | JList l => Ok (list_contains (JStr pat) l)
  | JObj o => Ok (match lookup pat o with Some _ => true | None => false end)
  | _ => Raise TypeError
  end.

(** [d.get(k, default)]; only a dict has the method. *)
Definition get_default (d : json) (k : string) (default : json) : result json :=
  match d with
  | JObj o => Ok (match lookup k o with Some v => v | None => default end)
  | _ => Raise AttributeError
  end.

(** [d.get(k)] *)
Definition get (d : json) (k : string) : result json := get_default d k JNull.

(** [d[k]] for a string [k]. *)
Definition subscript (d : json) (k : string) : result json :=
  match d with
  | JObj o => match lookup k o with Some v => Ok v | None => Raise KeyError end
  | _ => Raise TypeError
  end.

Fixpoint chars (s : string) : list json :=
  match s with
  | EmptyString => []
  | String c s' => JStr (String c EmptyString) :: chars s'
  end.

(** [for x in v]: the elements of a list, the characters of a string, the
    keys of a dict. *)
Definition py_iter (v : json) : result (list json) :=
  match v with
  | JList l => Ok l
  | JStr s => Ok (chars s)
  | JObj o => Ok (map (fun kv => JStr (fst kv)) o)
  | _ => Raise TypeError
  end.

Definition lower_ascii (c : ascii) : ascii :=
  let n := nat_of_ascii c in
  if ((65 <=? n) && (n <=? 90))%nat then ascii_of_nat (n + 32) else c.

Fixpoint lower (s : string) : string :=
  match s with
  | EmptyString => EmptyString
  | String c s' => String (lower_ascii c) (lower s')
  end.

(** [v.lower()]; only a string has the method. *)
Definition str_lower (v : json) : result string :=
  match v with
  | JStr s => Ok (lower s)
  | _ => Raise AttributeError
  end.

(** [sep.join(l)]: every item must be a string. *)
Fixpoint join (sep : string) (l : list json) : result string :=
  match l with
  | [] => Ok ""%string
  | JStr s :: l' =>
      match l' with
      | [] => Ok s
      | _ => rest <- join sep l' ;; Ok (s ++ sep ++ rest)%string
      end
  | _ :: _ => Raise TypeError
  end.

(** [a or b] *)
Definition py_or (a b : json) : json := if truthy a then a else b.

(** The parts of the Python runtime that are not modelled. *)
Class Runtime : Type := {
  py_str : json -> string;      (* str(v), as an f-string formats v *)
  json_dumps : json -> string   (* json.dumps(v) *)
}.

(** ** Identity Resolver *)

Definition get_effective_device_type (device : json) : result json :=
  device_subtype <- get device "device_subtype" ;;
  device_type <- get_default device "device_type" (JStr "") ;;
  if truthy device_subtype then Ok device_subtype
  else
    lowered <- str_lower device_type ;;
    if existsb (String.eqb lowered) ["chrome"; "firefox"; "safari"]%string
    then Ok (JStr "browser")
    else Ok device_type.

Definition get_unique_device_id (device : json) : result json :=
  t <- get_effective_device_type device ;;
  if py_eq t (JStr "browser") then get device "device_address"
  else get device "device_id".

(** ** Team Annotator *)

Definition collect_team (device_teams : list json) (team : json)
  : result (list json) :=
  name <- subscript team "team_name" ;;
  if negb (list_contains name device_teams)
  then Ok (device_teams ++ [name])
  else Ok device_teams.

Definition collect_device (device_address : json) (device_teams : list json)
  (device : json) : result (list json) :=
  a <- get device "device_address" ;;
  if py_eq device_address a then
    ts <- get_default device "teams" (JList []) ;;
    teams <- py_iter ts ;;
    foldM collect_team teams device_teams
  else Ok device_teams.

Definition get_device_teams (device_address teams_list : json)
  : result (list json) :=
  if negb (truthy teams_list) then Ok []
  else
    devs <- get teams_list "devices" ;;
    if negb (truthy devs) then Ok []
    else
      devices <- py_iter devs ;;
      foldM (collect_device device_address) devices [].

Definition device_details_teams (device_teams : list json) : result json :=
  if truthy (JList device_teams)
  then s <- join ", " device_teams ;; Ok (JStr s)
  else Ok (JStr "").

(** The dict built by [device_details_for_db], one field per key. *)
Record inventory_data : Type := {
  d_device_type : json;
  d_model : json;
  d_device_skus : json;
  d_udid : json;
  d_host_name : json;
  d_os_version : json;
  d_location : json;
  d_device_notes : json;
  d_teams : json;
  d_is_avbox : json
}.

Definition device_details_for_db {RT : Runtime} (device teams_list : json)
  : result inventory_data :=
  address <- get device "device_address" ;;
  device_teams <- get_device_teams address teams_list ;;
  skus <- get device "device_skus" ;;
  device_type <- get_effective_device_type device ;;
  model <- get device "model" ;;
  device_skus <- match skus with
                 | JList l => s <- join ", " l ;; Ok (JStr s)
                 | _ => Ok skus
                 end ;;
  udid <- get_unique_device_id device ;;
  host_name <- get device "hostname" ;;
  os_version <- get device "os_version" ;;
  host_city <- get_default device "host_city" (JStr "") ;;
  host_country <- get_default device "host_country" (JStr "") ;;
  device_notes <- get device "device_note" ;;
  teams <- device_details_teams device_teams ;;
  avbox_info <- get device "avbox_info" ;;
  Ok {| d_device_type := device_type;
        d_model := model;
        d_device_skus := device_skus;
        d_udid := udid;
        d_host_name := host_name;
        d_os_version := os_version;
        d_location := JStr (py_str host_city ++ ", " ++ py_str host_country)%string;
        d_device_notes := device_notes;
        d_teams := teams;
        d_is_avbox := JBool (truthy avbox_info) |}.

(** ** Hashable values: set elements and dict keys

    A key is a hashable JSON scalar up to [==]: [True] is the key [1] and
    [False] the key [0].  Lists and dicts are unhashable. *)

Inductive key : Type :=
| KNone
| KInt (n : Z)
| KStr (s : string).

Definition hash_key (v : json) : result key :=
  match v with
  | JNull => Ok KNone
  | JBool b => Ok (KInt (if b then 1 else 0))
  | JInt n => Ok (KInt n)
  | JStr s => Ok (KStr s)
  | _ => Raise TypeError
  end.

Definition key_eqb (a b : key) : bool :=
  match a, b with
  | KNone, KNone => true
  | KInt n, KInt m => n =? m
  | KStr s, KStr t => (s =? t)%string
  | _, _ => false
  end.

Definition key_in (k : key) (s : list key) : bool := existsb (key_eqb k) s.

(** [a - b] on sets, a set being the list of its elements. *)
Definition set_diff (a b : list key) : list key :=
  filter (fun k => negb (key_in k b)) a.

Fixpoint set_of (l : list key) : list key :=
  match l with
  | [] => []
  | k :: l' => if key_in k l' then set_of l' else k :: set_of l'
  end.

(** ** Box Grouper *)

(** [l[i]] with Python's negative indices. *)
Definition py_index (v : json) (i : Z) : result json :=
  let at_ (l : list json) :=
    let n := Z.of_nat (List.length l) in
    let j := if i <? 0 then i + n else i in
    if (0 <=? j) && (j <? n) then Ok (nth (Z.to_nat j) l JNull)
    else Raise IndexError in
  match v with
  | JList l => at_ l
  | JStr s => at_ (chars s)
  | JObj _ => Raise KeyError
  | _ => Raise TypeError
  end.

Definition safe_get_device (device_list : json) (index : Z) : result json :=
  match py_index device_list index with
  | Raise IndexError => Ok JNull
  | r => r
  end.

(** A bundle of [AVBoxs]: a dict over the keys [dut], [device_type],
    [device_notes], [camera_device] and [control]; [None] is a key that has
    not been set.  [dut] holds the address the bundle is filed under. *)
Record bundle : Type := {
  b_dut : key;
  b_device_type : option json;
  b_device_notes : option json;
  b_camera_device : option json;
  b_control : option json
}.

Definition new_bundle (k : key) : bundle :=
  {| b_dut := k; b_device_type := None; b_device_notes := None;
     b_camera_device := None; b_control := None |}.

Definition set_dut_fields (device_type device_notes : json) (b : bundle) : bundle :=
  {| b_dut := b_dut b; b_device_type := Some device_type;
     b_device_notes := Some device_notes;
     b_camera_device := b_camera_device b; b_control := b_control b |}.

Definition set_camera_device (v : json) (b : bundle) : bundle :=
  {| b_dut := b_dut b; b_device_type := b_device_type b;
     b_device_notes := b_device_notes b;
     b_camera_device := Some v; b_control := b_control b |}.

Definition set_control (v : json) (b : bundle) : bundle :=
  {| b_dut := b_dut b; b_device_type := b_device_type b;
     b_device_notes := b_device_notes b;
     b_camera_device := b_camera_device b; b_control := Some v |}.

(** [AVBoxs]: a dict from keys to bundles, in insertion order. *)
Definition avboxs : Type := list (key * bundle).

Fixpoint avboxs_get (k : key) (m : avboxs) : option bundle :=
  match m with
  | [] => None
  | (k', b) :: m' => if key_eqb k k' then Some b else avboxs_get k m'
  end.

(** [AVBoxs[k] = f(AVBoxs[k])] for a key that is bound. *)
Fixpoint avboxs_modify (k : key) (f : bundle -> bundle) (m : avboxs) : avboxs :=
  match m with
  | [] => []
  | (k', b) :: m' =>
      if key_eqb k k' then (k', f b) :: m' else (k', b) :: avboxs_modify k f m'
  end.

(** Lines 175-176: [if k not in AVBoxs: AVBoxs[k] = {"dut": k}] *)
Definition ensure_bundle (k : key) (m : avboxs) : avboxs :=
  match avboxs_get k m with
  | None => m ++ [(k, new_bundle k)]
  | Some _ => m
  end.

Definition add_avbox_mapping_entry (device : json) (AVBoxs : avboxs)
  : result avboxs :=
  avbox_info <- get device "avbox_info" ;;
  if negb (truthy avbox_info) then Ok AVBoxs else
  usage <- get avbox_info "usage" ;;
  if negb (truthy usage) then Ok AVBoxs else
  avbox_devices <- get avbox_info "devices" ;;
  if negb (truthy avbox_devices) then Ok AVBoxs else
  is_dut <- py_in "device_under_test" usage ;;
  dut_address <- (if is_dut then get device "device_address"
                  else if truthy avbox_devices then safe_get_device avbox_devices 0
                  else Ok JNull) ;;
  if negb (truthy dut_address) then Ok AVBoxs else
  k <- hash_key dut_address ;;
  let AVBoxs1 := ensure_bundle k AVBoxs in
  if is_dut then
    device_subtype <- get device "device_subtype" ;;
    device_type <- get device "device_type" ;;
    device_note <- get device "device_note" ;;
    Ok (avboxs_modify k (set_dut_fields (py_or device_subtype device_type) device_note) AVBoxs1)
  else
    is_camera <- py_in "camera_device" usage ;;
    if is_camera then
      address <- get device "device_address" ;;
      Ok (avboxs_modify k (set_camera_device address) AVBoxs1)
    else
      is_control <- py_in "control" usage ;;
      if is_control then
        address <- get device "device_address" ;;
        Ok (avboxs_modify k (set_control address) AVBoxs1)
      else Ok AVBoxs1.

(** Lines 199-201 of [main]: the grouping of the whole snapshot. *)
Definition group_step (AVBoxs : avboxs) (device : json) : result avboxs :=
  avbox_info <- get device "avbox_info" ;;
  if truthy avbox_info then add_avbox_mapping_entry device AVBoxs else Ok AVBoxs.

Definition group_avboxs (devices : list json) : result avboxs :=
  foldM group_step devices [].


(** ** The columns

    Line 108 binds the engine to an in-memory SQLite database, whatever
    [DB_TYPE] says, so the columns are SQLite's.  A [String] column has
    TEXT affinity: it holds NULL or a text, and a number that is bound to
    it is stored as its decimal text.  The driver binds [None], a string,
    an integer of 64 bits and a boolean (as the integer 1 or 0); a larger
    integer raises [OverflowError], and a list or a dict cannot be bound:
    the statement raises the driver's error.  A comparison of a [String]
    column with a bound value converts the value in the same way, so
    [filter_by(udid=7)] finds the row whose [udid] is the text [7], and
    [filter_by(udid=None)] is [IS NULL]. *)

Inductive cell : Type :=
| NULL
| TEXT (s : string).

Definition cell_eqb (a b : cell) : bool :=
  match a, b with
  | NULL, NULL => true
  | TEXT s, TEXT t => (s =? t)%string
  | _, _ => false
  end.

Definition decimal (n : Z) : string := NilZero.string_of_int (Z.to_int n).

Definition int64 (n : Z) : bool := (- 2 ^ 63 <=? n) && (n <? 2 ^ 63).

(** The cell of a [String] column that the value [v] is bound to. *)
Definition column_value (v : json) : result cell :=
  match v with
  | JNull => Ok NULL
  | JBool b => Ok (TEXT (if b then "1" else "0"))
  | JInt n => if int64 n then Ok (TEXT (decimal n)) else Raise OverflowError
  | JStr s => Ok (TEXT s)
  | JList _ => Raise DBAPIError
  | JObj _ => Raise DBAPIError
  end.

(** The same for a value that is known by its key. *)
Definition key_value (k : key) : result cell :=
  match k with
  | KNone => Ok NULL
  | KInt n => if int64 n then Ok (TEXT (decimal n)) else Raise OverflowError
  | KStr s => Ok (TEXT s)
  end.

(** What Python reads from a [String] column: [None] or a string. *)
Definition python_value (c : cell) : json :=
  match c with
  | NULL => JNull
  | TEXT s => JStr s
  end.

Definition cell_key (c : cell) : key :=
  match c with
  | NULL => KNone
  | TEXT s => KStr s
  end.

(** The [Boolean] column holds NULL or a boolean; SQLAlchemy refuses a
    value that is not [None], [True] or [False] (to which 1 and 0 are
    equal). *)
Definition boolean_value (v : json) : result (option bool) :=
  match v with
  | JNull => Ok None
  | JBool b => Ok (Some b)
  | JInt n => if n =? 1 then Ok (Some true)
              else if n =? 0 then Ok (Some false)
              else Raise TypeError
  | _ => Raise TypeError
  end.

(** ** The tables

    Rows are listed in insertion order and a new row takes the next free
    [id]. *)

Module DeviceInventory.
Record t : Type := mk {
  id : Z;
  device_type : cell;
  model : cell;
  device_skus : cell;
  udid : cell;
  host_name : cell;
  os_version : cell;
  location : cell;
  device_notes : cell;
  teams : cell;
  is_avbox : option bool
}.
End DeviceInventory.

Module AVBoxMapping.
Record t : Type := mk {
  id : Z;
  device_type : cell;
  device_notes : cell;
  dut : cell;
  camera_device : cell;
  control : cell
}.
End AVBoxMapping.

Module DeviceLedger.
Record t : Type := mk {
  id : Z;
  udid : cell;
  status : string;
  details : string
}.
End DeviceLedger.

Record db : Type := {
  device_inventory : list DeviceInventory.t;
  avbox_mapping : list AVBoxMapping.t;
  device_ledger : list DeviceLedger.t
}.

(** A session on the one connection of the database: the tables as they
    were when the transaction began, and the tables as they are now, with
    what the transaction has written (queries flush pending changes
    first). *)
Record session : Type := {
  stored : db;
  txn : db
}.

Definition Session (d : db) : session := {| stored := d; txn := d |}.

Definition commit (s : session) : session := {| stored := txn s; txn := txn s |}.

Definition rollback (s : session) : session := {| stored := stored s; txn := stored s |}.

(** [session.close()] rolls back the transaction in progress, if any. *)
Definition close (s : session) : session := rollback s.

(** Computations in a session: a fault leaves the session as it was when
    the fault was raised. *)
Inductive outcome (A : Type) : Type :=
| Return (a : A) (s : session)
| Raised (e : exn) (s : session).
Arguments Return {A} a s.
Arguments Raised {A} e s.

Definition M (A : Type) : Type := session -> outcome A.

Definition ret {A} (a : A) : M A := fun s => Return a s.

Definition bindM {A B} (m : M A) (k : A -> M B) : M B :=
  fun s => match m s with
           | Return a s' => k a s'
           | Raised e s' => Raised e s'
           end.

Definition lift {A} (r : result A) : M A :=
  fun s => match r with
           | Ok a => Return a s
           | Raise e => Raised e s
           end.

Notation "x <~ m ;; k" := (bindM m (fun x => k))
  (at level 100, m at next level, right associativity) : py_scope.

Fixpoint forM {B} (f : B -> M unit) (l : list B) : M unit :=
  match l with
  | [] => ret tt
  | b :: l' => _ <~ f b ;; forM f l'
  end.

Definition query {A} (f : db -> A) : M A := fun s => Return (f (txn s)) s.

(** A change of rows whose values are bound. *)
Definition modify (f : db -> db) : M unit :=
  fun s => Return tt {| stored := stored s; txn := f (txn s) |}.

Definition next_id {R} (rid : R -> Z) (rows : list R) : Z :=
  1 + fold_right (fun r m => Z.max (rid r) m) 0 rows.

(** [setattr] on the first row that satisfies [p]. *)
Fixpoint update_first {R} (p : R -> bool) (f : R -> R) (rows : list R) : list R :=
  match rows with
  | [] => []
  | r :: rows' => if p r then f r :: rows' else r :: update_first p f rows'
  end.

Definition set_inventory (f : list DeviceInventory.t -> list DeviceInventory.t)
  (d : db) : db :=
  {| device_inventory := f (device_inventory d);
     avbox_mapping := avbox_mapping d;
     device_ledger := device_ledger d |}.

Definition set_avbox (f : list AVBoxMapping.t -> list AVBoxMapping.t)
  (d : db) : db :=
  {| device_inventory := device_inventory d;
     avbox_mapping := f (avbox_mapping d);
     device_ledger := device_ledger d |}.

Definition set_ledger (f : list DeviceLedger.t -> list DeviceLedger.t)
  (d : db) : db :=
  {| device_inventory := device_inventory d;
     avbox_mapping := avbox_mapping d;
     device_ledger := f (device_ledger d) |}.

(** [session.add(DeviceLedger(udid=.., status=.., details=..))], for an
    identifier that is bound to [udid]. *)
Definition add_ledger (udid : cell) (status details : string) : M unit :=
  modify (set_ledger (fun rows =>
    rows ++ [DeviceLedger.mk (next_id DeviceLedger.id rows) udid status details])).

(** [filter_by(udid=..)] and [filter_by(dut=..)], for a bound value. *)
Definition has_udid (udid : cell) (r : DeviceInventory.t) : bool :=
  cell_eqb (DeviceInventory.udid r) udid.

Definition has_dut (dut : cell) (r : AVBoxMapping.t) : bool :=
  cell_eqb (AVBoxMapping.dut r) dut.

(** The items of the data of a device, bound to their columns. *)
Record inventory_cells : Type := {
  c_device_type : cell;
  c_model : cell;
  c_device_skus : cell;
  c_udid : cell;
  c_host_name : cell;
  c_os_version : cell;
  c_location : cell;
  c_device_notes : cell;
  c_teams : cell;
  c_is_avbox : option bool
}.

Definition inventory_values (data : inventory_data) : result inventory_cells :=
  device_type <- column_value (d_device_type data) ;;
  model <- column_value (d_model data) ;;
  device_skus <- column_value (d_device_skus data) ;;
  udid <- column_value (d_udid data) ;;
  host_name <- column_value (d_host_name data) ;;
  os_version <- column_value (d_os_version data) ;;
  location <- column_value (d_location data) ;;
  device_notes <- column_value (d_device_notes data) ;;
  teams <- column_value (d_teams data) ;;
  is_avbox <- boolean_value (d_is_avbox data) ;;
  Ok {| c_device_type := device_type;
        c_model := model;
        c_device_skus := device_skus;
        c_udid := udid;
        c_host_name := host_name;
        c_os_version := os_version;
        c_location := location;
        c_device_notes := device_notes;
        c_teams := teams;
        c_is_avbox := is_avbox |}.

(** [setattr(existing_device, key, value)] for every item of the data. *)
Definition assign_inventory (cells : inventory_cells)
  (r : DeviceInventory.t) : DeviceInventory.t :=
  DeviceInventory.mk (DeviceInventory.id r)
    (c_device_type cells) (c_model cells) (c_device_skus cells) (c_udid cells)
    (c_host_name cells) (c_os_version cells) (c_location cells)
    (c_device_notes cells) (c_teams cells) (c_is_avbox cells).

(** A new [DeviceInventory] whose columns are the items of the data. *)
Definition new_inventory (cells : inventory_cells) (i : Z)
  : DeviceInventory.t :=
  DeviceInventory.mk i
    (c_device_type cells) (c_model cells) (c_device_skus cells) (c_udid cells)
    (c_host_name cells) (c_os_version cells) (c_location cells)
    (c_device_notes cells) (c_teams cells) (c_is_avbox cells).

(** Lines 227-231: update the record found for the identifier, or add one. *)
Definition upsert_inventory (udid : cell) (cells : inventory_cells)
  (rows : list DeviceInventory.t) : list DeviceInventory.t :=
  match find (has_udid udid) rows with
  | Some _ => update_first (has_udid udid) (assign_inventory cells) rows
  | None => rows ++ [new_inventory cells (next_id DeviceInventory.id rows)]
  end.

(** The items of a bundle, bound to their columns; a key the bundle lacks
    has no item. *)
Record mapping_cells : Type := {
  m_device_type : option cell;
  m_device_notes : option cell;
  m_dut : cell;
  m_camera_device : option cell;
  m_control : option cell
}.

Definition optional_value (o : option json) : result (option cell) :=
  match o with
  | Some v => c <- column_value v ;; Ok (Some c)
  | None => Ok None
  end.

Definition mapping_values (b : bundle) : result mapping_cells :=
  device_type <- optional_value (b_device_type b) ;;
  device_notes <- optional_value (b_device_notes b) ;;
  dut <- key_value (b_dut b) ;;
  camera_device <- optional_value (b_camera_device b) ;;
  control <- optional_value (b_control b) ;;
  Ok {| m_device_type := device_type;
        m_device_notes := device_notes;
        m_dut := dut;
        m_camera_device := camera_device;
        m_control := control |}.

Definition or_else {A} (o : option A) (v : A) : A :=
  match o with Some x => x | None => v end.

(** [setattr(existing_map, key, value)] for the keys the bundle has. *)
Definition assign_avbox (cells : mapping_cells) (r : AVBoxMapping.t)
  : AVBoxMapping.t :=
  AVBoxMapping.mk (AVBoxMapping.id r)
    (or_else (m_device_type cells) (AVBoxMapping.device_type r))
    (or_else (m_device_notes cells) (AVBoxMapping.device_notes r))
    (m_dut cells)
    (or_else (m_camera_device cells) (AVBoxMapping.camera_device r))
    (or_else (m_control cells) (AVBoxMapping.control r)).

(** A new [AVBoxMapping] from the items of the bundle: a column the bundle
    has no item for is NULL. *)
Definition new_avbox (cells : mapping_cells) (i : Z) : AVBoxMapping.t :=
  AVBoxMapping.mk i
    (or_else (m_device_type cells) NULL)
    (or_else (m_device_notes cells) NULL)
    (m_dut cells)
    (or_else (m_camera_device cells) NULL)
    (or_else (m_control cells) NULL).

(** Lines 241-245 *)
Definition upsert_avbox (dut : cell) (cells : mapping_cells)
  (rows : list AVBoxMapping.t) : list AVBoxMapping.t :=
  match find (has_dut dut) rows with
  | Some _ => update_first (has_dut dut) (assign_avbox cells) rows
  | None => rows ++ [new_avbox cells (next_id AVBoxMapping.id rows)]
  end.

(** [query.one()] *)
Definition one {R} (rows : list R) : result R :=
  match rows with
  | [r] => Ok r
  | [] => Raise NoResultFound
  | _ => Raise MultipleResultsFound
  end.

Definition companions (camera control : json) : json :=
  JObj [("camera", camera); ("control", control)].

Definition ledger_details (model type : json) (comp : option json) : json :=
  JObj ([("model", model); ("type", type)] ++
        match comp with Some c => [("companions", c)] | None => [] end).

Section Reconciler.
Context {RT : Runtime}.

(** Lines 211-218: the body of the loop over [removed_ids]. *)
Definition remove_device (unique_id : key) : M unit :=
  udid <~ lift (key_value unique_id) ;;
  rows <~ query (fun d => filter (has_udid udid) (device_inventory d)) ;;
  device_to_remove <~ lift (one rows) ;;
  avbox_map <~ query (fun d => find (has_dut udid) (avbox_mapping d)) ;;
  let comp := match avbox_map with
              | Some m => Some (companions
                                  (python_value (AVBoxMapping.camera_device m))
                                  (python_value (AVBoxMapping.control m)))
              | None => None
              end in
  let details := ledger_details
                   (python_value (DeviceInventory.model device_to_remove))
                   (python_value (DeviceInventory.device_type device_to_remove))
                   comp in
  _ <~ add_ledger udid "removed" (json_dumps details) ;;
  modify (set_inventory (filter (fun r =>
    negb (DeviceInventory.id r =? DeviceInventory.id device_to_remove)))).

(** Line 223: does the device go to the inventory? *)
Definition in_inventory (device : json) : result bool :=
  avbox_info <- get device "avbox_info" ;;
  if negb (truthy avbox_info) then Ok true
  else usage <- get avbox_info "usage" ;;
       Ok (py_eq usage (JStr "device_under_test")).

(** Lines 234-238: the ledger entry of an added device. *)
Definition added_details (device : json) (AVBoxs_data : avboxs) : result json :=
  model <- get device "model" ;;
  type <- get_effective_device_type device ;;
  address <- subscript device "device_address" ;;
  k <- hash_key address ;;
  Ok (ledger_details model type
        match avboxs_get k AVBoxs_data with
        | Some b => Some (companions (or_else (b_camera_device b) JNull)
                                     (or_else (b_control b) JNull))
        | None => None
        end).

(** Lines 222-238: the body of the loop over the devices.  The lookup of
    line 227 binds the identifier; the record that is written binds every
    item of the data. *)
Definition upsert_device (devices_team_list : json) (AVBoxs_data : avboxs)
  (added_ids : list key) (device : json) : M unit :=
  keep <~ lift (in_inventory device) ;;
  if keep then
    device_inventory_data <~ lift (device_details_for_db device devices_team_list) ;;
    let unique_id := d_udid device_inventory_data in
    udid <~ lift (column_value unique_id) ;;
    cells <~ lift (inventory_values device_inventory_data) ;;
    _ <~ modify (set_inventory (upsert_inventory udid cells)) ;;
    k <~ lift (hash_key unique_id) ;;
    if key_in k added_ids then
      details <~ lift (added_details device AVBoxs_data) ;;
      add_ledger udid "added" (json_dumps details)
    else ret tt
  else ret tt.

(** Lines 240-245 *)
Definition upsert_mapping (entry : key * bundle) : M unit :=
  let (dut_udid, avbox_map_data) := entry in
  dut <~ lift (key_value dut_udid) ;;
  cells <~ lift (mapping_values avbox_map_data) ;;
  modify (set_avbox (upsert_avbox dut cells)).

Definition unique_key (device : json) : result key :=
  u <- get_unique_device_id device ;; hash_key u.

(** Line 204: the identifiers as Python reads them from the column. *)
Definition db_unique_ids (d : db) : list key :=
  set_of (map (fun r => cell_key (DeviceInventory.udid r)) (device_inventory d)).

Definition added_ids (api_unique_ids db_ids : list key) : list key :=
  set_diff api_unique_ids db_ids.

(** Line 206, as written: the persisted identifiers minus themselves. *)
Definition removed_ids (api_unique_ids db_ids : list key) : list key :=
  set_diff db_ids db_ids.

(** The [try] block of [main], up to the commit. *)
Definition main_try (devices_list_raw devices_team_list : json) : M unit :=
  if negb (truthy devices_list_raw) then ret tt else
  devs <~ lift (get devices_list_raw "devices") ;;
  if negb (truthy devs) then ret tt else
  devices <~ lift (py_iter devs) ;;
  AVBoxs_data <~ lift (group_avboxs devices) ;;
  ids <~ lift (mapM unique_key devices) ;;
  let api_unique_ids := set_of ids in
  db_ids <~ query db_unique_ids ;;
  let added := added_ids api_unique_ids db_ids in
  let removed := removed_ids api_unique_ids db_ids in
  _ <~ forM remove_device removed ;;
  _ <~ forM (upsert_device devices_team_list AVBoxs_data added) devices ;;
  _ <~ forM upsert_mapping AVBoxs_data ;;
  fun s => Return tt (commit s).

(** [main]: the tables a run leaves on the connection for the session that
    is opened next, given the tables it finds and the two documents the API
    answers.  A fault is handled by [session.rollback()] (lines 290-292),
    and the session is closed in every case (lines 293-294). *)
Definition main (devices_list_raw devices_team_list : json) (d : db) : db :=
  match main_try devices_list_raw devices_team_list (Session d) with
  | Return _ s => txn (close s)
  | Raised _ s => txn (close (rollback s))
  end.
End Reconciler.

(** ** Notions the statements are written with *)

(** The value [d.get(k)] answers for a dict with the items [o]. *)
Definition lookup_or_null (k : string) (o : list (string * json)) : json :=
  match lookup k o with
  | Some v => v
  | None => JNull
  end.

(** The session a computation leaves, whether it returned or raised. *)
Definition after {A} (r : outcome A) : session :=
  match r with
  | Return _ s => s
  | Raised _ s => s
  end.

(** *** Snapshot diff *)

(** The removed identifiers as section 4.4 of the design documents them:
    the persisted identifiers minus those of the snapshot. *)
Definition removed_ids_documented (api_unique_ids db_ids : list key) : list key :=
  set_diff db_ids api_unique_ids.

Definition persisted_ABC : list key := [KStr "A"; KStr "B"; KStr "C"].
Definition snapshot_BCD : list key := [KStr "B"; KStr "C"; KStr "D"].

(** *** Team snapshots *)

(** Deduplication in order of first appearance: an item is kept unless it
    equals one seen before. *)
Fixpoint first_appearances (seen l : list json) : list json :=
  match l with
  | [] => []
  | x :: l' =>
      if list_contains x seen then first_appearances seen l'
      else x :: first_appearances (seen ++ [x]) l'
  end.

(** [team] is a dict whose team name is [name]. *)
Definition team_name_of (team name : json) : Prop :=
  subscript team "team_name" = Ok name.

(** [device] is a well-formed entry of the team snapshot: a dict with the
    address [fst e] and a list of teams named [snd e]. *)
Definition team_entry_of (device : json) (e : json * list json) : Prop :=
  get device "device_address" = Ok (fst e) /\
  exists ts, get_default device "teams" (JList []) = Ok (JList ts) /\
             Forall2 team_name_of ts (snd e).

(** The team names of the entries whose address matches, in order. *)
Definition names_for (address : json) (entries : list (json * list json))
  : list json :=
  flat_map (fun e => if py_eq address (fst e) then snd e else []) entries.

Definition team_entry (address : string) (names : list string) : json :=
  JObj [("device_address", JStr address);
        ("teams", JList (map (fun n => JObj [("team_name", JStr n)]) names))].

(** An address listed in two entries, with the teams A, B and B, C. *)
Definition teams_AB_BC : json :=
  JObj [("devices", JList [team_entry "X" ["A"; "B"]; team_entry "X" ["B"; "C"]])].

(** A snapshot whose only team has no name. *)
Definition teams_unnamed : json :=
  JObj [("devices", JList [JObj [("device_address", JStr "X");
                                 ("teams", JList [JObj []])]])].

(** A snapshot that is a list instead of a dict. *)
Definition teams_as_list : json := JList [team_entry "X" ["A"]].

(** *** Identity *)

Definition browser_names : list string := ["chrome"; "firefox"; "safari"].

Definition chrome_device : json :=
  JObj [("device_type", JStr "Chrome"); ("device_id", JStr "serial-1");
        ("device_address", JStr "serial-1@host:chrome")].

(** *** AV-box records *)

Definition avbox_record (address : string) (fields info : list (string * json))
  : json :=
  JObj ([("device_address", JStr address); ("device_id", JStr ("id-" ++ address))]
        ++ fields ++ [("avbox_info", JObj info)]).

(** A device under test that lists its companions. *)
Definition dut_listing_companions : json :=
  avbox_record "X" [("device_type", JStr "android"); ("device_note", JStr "rack 3")]
    [("usage", JStr "device_under_test"); ("devices", JList [JStr "C"; JStr "K"])].

(** A device under test whose auxiliary info has no [devices] list. *)
Definition dut_without_devices : json :=
  avbox_record "X" [("device_type", JStr "android"); ("device_note", JStr "rack 3")]
    [("usage", JStr "device_under_test")].

Definition camera_of_X : json :=
  avbox_record "C" [("device_type", JStr "android")]
    [("usage", JStr "camera_device"); ("devices", JList [JStr "X"])].

Definition control_of_X : json :=
  avbox_record "K" [("device_type", JStr "android")]
    [("usage", JStr "control"); ("devices", JList [JStr "X"])].

(** Devices whose usage contains, but is not, [device_under_test]. *)
Definition spare_dut : json :=
  avbox_record "X" [("device_type", JStr "android"); ("device_note", JStr "spare")]
    [("usage", JStr "device_under_test_spare"); ("devices", JList [JStr "C"])].

Definition spare_dut_without_devices : json :=
  avbox_record "X" [("device_type", JStr "android"); ("device_note", JStr "spare")]
    [("usage", JStr "device_under_test_spare")].

(** The category the Box Grouper records for a device under test. *)
Definition grouped_category (o : list (string * json)) : json :=
  py_or (lookup_or_null "device_subtype" o) (lookup_or_null "device_type" o).

(** *** Inventory *)

(** A runtime that prints strings as they are and nothing else; the
    examples below do not depend on what is printed. *)
Definition plain_runtime : Runtime :=
  {| py_str := fun v => match v with JStr s => s | _ => ""%string end;
     json_dumps := fun _ => ""%string |}.

Definition empty_db : db :=
  {| device_inventory := []; avbox_mapping := []; device_ledger := [] |}.

(** Every mapped column of the record [r] holds the cell of [cells]. *)
Definition holds_cells (cells : inventory_cells) (r : DeviceInventory.t) : Prop :=
  DeviceInventory.device_type r = c_device_type cells /\
  DeviceInventory.model r = c_model cells /\
  DeviceInventory.device_skus r = c_device_skus cells /\
  DeviceInventory.udid r = c_udid cells /\
  DeviceInventory.host_name r = c_host_name cells /\
  DeviceInventory.os_version r = c_os_version cells /\
  DeviceInventory.location r = c_location cells /\
  DeviceInventory.device_notes r = c_device_notes cells /\
  DeviceInventory.teams r = c_teams cells /\
  DeviceInventory.is_avbox r = c_is_avbox cells.


(** A device without auxiliary info, and the record it is written to. *)
Definition plain_device : json :=
  JObj [("device_address", JStr "P"); ("device_id", JStr "id-P");
        ("device_type", JStr "android"); ("model", JStr "Pixel")].

Definition record_P (i : Z) : DeviceInventory.t :=
  DeviceInventory.mk i (TEXT "android") (TEXT "Pixel") NULL (TEXT "id-P")
    NULL NULL (TEXT ", ") NULL (TEXT "") (Some false).

(** The same device under a number, as it is written to the inventory:
    the identifier is stored as text. *)
Definition numbered_device : json :=
  JObj [("device_address", JStr "N"); ("device_id", JInt 7);
        ("device_type", JStr "android"); ("model", JStr "Pixel")].

Definition record_7 (i : Z) : DeviceInventory.t :=
  DeviceInventory.mk i (TEXT "android") (TEXT "Pixel") NULL (TEXT "7")
    NULL NULL (TEXT ", ") NULL (TEXT "") (Some false).


(** Devices whose record cannot be written: a model that is a list, and an
    identifier that does not fit in 64 bits. *)
Definition device_with_models : json :=
  JObj [("device_address", JStr "Q"); ("device_id", JStr "id-Q");
        ("device_type", JStr "android"); ("model", JList [JStr "a"; JStr "b"])].

Definition device_with_huge_id : json :=
  JObj [("device_address", JStr "H"); ("device_id", JInt (2 ^ 70));
        ("device_type", JStr "android")].

(** *** Runs *)

(** A computation keeps a property of the session, whether it returns or
    raises. *)
Definition preserves (I : session -> Prop) {A} (m : M A) : Prop :=
  forall s, I s -> I (after (m s)).

(** The tables the transaction began with are [d]: what is written before
    the commit does not touch them. *)
Definition stored_is (d : db) (s : session) : Prop := stored s = d.

(** A snapshot of two devices; the second has no address, so the ledger
    entry of its addition raises once both devices are in the inventory. *)
Definition device_without_address : json :=
  JObj [("device_id", JStr "id-Q"); ("device_type", JStr "android")].

Definition snapshot_faulting : json :=
  JObj [("devices", JList [plain_device; device_without_address])].

(** Snapshots whose second device cannot be written. *)
Definition snapshot_unbindable : json :=
  JObj [("devices", JList [plain_device; device_with_models])].

Definition snapshot_huge_id : json :=
  JObj [("devices", JList [plain_device; device_with_huge_id])].

(** *** Upserts by key

    The inventory and the AV-box mapping are written in the same way: the
    first row with the key of the payload is assigned the payload, or a row
    is created from it. *)
Section Upsert.
Context {R P : Type}.
Variables (rkey : R -> cell) (rid : R -> Z) (pkey : P -> cell).
Variables (assign : P -> R -> R) (create : P -> Z -> R).

Definition keyed (c : cell) (r : R) : bool := cell_eqb (rkey r) c.

Definition matches (p : P) (r : R) : bool := keyed (pkey p) r.

Definition upsert (p : P) (rows : list R) : list R :=
  match find (matches p) rows with
  | Some _ => update_first (matches p) (assign p) rows
  | None => rows ++ [create p (next_id rid rows)]
  end.

Definition upsert_all (ps : list P) (rows : list R) : list R :=
  fold_left (fun rows p => upsert p rows) ps rows.

(** The payloads with the key [c], assigned one after the other. *)
Definition assign_class (c : cell) (ps : list P) (r : R) : R :=
  fold_left (fun r p => if cell_eqb (pkey p) c then assign p r else r) ps r.

Definition cell_in (c : cell) (seen : list cell) : bool :=
  existsb (cell_eqb c) seen.

(** The payloads assigned to the first row of each key, the keys of [seen]
    apart. *)
Fixpoint assign_first (seen : list cell) (ps : list P) (rows : list R) : list R :=
  match rows with
  | [] => []
  | r :: rows' =>
      (if cell_in (rkey r) seen then r else assign_class (rkey r) ps r)
      :: assign_first (rkey r :: seen) ps rows'
  end.
End Upsert.

(** The function [g] on rows keeps the column [f] of every row, or sets it
    to one value. *)
Definition keeps_or_sets {R A} (f : R -> A) (g : R -> R) : Prop :=
  (forall x, f (g x) = f x) \/ (exists a, forall x, f (g x) = a).

Definition inventory_upsert_all
  : list inventory_cells -> list DeviceInventory.t -> list DeviceInventory.t :=
  upsert_all DeviceInventory.udid DeviceInventory.id c_udid
    assign_inventory new_inventory.

Definition avbox_upsert_all
  : list (cell * mapping_cells) -> list AVBoxMapping.t -> list AVBoxMapping.t :=
  upsert_all AVBoxMapping.dut AVBoxMapping.id fst
    (fun e => assign_avbox (snd e))
    (fun e i => new_avbox (snd e) i).

(** Rows that hold nothing yet. *)
Definition blank_inventory (i : Z) : DeviceInventory.t :=
  DeviceInventory.mk i NULL NULL NULL NULL NULL NULL NULL NULL NULL None.

Definition blank_avbox (i : Z) : AVBoxMapping.t :=
  AVBoxMapping.mk i NULL NULL NULL NULL NULL.

(** The devices of a snapshot that go to the inventory, each with its
    identifier as Python hashes it and its data as the columns hold them
    (lines 222-231 of [main]). *)
Fixpoint inventory_plan {RT : Runtime} (T : json) (devices : list json)
  : result (list (key * inventory_cells)) :=
  match devices with
  | [] => Ok []
  | device :: devices' =>
      keep <- in_inventory device ;;
      if keep then
        data <- device_details_for_db device T ;;
        _ <- column_value (d_udid data) ;;
        cells <- inventory_values data ;;
        k <- hash_key (d_udid data) ;;
        rest <- inventory_plan T devices' ;;
        Ok ((k, cells) :: rest)
      else inventory_plan T devices'
  end.

(** The bundles of a snapshot, each with its key and its items as the
    columns hold them (lines 240-245 of [main]). *)
Definition mapping_entry (entry : key * bundle) : result (cell * mapping_cells) :=
  dut <- key_value (fst entry) ;;
  cells <- mapping_values (snd entry) ;;
  Ok (dut, cells).

Definition mapping_plan (AVBoxs_data : avboxs)
  : result (list (cell * mapping_cells)) :=
  mapM mapping_entry AVBoxs_data.

(** A bundle as it is written: the mapping is looked up by the text that
    is written to its [dut]. *)
Definition keyed_by_dut (q : cell * mapping_cells) : Prop :=
  m_dut (snd q) = fst q.

(** The identifiers of the inventory are pairwise different. *)
Definition unique_udids (d : db) : Prop :=
  NoDup (map DeviceInventory.udid (device_inventory d)).

(** Two devices that resolve to the same identifier. *)
Definition snapshot_twins : json :=
  JObj [("devices",
         JList [JObj [("device_id", JStr "id-T"); ("device_address", JStr "T1");
                      ("device_type", JStr "android"); ("model", JStr "one")];
                JObj [("device_id", JStr "id-T"); ("device_address", JStr "T2");
                      ("device_type", JStr "android"); ("model", JStr "two")]])].

(** Both the tables the transaction began with and those it has written
    to have pairwise different identifiers. *)
Definition session_unique (s : session) : Prop :=
  unique_udids (stored s) /\ unique_udids (txn s).

(** The bundles of [AVBoxs] have pairwise different keys, and each holds
    its key in [dut]. *)
Definition avboxs_wf (m : avboxs) : Prop :=
  NoDup (map fst m) /\ Forall (fun e => b_dut (snd e) = fst e) m.

(** *** Two runs *)

(** An identifier that Python reads back from the column as it wrote it: a
    string or [None].  A number is read back as its text. *)
Definition textual (k : key) : Prop :=
  match k with
  | KInt _ => False
  | _ => True
  end.

(** Every device of the snapshot that goes to the inventory has a textual
    identifier. *)
Definition textual_identifiers (raw : json) : Prop :=
  forall devs devices device k,
    get raw "devices" = Ok devs ->
    py_iter devs = Ok devices ->
    In device devices ->
    in_inventory device = Ok true ->
    unique_key device = Ok k ->
    textual k.

Definition snapshot_numbered : json :=
  JObj [("devices", JList [numbered_device])].

(** ** The fetches

    [fetch_data] over the outcome of [client.get]: the response that came
    back, or the exception the transport raised.  A response carries its
    status code and what [response.json()] answers. *)
Record response : Type := {
  status_code : Z;
  response_json : result json
}.

Definition fetch_data (got : result response) : result json :=
  r <- got ;;
  if status_code r =? 200 then response_json r else Ok JNull.

Section Fetching.
Context {RT : Runtime}.

(** Lines 190-247: the [try] block with its two fetches. *)
Definition main_try_fetching (devices_info team_info : result response) : M unit :=
  devices_list_raw <~ lift (fetch_data devices_info) ;;
  devices_team_list <~ lift (fetch_data team_info) ;;
  main_try devices_list_raw devices_team_list.

(** [main] as it is called: the tables a run leaves, given the tables it
    finds and what the two requests come back with. *)
Definition main_fetching (devices_info team_info : result response) (d : db) : db :=
  match main_try_fetching devices_info team_info (Session d) with
  | Return _ s => txn (close s)
  | Raised _ s => txn (close (rollback s))
  end.
End Fetching.

(** ** More notions the statements are written with *)

(** No item of the list equals an item before it. *)
Definition no_repeats (l : list json) : Prop :=
  forall i j x y,
    (i < j)%nat -> nth_error l i = Some x -> nth_error l j = Some y ->
    py_eq y x = false.

(** The team snapshot lists the team [n] under the address: an entry of
    the devices has an equal address and a team of that name. *)
Definition listed_team (address : json) (devices : list json) (n : string)
  : Prop :=
  exists device a ts teams team,
    In device devices /\
    get device "device_address" = Ok a /\
    py_eq address a = true /\
    get_default device "teams" (JList []) = Ok ts /\
    py_iter ts = Ok teams /\
    In team teams /\
    subscript team "team_name" = Ok (JStr n).

(** [device] is a device under test filed under the key [k], with the
    category [t] and the note [n] the Box Grouper records. *)
Definition dut_record (device : json) (k : key) (t n : json) : Prop :=
  exists info usage a sub ty,
    get device "avbox_info" = Ok info /\
    get info "usage" = Ok usage /\
    py_in "device_under_test" usage = Ok true /\
    get device "device_address" = Ok a /\
    hash_key a = Ok k /\
    get device "device_subtype" = Ok sub /\
    get device "device_type" = Ok ty /\
    t = py_or sub ty /\
    get device "device_note" = Ok n.

(** What one device can do to the bundles. *)
Inductive entry_effect (device : json) (AVBoxs : avboxs) : avboxs -> Prop :=
| effect_skip : entry_effect device AVBoxs AVBoxs
| effect_dut (k : key) (t n : json) :
    dut_record device k t n ->
    entry_effect device AVBoxs
      (avboxs_modify k (set_dut_fields t n) (ensure_bundle k AVBoxs))
| effect_camera (k : key) (a : json) :
    entry_effect device AVBoxs
      (avboxs_modify k (set_camera_device a) (ensure_bundle k AVBoxs))
| effect_control (k : key) (a : json) :
    entry_effect device AVBoxs
      (avboxs_modify k (set_control a) (ensure_bundle k AVBoxs))
| effect_ensure (k : key) :
    entry_effect device AVBoxs (ensure_bundle k AVBoxs).

(** Every field that is set in [b] is set in [b']. *)
Definition keeps_fields (b b' : bundle) : Prop :=
  b_dut b' = b_dut b /\
  (b_device_type b <> None -> b_device_type b' <> None) /\
  (b_device_notes b <> None -> b_device_notes b' <> None) /\
  (b_camera_device b <> None -> b_camera_device b' <> None) /\
  (b_control b <> None -> b_control b' <> None).

(** The identifiers of the inventory as Python reads them. *)
Definition persisted_keys (d : db) : list key :=
  map (fun r => cell_key (DeviceInventory.udid r)) (device_inventory d).

(** A ledger entry of this run: the addition of an identifier that Python
    does not find among the persisted ones, under the text it is bound
    to. *)
Definition added_entry (d : db) (e : DeviceLedger.t) : Prop :=
  DeviceLedger.status e = "added"%string /\
  exists k, key_value k = Ok (DeviceLedger.udid e) /\ ~ In k (persisted_keys d).

(** The tables a run commits when the pass over the devices returns with
    the session [s3] and the bundles are bound to [qs]. *)
Definition committed_tables (qs : list (cell * mapping_cells)) (s3 : session) : db :=
  {| device_inventory := device_inventory (txn s3);
     avbox_mapping := avbox_upsert_all qs (avbox_mapping (txn s3));
     device_ledger := device_ledger (txn s3) |}.

(** What a run leaves, given the outcome of the pass over the devices. *)
Definition run_result (AVBoxs_data : avboxs) (d : db) (pass : outcome unit) : db :=
  match pass with
  | Return _ s3 =>
      match mapping_plan AVBoxs_data with
      | Ok qs => committed_tables qs s3
      | Raise _ => d
      end
  | Raised _ _ => d
  end.

(** A column of a mapping after a bundle is written: the item of the
    bundle, or, when the bundle has none, what was persisted, or NULL. *)
Definition column_after (item : option cell) (persisted : option cell) : cell :=
  match item, persisted with
  | Some c, _ => c
  | None, Some c => c
  | None, None => NULL
  end.

(** Example documents. *)
Definition response_503 : result response :=
  Ok {| status_code := 503; response_json := Raise TypeError |}.

Definition snapshot_plain : json := JObj [("devices", JList [plain_device])].

(** A device whose category is null, and one whose SKUs are not all
    strings. *)
Definition device_null_type : json :=
  JObj [("device_id", JStr "id-N"); ("device_type", JNull)].

Definition device_numeric_sku : json :=
  JObj [("device_id", JStr "id-S"); ("device_type", JStr "android");
        ("device_skus", JList [JStr "a"; JInt 7])].

Definition device_two_skus : json :=
  JObj [("device_id", JStr "id-S"); ("device_type", JStr "android");
        ("device_skus", JList [JStr "a"; JStr "b"])].

Definition teams_P : json :=
  JObj [("devices", JList [team_entry "P" ["qa"; "lab"; "qa"]])].

Definition snapshot_box : json :=
  JObj [("devices", JList [control_of_X; dut_listing_companions; camera_of_X])].

(** The category and the note of the bundle [b] under [k] are unset, or
    they are those of a device under test of [devices] filed under [k]. *)
Definition category_from (devices : list json) (k : key) (b : bundle) : Prop :=
  (b_device_type b = None /\ b_device_notes b = None) \/
  (exists device t n,
      In device devices /\ dut_record device k t n /\
      b_device_type b = Some t /\ b_device_notes b = Some n).

(** The tables after a run on one plain device, and after a run on an
    AV box. *)
Definition db_P : db := main (RT := plain_runtime) snapshot_plain JNull empty_db.

Definition db_box : db := main (RT := plain_runtime) snapshot_box JNull empty_db.

(** The tables after a run on a device whose identifier is a number. *)
Definition db_7 : db := main (RT := plain_runtime) snapshot_numbered JNull empty_db.

(** Another box, whose device under test is at the address Y. *)
Definition snapshot_box_Y : json :=
  JObj [("devices",
         JList [avbox_record "Y" [("device_type", JStr "ios")]
                  [("usage", JStr "device_under_test");
                   ("devices", JList [JStr "D"])]])].

(** The twins and, after them, the plain device. *)
Definition twin (address model : string) : json :=
  JObj [("device_id", JStr "id-T"); ("device_address", JStr address);
        ("device_type", JStr "android"); ("model", JStr model)].

Definition snapshot_twins_and_P : json :=
  JObj [("devices", JList [twin "T1" "one"; twin "T2" "two"; plain_device])].

(** A later snapshot of the box, in which only the device under test
    reports. *)
Definition snapshot_dut_only : json :=
  JObj [("devices", JList [dut_listing_companions])].

(** The same with the device under test of another box. *)
Definition dut_Y : json :=
  avbox_record "Y" [("device_type", JStr "ios")]
    [("usage", JStr "device_under_test"); ("devices", JList [JStr "D"])].

Definition snapshot_two_duts : json :=
  JObj [("devices", JList [dut_listing_companions; dut_Y])].

(** * Properties *)

(** ** Basic facts *)

Lemma key_eqb_eq (a b : key) : key_eqb a b = true <-> a = b.
Proof.
  destruct a, b; simpl; split; intro E; try discriminate; try reflexivity.
  - apply Z.eqb_eq in E. now subst.
  - injection E as ->. apply Z.eqb_refl.
  - apply String.eqb_eq in E. now subst.
  - injection E as ->. apply String.eqb_refl.
Qed.

Lemma key_eqb_refl (a : key) : key_eqb a a = true.
Proof. now apply key_eqb_eq. Qed.

Lemma key_eqb_neq (a b : key) : key_eqb a b = false <-> a <> b.
Proof.
  split.
  - intros E ->. rewrite key_eqb_refl in E. discriminate.
  - intro N. destruct (key_eqb a b) eqn:E; [|reflexivity].
    apply key_eqb_eq in E. contradiction.
Qed.

Lemma key_eqb_sym (a b : key) : key_eqb a b = key_eqb b a.
Proof.
  destruct (key_eqb b a) eqn:E.
  - apply key_eqb_eq in E. subst. apply key_eqb_refl.
  - apply key_eqb_neq. apply key_eqb_neq in E. congruence.
Qed.

Lemma key_in_In (k : key) (s : list key) : key_in k s = true <-> In k s.
Proof.
  unfold key_in. rewrite existsb_exists. split.
  - intros [x [Hx E]]. apply key_eqb_eq in E. now subst.
  - intro Hk. exists k. split; [assumption | apply key_eqb_refl].
Qed.

Lemma set_diff_In (a b : list key) (k : key) :
  In k (set_diff a b) <-> In k a /\ ~ In k b.
Proof.
  unfold set_diff. rewrite filter_In, negb_true_iff.
  rewrite <- key_in_In with (s := b).
  destruct (key_in k b); intuition congruence.
Qed.

Lemma set_diff_self (a : list key) : set_diff a a = [].
Proof.
  destruct (set_diff a a) as [|k l] eqn:E; [reflexivity|].
  assert (Hk : In k (set_diff a a)) by (rewrite E; now left).
  apply set_diff_In in Hk. tauto.
Qed.

Lemma set_of_In (l : list key) (k : key) : In k (set_of l) <-> In k l.
Proof.
  induction l as [|x l IH]; simpl; [tauto|].
  destruct (key_in x l) eqn:E.
  - rewrite IH. apply key_in_In in E. split; [tauto|]. intros [->|]; tauto.
  - simpl. rewrite IH. tauto.
Qed.

Lemma py_eq_str (v : json) (s : string) : py_eq v (JStr s) = true <-> v = JStr s.
Proof.
  destruct v; simpl; split; intro E; try discriminate.
  - apply String.eqb_eq in E. now subst.
  - injection E as ->. apply String.eqb_refl.
Qed.

(** ** Snapshot Diff Engine *)

Lemma added_ids_In (api_unique_ids db_ids : list key) (k : key) :
  In k (added_ids api_unique_ids db_ids) <-> In k api_unique_ids /\ ~ In k db_ids.
Proof. apply set_diff_In. Qed.

Lemma removed_ids_nil (api_unique_ids db_ids : list key) :
  removed_ids api_unique_ids db_ids = [].
Proof. apply set_diff_self. Qed.

(** C1.  With the persisted identifiers A, B, C and the snapshot identifiers
    B, C, D the added identifiers are D, and the documented difference
    (persisted minus snapshot) is A; but [main] subtracts the persisted
    identifiers from themselves, so the removed identifiers it computes are
    empty. *)
Theorem removed_ids_empty_for_ABC_BCD :
  added_ids snapshot_BCD persisted_ABC = [KStr "D"] /\
  removed_ids_documented snapshot_BCD persisted_ABC = [KStr "A"] /\
  removed_ids snapshot_BCD persisted_ABC = [].
Proof. repeat split. Qed.

(** ** Identity Resolver *)

(** C8.  For a device whose category is a string whenever it has no
    sub-category: the effective category is the sub-category when present,
    else [browser] when the category is chrome, firefox or safari in any
    letter case, else the category itself; and the unique identifier is the
    address when the effective category is [browser], else the device
    identifier. *)
Theorem identity_resolver (o : list (string * json)) (cat : string) :
  let device := JObj o in
  let sub := lookup_or_null "device_subtype" o in
  (truthy sub = false -> lookup "device_type" o = Some (JStr cat)) ->
  exists t,
    get_effective_device_type device = Ok t /\
    (truthy sub = true -> t = sub) /\
    (truthy sub = false -> In (lower cat) browser_names -> t = JStr "browser") /\
    (truthy sub = false -> ~ In (lower cat) browser_names -> t = JStr cat) /\
    (t = JStr "browser" ->
     get_unique_device_id device = Ok (lookup_or_null "device_address" o)) /\
    (t <> JStr "browser" ->
     get_unique_device_id device = Ok (lookup_or_null "device_id" o)).
Proof.
  intros device sub Hcat.
  assert (Hid : forall t, get_effective_device_type device = Ok t ->
            (t = JStr "browser" ->
             get_unique_device_id device = Ok (lookup_or_null "device_address" o)) /\
            (t <> JStr "browser" ->
             get_unique_device_id device = Ok (lookup_or_null "device_id" o))).
  { intros t Ht. unfold get_unique_device_id. rewrite Ht. simpl.
    destruct (py_eq t (JStr "browser")) eqn:E.
    - split; [reflexivity|]. apply py_eq_str in E. contradiction.
    - split; [|reflexivity]. intro Hb. subst t. discriminate. }
  assert (Hget : get_effective_device_type device =
                 if truthy sub then Ok sub
                 else lowered <- str_lower (match lookup "device_type" o with
                                            | Some v => v
                                            | None => JStr ""
                                            end) ;;
                      if existsb (String.eqb lowered) browser_names
                      then Ok (JStr "browser")
                      else Ok (match lookup "device_type" o with
                               | Some v => v
                               | None => JStr ""
                               end)) by reflexivity.
  destruct (truthy sub) eqn:Hsub.
  - exists sub. split; [exact Hget|].
    split; [reflexivity|]. split; [discriminate|]. split; [discriminate|].
    apply Hid. exact Hget.
  - rewrite (Hcat eq_refl) in Hget. cbn [bind str_lower] in Hget.
    destruct (existsb (String.eqb (lower cat)) browser_names) eqn:Hb.
    + exists (JStr "browser"). split; [exact Hget|].
      split; [discriminate|]. split; [reflexivity|]. split.
      * intros _ Hn. exfalso. apply Hn.
        apply existsb_exists in Hb. destruct Hb as [x [Hx E]].
        apply String.eqb_eq in E. now subst.
      * apply Hid. exact Hget.
    + exists (JStr cat). split; [exact Hget|].
      split; [discriminate|]. split.
      * intros _ Hi. exfalso.
        assert (existsb (String.eqb (lower cat)) browser_names = true).
        { apply existsb_exists. exists (lower cat).
          split; [assumption | apply String.eqb_refl]. }
        congruence.
      * split; [reflexivity|]. apply Hid. exact Hget.
Qed.

(** A device of category [Chrome] is a browser and is identified by its
    address. *)
Lemma identity_resolver_chrome :
  get_effective_device_type chrome_device = Ok (JStr "browser") /\
  get_unique_device_id chrome_device = Ok (JStr "serial-1@host:chrome").
Proof.
  destruct (identity_resolver
              [("device_type", JStr "Chrome"); ("device_id", JStr "serial-1");
               ("device_address", JStr "serial-1@host:chrome")] "Chrome")
    as [t [Ht [_ [Hb [_ [Hu _]]]]]].
  - intros _. reflexivity.
  - assert (E : t = JStr "browser").
    { apply Hb; [reflexivity | simpl; tauto]. }
    subst t. split; [exact Ht | exact (Hu eq_refl)].
Defined.

(** ** Team Annotator *)

Lemma list_contains_app (x : json) (l1 l2 : list json) :
  list_contains x (l1 ++ l2) = list_contains x l1 || list_contains x l2.
Proof. apply existsb_app. Qed.

Lemma first_appearances_app (seen l1 l2 : list json) :
  first_appearances seen (l1 ++ l2) =
  first_appearances seen l1 ++
  first_appearances (seen ++ first_appearances seen l1) l2.
Proof.
  revert seen. induction l1 as [|x l1 IH]; intro seen; simpl.
  - now rewrite app_nil_r.
  - destruct (list_contains x seen).
    + apply IH.
    + simpl. rewrite IH. now rewrite <- app_assoc.
Qed.

(** The inner loop: the names of one entry are appended unless seen. *)
Lemma collect_team_names (ts names : list json) :
  Forall2 team_name_of ts names ->
  forall acc, foldM collect_team ts acc = Ok (acc ++ first_appearances acc names).
Proof.
  induction 1 as [|t n ts names Hn _ IH]; intro acc; simpl.
  - now rewrite app_nil_r.
  - unfold collect_team at 1. unfold team_name_of in Hn. rewrite Hn. simpl.
    destruct (list_contains n acc); simpl.
    + apply IH.
    + rewrite IH. now rewrite <- app_assoc.
Qed.

(** The outer loop over well-formed entries. *)
Lemma collect_device_names (address : json) (devs : list json)
  (entries : list (json * list json)) :
  Forall2 team_entry_of devs entries ->
  forall acc,
    foldM (collect_device address) devs acc =
    Ok (acc ++ first_appearances acc (names_for address entries)).
Proof.
  induction 1 as [|d e devs entries [Ha [ts [Ht Hn]]] _ IH]; intro acc; simpl.
  - now rewrite app_nil_r.
  - unfold collect_device at 1. rewrite Ha. simpl.
    destruct (py_eq address (fst e)).
    + rewrite Ht. simpl. rewrite (collect_team_names _ _ Hn). simpl.
      rewrite IH. rewrite first_appearances_app. now rewrite <- app_assoc.
    + simpl. apply IH.
Qed.

(** C7, as the code has it.  The team names of the matching entries are
    returned deduplicated in order of first appearance when the entries of
    the snapshot are well formed; the result is empty, without a fault, when
    the snapshot is absent or empty or lists no devices.  (Other malformed
    snapshots may raise.) *)
Theorem get_device_teams_well_formed (address teams_list : json) :
  (truthy teams_list = false -> get_device_teams address teams_list = Ok []) /\
  (forall o, teams_list = JObj o ->
             truthy (lookup_or_null "devices" o) = false ->
             get_device_teams address teams_list = Ok []) /\
  (forall o devs entries,
      teams_list = JObj o ->
      lookup "devices" o = Some (JList devs) ->
      Forall2 team_entry_of devs entries ->
      get_device_teams address teams_list =
      Ok (first_appearances [] (names_for address entries))).
Proof.
  split; [|split].
  - intro Hf. unfold get_device_teams. now rewrite Hf.
  - intros o -> Hd. unfold get_device_teams.
    destruct (truthy (JObj o)); [|reflexivity]. simpl.
    unfold lookup_or_null in Hd. now rewrite Hd.
  - intros o devs entries -> Hl Hwf. unfold get_device_teams.
    assert (Ho : truthy (JObj o) = true).
    { destruct o; [discriminate | reflexivity]. }
    rewrite Ho. simpl. rewrite Hl.
    destruct devs as [|d devs].
    + inversion Hwf. reflexivity.
    + cbn [truthy negb py_iter bind].
      now rewrite (collect_device_names address _ _ Hwf).
Qed.

Lemma team_entry_well_formed (address : string) (names : list string) :
  team_entry_of (team_entry address names) (JStr address, map JStr names).
Proof.
  split; [reflexivity|].
  exists (map (fun n => JObj [("team_name", JStr n)]) names).
  split; [reflexivity|].
  induction names; simpl; constructor; [reflexivity | assumption].
Qed.

(** An address listed with the teams A, B and then B, C has the teams
    A, B, C. *)
Lemma get_device_teams_AB_BC :
  get_device_teams (JStr "X") teams_AB_BC = Ok [JStr "A"; JStr "B"; JStr "C"].
Proof.
  exact (proj2 (proj2 (get_device_teams_well_formed (JStr "X") teams_AB_BC))
           _ _ [(JStr "X", [JStr "A"; JStr "B"]); (JStr "X", [JStr "B"; JStr "C"])]
           eq_refl eq_refl
           (Forall2_cons _ _ (team_entry_well_formed "X" ["A"; "B"])
              (Forall2_cons _ _ (team_entry_well_formed "X" ["B"; "C"])
                 (Forall2_nil _)))).
Defined.

(** A team without a name, or a snapshot that is not a dict, makes the
    Team Annotator raise. *)
Lemma get_device_teams_malformed_raises :
  get_device_teams (JStr "X") teams_unnamed = Raise KeyError /\
  get_device_teams (JStr "X") teams_as_list = Raise AttributeError.
Proof. split; reflexivity. Qed.

(** ** Box Grouper *)

Lemma avboxs_get_app (k : key) (m1 m2 : avboxs) :
  avboxs_get k (m1 ++ m2) =
  match avboxs_get k m1 with
  | Some b => Some b
  | None => avboxs_get k m2
  end.
Proof.
  induction m1 as [|[k' b] m1 IH]; simpl; [reflexivity|].
  destruct (key_eqb k k'); [reflexivity | exact IH].
Qed.

Lemma avboxs_get_modify (k k' : key) (f : bundle -> bundle) (m : avboxs) :
  avboxs_get k' (avboxs_modify k f m) =
  if key_eqb k' k then option_map f (avboxs_get k m) else avboxs_get k' m.
Proof.
  induction m as [|[k0 b] m IH]; simpl.
  - now destruct (key_eqb k' k).
  - destruct (key_eqb k k0) eqn:E0; simpl.
    + apply key_eqb_eq in E0. subst k0.
      destruct (key_eqb k' k); reflexivity.
    + destruct (key_eqb k' k0) eqn:E1.
      * apply key_eqb_eq in E1. subst k0.
        rewrite key_eqb_sym, E0. reflexivity.
      * exact IH.
Qed.

Lemma avboxs_get_ensure (k k' : key) (m : avboxs) :
  avboxs_get k' (ensure_bundle k m) =
  match avboxs_get k' m with
  | Some b => Some b
  | None => if key_eqb k' k then Some (new_bundle k) else None
  end.
Proof.
  unfold ensure_bundle. destruct (avboxs_get k m) eqn:E.
  - destruct (avboxs_get k' m) eqn:E'; [reflexivity|].
    destruct (key_eqb k' k) eqn:Ek; [|reflexivity].
    apply key_eqb_eq in Ek. congruence.
  - rewrite avboxs_get_app. simpl. destruct (avboxs_get k' m); reflexivity.
Qed.

Lemma substring_of_nonempty (c : ascii) (pat s : string) :
  substring_of (String c pat) s = true -> truthy (JStr s) = true.
Proof. destruct s; [discriminate | reflexivity]. Qed.

(** What [add_avbox_mapping_entry] does with a device under test that has
    a usage, a list of devices and an address. *)
Lemma add_entry_dut (o info : list (string * json)) (usage : string)
  (devices address : json) (k : key) (AVBoxs : avboxs) :
  lookup "avbox_info" o = Some (JObj info) ->
  lookup "usage" info = Some (JStr usage) ->
  substring_of "device_under_test" usage = true ->
  lookup "devices" info = Some devices ->
  truthy devices = true ->
  lookup "device_address" o = Some address ->
  truthy address = true ->
  hash_key address = Ok k ->
  add_avbox_mapping_entry (JObj o) AVBoxs =
  Ok (avboxs_modify k
        (set_dut_fields (grouped_category o) (lookup_or_null "device_note" o))
        (ensure_bundle k AVBoxs)).
Proof.
  intros Hi Hu Hs Hd Htd Ha Hta Hk.
  assert (Hinfo : truthy (JObj info) = true).
  { destruct info; [discriminate | reflexivity]. }
  unfold add_avbox_mapping_entry, get, get_default.
  rewrite Hi. cbn [bind]. rewrite Hinfo. cbn [negb].
  rewrite Hu. cbn [bind]. rewrite (substring_of_nonempty _ _ _ Hs). cbn [negb].
  rewrite Hd. cbn [bind]. rewrite Htd. cbn [negb].
  cbn [py_in bind]. rewrite Hs. rewrite Ha. cbn [bind]. rewrite Hta. cbn [negb].
  rewrite Hk. reflexivity.
Qed.

(** What it does with a companion: [role] is the field the companion
    fills, chosen by its usage. *)
Lemma add_entry_companion (o info : list (string * json)) (usage x : string)
  (rest : list json) (AVBoxs : avboxs) :
  lookup "avbox_info" o = Some (JObj info) ->
  lookup "usage" info = Some (JStr usage) ->
  lookup "devices" info = Some (JList (JStr x :: rest)) ->
  x <> ""%string ->
  substring_of "device_under_test" usage = false ->
  add_avbox_mapping_entry (JObj o) AVBoxs =
  if negb (truthy (JStr usage)) then Ok AVBoxs
  else if substring_of "camera_device" usage then
    Ok (avboxs_modify (KStr x)
          (set_camera_device (lookup_or_null "device_address" o))
          (ensure_bundle (KStr x) AVBoxs))
  else if substring_of "control" usage then
    Ok (avboxs_modify (KStr x)
          (set_control (lookup_or_null "device_address" o))
          (ensure_bundle (KStr x) AVBoxs))
  else Ok (ensure_bundle (KStr x) AVBoxs).
Proof.
  intros Hi Hu Hd Hx Hs.
  assert (Hinfo : truthy (JObj info) = true).
  { destruct info; [discriminate | reflexivity]. }
  assert (Htx : truthy (JStr x) = true).
  { destruct x; [congruence | reflexivity]. }
  unfold add_avbox_mapping_entry, get, get_default.
  rewrite Hi. cbn [bind]. rewrite Hinfo. cbn [negb].
  rewrite Hu. cbn [bind].
  destruct (truthy (JStr usage)); cbn [negb]; [|reflexivity].
  rewrite Hd. cbn [bind truthy negb py_in]. rewrite Hs.
  cbn [safe_get_device py_index List.length Z.of_nat].
  cbn -[truthy substring_of avboxs_modify ensure_bundle lookup].
  rewrite Htx. cbn [negb].
  destruct (substring_of "camera_device" usage); [reflexivity|].
  destruct (substring_of "control" usage); reflexivity.
Qed.

(** The bundle a device under test leaves under its own address. *)
Lemma add_entry_dut_bundle (o info : list (string * json)) (usage : string)
  (devices address : json) (k : key) (AVBoxs : avboxs) :
  lookup "avbox_info" o = Some (JObj info) ->
  lookup "usage" info = Some (JStr usage) ->
  substring_of "device_under_test" usage = true ->
  lookup "devices" info = Some devices ->
  truthy devices = true ->
  lookup "device_address" o = Some address ->
  truthy address = true ->
  hash_key address = Ok k ->
  exists AVBoxs' b,
    add_avbox_mapping_entry (JObj o) AVBoxs = Ok AVBoxs' /\
    avboxs_get k AVBoxs' = Some b /\
    b_device_type b = Some (grouped_category o) /\
    b_device_notes b = Some (lookup_or_null "device_note" o) /\
    (forall k', k' <> k -> avboxs_get k' AVBoxs' = avboxs_get k' AVBoxs).
Proof.
  intros Hi Hu Hs Hd Htd Ha Hta Hk.
  pose (b0 := match avboxs_get k AVBoxs with
              | Some b => b
              | None => new_bundle k
              end).
  eexists. exists (set_dut_fields (grouped_category o)
                     (lookup_or_null "device_note" o) b0).
  split; [exact (add_entry_dut _ _ _ _ _ _ _ Hi Hu Hs Hd Htd Ha Hta Hk)|].
  split; [|split; [reflexivity | split; [reflexivity|]]].
  - rewrite avboxs_get_modify, key_eqb_refl, avboxs_get_ensure, key_eqb_refl.
    unfold b0. destruct (avboxs_get k AVBoxs); reflexivity.
  - intros k' Hk'. apply key_eqb_neq in Hk'.
    rewrite avboxs_get_modify, Hk', avboxs_get_ensure, Hk'.
    destruct (avboxs_get k' AVBoxs); reflexivity.
Qed.

(** C6, as the code has it.  A device whose auxiliary info names the usage
    [device_under_test], lists devices, and which has an address, gets a
    bundle under its own address, filled with its category and note, and no
    other bundle changes; a device whose auxiliary info lacks the usage or
    the list of devices is skipped without a fault. *)
Theorem dut_with_devices_is_grouped (o info : list (string * json))
  (AVBoxs : avboxs) :
  lookup "avbox_info" o = Some (JObj info) ->
  (forall usage devices address k,
      lookup "usage" info = Some (JStr usage) ->
      substring_of "device_under_test" usage = true ->
      lookup "devices" info = Some devices ->
      truthy devices = true ->
      lookup "device_address" o = Some address ->
      truthy address = true ->
      hash_key address = Ok k ->
      exists AVBoxs' b,
        add_avbox_mapping_entry (JObj o) AVBoxs = Ok AVBoxs' /\
        avboxs_get k AVBoxs' = Some b /\
        b_device_type b = Some (grouped_category o) /\
        b_device_notes b = Some (lookup_or_null "device_note" o) /\
        (forall k', k' <> k -> avboxs_get k' AVBoxs' = avboxs_get k' AVBoxs)) /\
  (truthy (lookup_or_null "usage" info) = false \/
   truthy (lookup_or_null "devices" info) = false ->
   add_avbox_mapping_entry (JObj o) AVBoxs = Ok AVBoxs).
Proof.
  intro Hi. split.
  - intros usage devices address k. now apply add_entry_dut_bundle.
  - intro Hskip. unfold add_avbox_mapping_entry, get, get_default.
    rewrite Hi. cbn [bind].
    destruct (truthy (JObj info)); cbn [negb]; [|reflexivity].
    fold (lookup_or_null "usage" info). fold (lookup_or_null "devices" info).
    destruct (truthy (lookup_or_null "usage" info)); cbn [negb]; [|reflexivity].
    destruct Hskip as [Hu | Hd]; [discriminate|].
    now rewrite Hd.
Qed.

(** A device under test that lists its companions is grouped under its
    address. *)
Lemma dut_listing_companions_grouped :
  exists AVBoxs' b,
    add_avbox_mapping_entry dut_listing_companions [] = Ok AVBoxs' /\
    avboxs_get (KStr "X") AVBoxs' = Some b /\
    b_device_type b = Some (JStr "android") /\
    b_device_notes b = Some (JStr "rack 3") /\
    (forall k', k' <> KStr "X" -> avboxs_get k' AVBoxs' = avboxs_get k' []).
Proof.
  exact (proj1 (dut_with_devices_is_grouped
                  [("device_address", JStr "X"); ("device_id", JStr "id-X");
                   ("device_type", JStr "android"); ("device_note", JStr "rack 3");
                   ("avbox_info",
                    JObj [("usage", JStr "device_under_test");
                          ("devices", JList [JStr "C"; JStr "K"])])]
                  _ [] eq_refl)
           "device_under_test" (JList [JStr "C"; JStr "K"]) (JStr "X") (KStr "X")
           eq_refl eq_refl eq_refl eq_refl eq_refl eq_refl eq_refl).
Defined.

(** A device under test without a list of devices has an address to key a
    bundle by, and is skipped all the same. *)
Lemma dut_without_devices_skipped :
  get dut_without_devices "device_address" = Ok (JStr "X") /\
  add_avbox_mapping_entry dut_without_devices [] = Ok [] /\
  group_avboxs [dut_without_devices] = Ok [].
Proof. repeat split. Qed.

Lemma Permutation_three_cases {A} (a b c : A) (l : list A) :
  Permutation l [a; b; c] ->
  l = [a; b; c] \/ l = [a; c; b] \/ l = [b; a; c] \/
  l = [b; c; a] \/ l = [c; a; b] \/ l = [c; b; a].
Proof.
  intro P. apply Permutation_sym in P.
  destruct (Permutation_vs_cons_inv (Permutation_sym P)) as [l1 [l2 ->]].
  apply Permutation_cons_app_inv in P.
  apply Permutation_length_2_inv in P.
  destruct P as [E | E];
    destruct l1 as [|x [|y [|z l1]]]; simpl in E;
    try discriminate;
    try (injection E as ? ?); try (injection E as ? ? ?);
    subst; simpl; tauto.
Qed.

Lemma group_step_avbox (o info : list (string * json)) (AVBoxs : avboxs) :
  lookup "avbox_info" o = Some (JObj info) -> info <> [] ->
  group_step AVBoxs (JObj o) = add_avbox_mapping_entry (JObj o) AVBoxs.
Proof.
  intros Hi Hn. unfold group_step, get, get_default. rewrite Hi. cbn [bind].
  destruct info; [contradiction | reflexivity].
Qed.

(** C4, as the code has it.  Three records for the address X: one with the
    usage [device_under_test] and a list of devices of its own, one with the
    usage [camera_device] and the devices [X], one with the usage [control]
    and the devices [X].  In every order they are grouped into one bundle
    under X, whose category and note are those of the device under test and
    whose companions are the addresses of the other two. *)
Theorem box_grouping_any_order (X : string)
  (dut cam ctl idut icam ictl : list (string * json)) (devices : json)
  (l : list json) :
  X <> ""%string ->
  lookup "device_address" dut = Some (JStr X) ->
  lookup "avbox_info" dut = Some (JObj idut) ->
  lookup "usage" idut = Some (JStr "device_under_test") ->
  lookup "devices" idut = Some devices ->
  truthy devices = true ->
  lookup "avbox_info" cam = Some (JObj icam) ->
  lookup "usage" icam = Some (JStr "camera_device") ->
  lookup "devices" icam = Some (JList [JStr X]) ->
  lookup "avbox_info" ctl = Some (JObj ictl) ->
  lookup "usage" ictl = Some (JStr "control") ->
  lookup "devices" ictl = Some (JList [JStr X]) ->
  Permutation l [JObj dut; JObj cam; JObj ctl] ->
  exists b,
    group_avboxs l = Ok [(KStr X, b)] /\
    b_dut b = KStr X /\
    b_device_type b = Some (grouped_category dut) /\
    b_device_notes b = Some (lookup_or_null "device_note" dut) /\
    b_camera_device b = Some (lookup_or_null "device_address" cam) /\
    b_control b = Some (lookup_or_null "device_address" ctl).
Proof.
  intros HX Had Hid Hud Hdd Htd Hic Huc Hdc Hik Huk Hdk P.
  assert (HtX : truthy (JStr X) = true).
  { destruct X; [congruence | reflexivity]. }
  assert (Sdut : forall A, group_step A (JObj dut) =
            Ok (avboxs_modify (KStr X)
                  (set_dut_fields (grouped_category dut)
                     (lookup_or_null "device_note" dut))
                  (ensure_bundle (KStr X) A))).
  { intro A. rewrite (group_step_avbox _ _ _ Hid)
      by (intros ->; discriminate).
    exact (add_entry_dut _ _ _ _ _ _ A Hid Hud eq_refl Hdd Htd Had HtX eq_refl). }
  assert (Scam : forall A, group_step A (JObj cam) =
            Ok (avboxs_modify (KStr X)
                  (set_camera_device (lookup_or_null "device_address" cam))
                  (ensure_bundle (KStr X) A))).
  { intro A. rewrite (group_step_avbox _ _ _ Hic)
      by (intros ->; discriminate).
    exact (add_entry_companion _ _ _ _ _ A Hic Huc Hdc HX eq_refl). }
  assert (Sctl : forall A, group_step A (JObj ctl) =
            Ok (avboxs_modify (KStr X)
                  (set_control (lookup_or_null "device_address" ctl))
                  (ensure_bundle (KStr X) A))).
  { intro A. rewrite (group_step_avbox _ _ _ Hik)
      by (intros ->; discriminate).
    exact (add_entry_companion _ _ _ _ _ A Hik Huk Hdk HX eq_refl). }
  assert (Hmod : forall f b, avboxs_modify (KStr X) f [(KStr X, b)] = [(KStr X, f b)]).
  { intros f b. simpl. now rewrite String.eqb_refl. }
  assert (Hens : forall b, ensure_bundle (KStr X) [(KStr X, b)] = [(KStr X, b)]).
  { intro b. unfold ensure_bundle. simpl. now rewrite String.eqb_refl. }
  assert (Hnew : ensure_bundle (KStr X) [] = [(KStr X, new_bundle (KStr X))])
    by reflexivity.
  unfold group_avboxs.
  destruct (Permutation_three_cases _ _ _ _ P) as [-> | [-> | [-> | [-> | [-> | ->]]]]];
    cbn [foldM];
    rewrite ?Sdut, ?Scam, ?Sctl; cbn [bind];
    rewrite ?Hnew, ?Hmod, ?Hens;
    rewrite ?Sdut, ?Scam, ?Sctl; cbn [bind];
    rewrite ?Hmod, ?Hens;
    rewrite ?Sdut, ?Scam, ?Sctl; cbn [bind];
    rewrite ?Hmod, ?Hens, ?Hmod;
    eexists; (split; [reflexivity|]); repeat split.
Qed.

(** The three records in the order control, device under test, camera. *)
Lemma box_grouping_control_first :
  exists b,
    group_avboxs [control_of_X; dut_listing_companions; camera_of_X] =
    Ok [(KStr "X", b)] /\
    b_dut b = KStr "X" /\
    b_device_type b = Some (JStr "android") /\
    b_device_notes b = Some (JStr "rack 3") /\
    b_camera_device b = Some (JStr "C") /\
    b_control b = Some (JStr "K").
Proof.
  refine (box_grouping_any_order "X"
            [("device_address", JStr "X"); ("device_id", JStr "id-X");
             ("device_type", JStr "android"); ("device_note", JStr "rack 3");
             ("avbox_info",
              JObj [("usage", JStr "device_under_test");
                    ("devices", JList [JStr "C"; JStr "K"])])]
            [("device_address", JStr "C"); ("device_id", JStr "id-C");
             ("device_type", JStr "android");
             ("avbox_info",
              JObj [("usage", JStr "camera_device"); ("devices", JList [JStr "X"])])]
            [("device_address", JStr "K"); ("device_id", JStr "id-K");
             ("device_type", JStr "android");
             ("avbox_info",
              JObj [("usage", JStr "control"); ("devices", JList [JStr "X"])])]
            _ _ _ (JList [JStr "C"; JStr "K"])
            [control_of_X; dut_listing_companions; camera_of_X]
            _ eq_refl eq_refl eq_refl eq_refl eq_refl
            eq_refl eq_refl eq_refl eq_refl eq_refl eq_refl _).
  - discriminate.
  - apply Permutation_sym.
    eapply perm_trans; [apply perm_skip; apply perm_swap | apply perm_swap].
Defined.

(** With the records as the design lists them - the device under test has
    a usage and an address, but no list of devices - the bundle for X has
    its companions and neither category nor note. *)
Lemma box_grouping_dut_without_devices :
  group_avboxs [dut_without_devices; camera_of_X; control_of_X] =
  Ok [(KStr "X",
       {| b_dut := KStr "X";
          b_device_type := None;
          b_device_notes := None;
          b_camera_device := Some (JStr "C");
          b_control := Some (JStr "K") |})].
Proof. reflexivity. Qed.

(** ** The columns *)

Lemma cell_eqb_eq (a b : cell) : cell_eqb a b = true <-> a = b.
Proof.
  destruct a, b; simpl; try (split; [discriminate | discriminate]);
    try (split; reflexivity).
  rewrite String.eqb_eq. split; [now intros -> | now intros [= ->]].
Qed.

Lemma cell_eqb_refl (a : cell) : cell_eqb a a = true.
Proof. now apply cell_eqb_eq. Qed.

Lemma cell_eqb_neq (a b : cell) : cell_eqb a b = false <-> a <> b.
Proof.
  split.
  - intros E H. apply cell_eqb_eq in H. congruence.
  - intro N. destruct (cell_eqb a b) eqn:E; [|reflexivity].
    apply cell_eqb_eq in E. contradiction.
Qed.

(** A value that can be bound can be hashed, and its key is bound to the
    same cell. *)
Lemma column_value_key (v : json) (c : cell) :
  column_value v = Ok c ->
  exists k, hash_key v = Ok k /\ key_value k = Ok c.
Proof.
  destruct v as [|[|]|n|s|l|o]; simpl; intro E; try discriminate;
    eexists; (split; [reflexivity | exact E]).
Qed.

Lemma hash_key_value (v : json) (k : key) :
  hash_key v = Ok k -> column_value v = key_value k.
Proof.
  destruct v as [|[|]|n|s|l|o]; simpl; intro E; try discriminate;
    now injection E as <-.
Qed.

(** A textual identifier is read back as it was written. *)
Lemma textual_read_back (k : key) (c : cell) :
  textual k -> key_value k = Ok c -> cell_key c = k.
Proof.
  destruct k as [|n|s]; simpl; intros Ht E; [|contradiction|];
    now injection E as <-.
Qed.

(** A number is read back as a string. *)
Lemma number_read_back (n : Z) (c : cell) :
  key_value (KInt n) = Ok c -> cell_key c = KStr (decimal n).
Proof.
  simpl. destruct (int64 n); intro E; [|discriminate]. now injection E as <-.
Qed.

Lemma cell_key_not_number (c : cell) (n : Z) : cell_key c <> KInt n.
Proof. destruct c; discriminate. Qed.

Lemma inventory_values_udid (data : inventory_data) (cells : inventory_cells) :
  inventory_values data = Ok cells ->
  column_value (d_udid data) = Ok (c_udid cells).
Proof.
  unfold inventory_values. intro E.
  repeat match type of E with
         | context [bind ?m _] =>
             destruct m eqn:?; cbn [bind] in E; try discriminate
         end.
  now injection E as <-.
Qed.

(** ** Reconciler: one device *)

Section OneDevice.
Context {RT : Runtime}.

Lemma upsert_device_excluded (T : json) (AV : avboxs) (added : list key)
  (device : json) (s : session) :
  in_inventory device = Ok false ->
  upsert_device T AV added device s = Return tt s.
Proof. intro Hk. unfold upsert_device, bindM, lift. now rewrite Hk. Qed.

Lemma upsert_device_included (T : json) (AV : avboxs) (added : list key)
  (device : json) (s : session) (data : inventory_data)
  (cells : inventory_cells) (k : key) :
  in_inventory device = Ok true ->
  device_details_for_db device T = Ok data ->
  inventory_values data = Ok cells ->
  hash_key (d_udid data) = Ok k ->
  upsert_device T AV added device s =
  let s1 := {| stored := stored s;
               txn := set_inventory (upsert_inventory (c_udid cells) cells)
                        (txn s) |} in
  if key_in k added then
    match added_details device AV with
    | Ok details => add_ledger (c_udid cells) "added" (json_dumps details) s1
    | Raise e => Raised e s1
    end
  else Return tt s1.
Proof.
  intros Hk Hd Hc Hh. unfold upsert_device, bindM, lift.
  rewrite Hk, Hd, (inventory_values_udid _ _ Hc), Hc, Hh. cbn [modify].
  destruct (key_in k added); [|reflexivity].
  destruct (added_details device AV); reflexivity.
Qed.

(** A device whose data cannot be computed, or cannot be bound, raises
    before anything is written. *)
Lemma upsert_device_unbound (T : json) (AV : avboxs) (added : list key)
  (device : json) (s : session) :
  in_inventory device = Ok true ->
  match device_details_for_db device T with
  | Ok data => exists e, inventory_values data = Raise e
  | Raise _ => True
  end ->
  exists e, upsert_device T AV added device s = Raised e s.
Proof.
  intros Hk H. unfold upsert_device, bindM, lift. rewrite Hk.
  destruct (device_details_for_db device T) as [data|e]; [|now exists e].
  destruct H as [e He].
  destruct (column_value (d_udid data)) as [c|e']; [|now exists e'].
  rewrite He. now exists e.
Qed.






Lemma in_inventory_dict (o : list (string * json)) :
  in_inventory (JObj o) =
  let info := lookup_or_null "avbox_info" o in
  if negb (truthy info) then Ok true
  else usage <- get info "usage" ;; Ok (py_eq usage (JStr "device_under_test")).
Proof. reflexivity. Qed.


(** C10, as the code has it.  A device whose usage contains
    [device_under_test] without being that string, and which lists devices
    and has an address, is grouped as the device under test of a bundle
    and is kept out of the inventory. *)
Theorem substring_dut_grouped_not_inventoried (o info : list (string * json))
  (usage : string) (devices address : json) (k : key) (AVBoxs : avboxs) :
  lookup "avbox_info" o = Some (JObj info) ->
  lookup "usage" info = Some (JStr usage) ->
  substring_of "device_under_test" usage = true ->
  usage <> "device_under_test"%string ->
  lookup "devices" info = Some devices ->
  truthy devices = true ->
  lookup "device_address" o = Some address ->
  truthy address = true ->
  hash_key address = Ok k ->
  (exists AVBoxs' b,
      add_avbox_mapping_entry (JObj o) AVBoxs = Ok AVBoxs' /\
      avboxs_get k AVBoxs' = Some b /\
      b_device_type b = Some (grouped_category o) /\
      b_device_notes b = Some (lookup_or_null "device_note" o) /\
      (forall k', k' <> k -> avboxs_get k' AVBoxs' = avboxs_get k' AVBoxs)) /\
  in_inventory (JObj o) = Ok false /\
  (forall T AV added s, upsert_device T AV added (JObj o) s = Return tt s).
Proof.
  intros Hi Hu Hs Hne Hd Htd Ha Hta Hk.
  assert (Hin : in_inventory (JObj o) = Ok false).
  { rewrite in_inventory_dict. unfold lookup_or_null. rewrite Hi.
    assert (Ht : truthy (JObj info) = true).
    { destruct info; [discriminate | reflexivity]. }
    cbv zeta. rewrite Ht. cbn [negb get get_default bind]. rewrite Hu.
    destruct (py_eq (JStr usage) (JStr "device_under_test")) eqn:E;
      [|reflexivity].
    apply py_eq_str in E. congruence. }
  split; [now apply (add_entry_dut_bundle o info usage devices address)|].
  split; [exact Hin|].
  intros T AV added s. now apply upsert_device_excluded.
Qed.
End OneDevice.


(** A spare device under test that lists a companion is grouped and kept
    out of the inventory. *)
Lemma spare_dut_grouped_not_inventoried :
  (exists AVBoxs' b,
      add_avbox_mapping_entry spare_dut [] = Ok AVBoxs' /\
      avboxs_get (KStr "X") AVBoxs' = Some b /\
      b_device_type b = Some (JStr "android") /\
      b_device_notes b = Some (JStr "spare") /\
      (forall k', k' <> KStr "X" -> avboxs_get k' AVBoxs' = avboxs_get k' [])) /\
  in_inventory spare_dut = Ok false /\
  (forall T AV added s,
      upsert_device (RT := plain_runtime) T AV added spare_dut s = Return tt s).
Proof.
  refine (substring_dut_grouped_not_inventoried (RT := plain_runtime)
            [("device_address", JStr "X"); ("device_id", JStr "id-X");
             ("device_type", JStr "android"); ("device_note", JStr "spare");
             ("avbox_info",
              JObj [("usage", JStr "device_under_test_spare");
                    ("devices", JList [JStr "C"])])]
            _ "device_under_test_spare" (JList [JStr "C"]) (JStr "X") (KStr "X") []
            eq_refl eq_refl eq_refl _ eq_refl eq_refl eq_refl eq_refl eq_refl).
  discriminate.
Defined.

(** A spare device under test without a list of devices is kept out of the
    inventory and is not grouped either. *)
Lemma spare_dut_without_devices_not_grouped :
  py_in "device_under_test" (JStr "device_under_test_spare") = Ok true /\
  in_inventory spare_dut_without_devices = Ok false /\
  add_avbox_mapping_entry spare_dut_without_devices [] = Ok [] /\
  group_avboxs [spare_dut_without_devices] = Ok [].
Proof. repeat split. Qed.

(** ** Sessions *)

Lemma bindM_Raised {A B} (m : M A) (k : A -> M B) (s s' : session) (e : exn) :
  bindM m k s = Raised e s' ->
  m s = Raised e s' \/ exists a s1, m s = Return a s1 /\ k a s1 = Raised e s'.
Proof.
  unfold bindM. destruct (m s) as [a s1|e1 s1]; intro E.
  - right. now exists a, s1.
  - left. now injection E as -> ->.
Qed.

Lemma bindM_Return {A B} (m : M A) (k : A -> M B) (s s' : session) (b : B) :
  bindM m k s = Return b s' ->
  exists a s1, m s = Return a s1 /\ k a s1 = Return b s'.
Proof.
  unfold bindM. destruct (m s) as [a s1|e1 s1]; intro E; [|discriminate].
  now exists a, s1.
Qed.

Lemma lift_Return {A} (r : result A) (s s' : session) (a : A) :
  lift r s = Return a s' -> r = Ok a /\ s' = s.
Proof. unfold lift. destruct r; intro E; [|discriminate]. now injection E as -> ->. Qed.

Lemma lift_Raised {A} (r : result A) (s s' : session) (e : exn) :
  @lift A r s = Raised e s' -> s' = s.
Proof. unfold lift. destruct r; intro E; [discriminate|]. now injection E as _ ->. Qed.

Section Preservation.
Variable I : session -> Prop.

Lemma preserves_ret {A} (a : A) : preserves I (ret a).
Proof. intros s Hs. exact Hs. Qed.

Lemma preserves_lift {A} (r : result A) : preserves I (lift r).
Proof. intros s Hs. unfold lift. now destruct r. Qed.

Lemma preserves_query {A} (f : db -> A) : preserves I (query f).
Proof. intros s Hs. exact Hs. Qed.

Lemma preserves_bindM {A B} (m : M A) (k : A -> M B) :
  preserves I m -> (forall a, preserves I (k a)) -> preserves I (bindM m k).
Proof.
  intros Hm Hk s Hs. unfold bindM. specialize (Hm s Hs).
  destruct (m s) as [a s1|e s1]; simpl in *; [now apply Hk | exact Hm].
Qed.

Lemma preserves_forM {B} (f : B -> M unit) (l : list B) :
  (forall b, preserves I (f b)) -> preserves I (forM f l).
Proof.
  intro Hf. induction l as [|b l IH]; simpl.
  - apply preserves_ret.
  - apply preserves_bindM; [apply Hf | intros _; exact IH].
Qed.

Lemma preserves_if {A} (c : bool) (m1 m2 : M A) :
  preserves I m1 -> preserves I m2 -> preserves I (if c then m1 else m2).
Proof. now destruct c. Qed.

Lemma preserves_modify (f : db -> db) :
  (forall s, I s -> I {| stored := stored s; txn := f (txn s) |}) ->
  preserves I (modify f).
Proof. intros Hf s Hs. now apply Hf. Qed.
End Preservation.

Section Runs.
Context {RT : Runtime}.

Lemma modify_keeps_stored (d : db) (f : db -> db) :
  preserves (stored_is d) (modify f).
Proof. apply preserves_modify. intros s Hs. exact Hs. Qed.

Lemma remove_device_keeps_stored (d : db) (k : key) :
  preserves (stored_is d) (remove_device k).
Proof.
  unfold remove_device.
  repeat first [ apply preserves_bindM; [|intro]
               | apply preserves_query | apply preserves_lift
               | apply modify_keeps_stored ].
Qed.

Lemma upsert_device_keeps_stored (d : db) (T : json) (AV : avboxs)
  (added : list key) (device : json) :
  preserves (stored_is d) (upsert_device T AV added device).
Proof.
  unfold upsert_device.
  repeat first [ apply preserves_bindM; [|intro]
               | apply preserves_if
               | apply preserves_ret
               | apply preserves_query | apply preserves_lift
               | apply modify_keeps_stored ].
Qed.

Lemma upsert_mapping_keeps_stored (d : db) (entry : key * bundle) :
  preserves (stored_is d) (upsert_mapping entry).
Proof.
  destruct entry as [k b]. unfold upsert_mapping.
  repeat first [ apply preserves_bindM; [|intro]
               | apply preserves_lift
               | apply modify_keeps_stored ].
Qed.

(** A fault in the [try] block finds the tables the transaction began with
    untouched. *)
Lemma main_try_Raised (raw T : json) (s s' : session) (e : exn) :
  main_try raw T s = Raised e s' -> stored s' = stored s.
Proof.
  unfold main_try.
  destruct (negb (truthy raw)); [discriminate|].
  intro E. apply bindM_Raised in E.
  destruct E as [E | [devs [s1 [E1 E]]]]; [apply lift_Raised in E; now subst|].
  apply lift_Return in E1. destruct E1 as [_ ->].
  destruct (negb (truthy devs)); [discriminate|].
  assert (P : forall (m : M unit), preserves (stored_is (stored s)) m ->
              forall s0 e0 s1, stored s0 = stored s -> m s0 = Raised e0 s1 ->
                               stored s1 = stored s).
  { intros m Hm s0 e0 s1 H0 Hr. specialize (Hm s0 H0). now rewrite Hr in Hm. }
  assert (Q : forall (m : M unit), preserves (stored_is (stored s)) m ->
              forall s0 u s1, stored s0 = stored s -> m s0 = Return u s1 ->
                              stored s1 = stored s).
  { intros m Hm s0 u s1 H0 Hr. specialize (Hm s0 H0). now rewrite Hr in Hm. }
  apply bindM_Raised in E.
  destruct E as [E | [devices [s1 [E1 E]]]]; [apply lift_Raised in E; now subst|].
  apply lift_Return in E1. destruct E1 as [_ ->].
  apply bindM_Raised in E.
  destruct E as [E | [AV [s1 [E1 E]]]]; [apply lift_Raised in E; now subst|].
  apply lift_Return in E1. destruct E1 as [_ ->].
  apply bindM_Raised in E.
  destruct E as [E | [ids [s1 [E1 E]]]]; [apply lift_Raised in E; now subst|].
  apply lift_Return in E1. destruct E1 as [_ ->].
  apply bindM_Raised in E.
  destruct E as [E | [db_ids [s1 [E1 E]]]]; [discriminate|].
  injection E1 as _ <-.
  apply bindM_Raised in E.
  destruct E as [E | [u1 [s1 [E1 E]]]].
  { refine (P _ _ _ _ _ eq_refl E).
    apply preserves_forM. intro. apply remove_device_keeps_stored. }
  assert (H1 : stored s1 = stored s).
  { refine (Q _ _ _ _ _ eq_refl E1).
    apply preserves_forM. intro. apply remove_device_keeps_stored. }
  apply bindM_Raised in E.
  destruct E as [E | [u2 [s2 [E2 E]]]].
  { refine (P _ _ _ _ _ H1 E).
    apply preserves_forM. intro. apply upsert_device_keeps_stored. }
  assert (H2 : stored s2 = stored s).
  { refine (Q _ _ _ _ _ H1 E2).
    apply preserves_forM. intro. apply upsert_device_keeps_stored. }
  apply bindM_Raised in E.
  destruct E as [E | [u3 [s3 [E3 E]]]]; [|discriminate].
  refine (P _ _ _ _ _ H2 E).
  apply preserves_forM. intro. apply upsert_mapping_keeps_stored.
Qed.

(** C2.  When the [try] block of a run raises - at a lookup, at a write
    whose values cannot be bound, or in the Python code between them -
    with whatever the transaction has written by then, the handler's
    rollback leaves the session with the tables the run began with, and
    these are the tables the next session finds. *)
Theorem fault_rolls_back (raw T : json) (d : db) (e : exn) (s' : session) :
  main_try raw T (Session d) = Raised e s' ->
  rollback s' = Session d /\ main raw T d = d.
Proof.
  intro E. pose proof (main_try_Raised _ _ _ _ _ E) as Hs.
  cbn [stored Session] in Hs.
  assert (Hr : rollback s' = Session d).
  { unfold rollback, Session. now rewrite Hs. }
  split; [exact Hr|].
  unfold main. rewrite E. unfold close. now rewrite Hr.
Qed.
End Runs.

(** The second device of [snapshot_unbindable] has a list as its model: the
    run raises the driver's error when the record of the first device is
    in the inventory, and none of it is left after the run. *)
Lemma fault_rolls_back_snapshot_unbindable :
  exists s',
    main_try (RT := plain_runtime) snapshot_unbindable JNull (Session empty_db) =
    Raised DBAPIError s' /\
    device_inventory (txn s') = [record_P 1] /\
    rollback s' = Session empty_db /\
    main (RT := plain_runtime) snapshot_unbindable JNull empty_db = empty_db.
Proof.
  eexists. split; [vm_compute; reflexivity|].
  split; [reflexivity|].
  eapply (fault_rolls_back (RT := plain_runtime) snapshot_unbindable JNull
            empty_db).
  vm_compute. reflexivity.
Defined.

(** The same with a device whose lookup raises, its identifier being too
    large, and with one whose ledger entry raises. *)
Lemma snapshot_huge_id_raises :
  exists s',
    main_try (RT := plain_runtime) snapshot_huge_id JNull (Session empty_db) =
    Raised OverflowError s' /\
    device_inventory (txn s') = [record_P 1] /\
    main (RT := plain_runtime) snapshot_huge_id JNull empty_db = empty_db.
Proof. eexists. split; [vm_compute; reflexivity|]. split; reflexivity. Qed.

Lemma snapshot_faulting_raises :
  exists s',
    main_try (RT := plain_runtime) snapshot_faulting JNull (Session empty_db) =
    Raised KeyError s' /\
    List.length (device_ledger (txn s')) = 1%nat /\
    main (RT := plain_runtime) snapshot_faulting JNull empty_db = empty_db.
Proof. eexists. split; [vm_compute; reflexivity|]. repeat split. Qed.

(** ** Upserts by key *)

Lemma update_first_app {R} (m : R -> bool) (f : R -> R) (rows tail : list R) :
  existsb m rows = true ->
  update_first m f (rows ++ tail) = update_first m f rows ++ tail.
Proof.
  induction rows as [|r rows IH]; simpl; [discriminate|].
  destruct (m r); simpl; intro E; [reflexivity | now rewrite IH].
Qed.

Lemma find_existsb {R} (m : R -> bool) (rows : list R) :
  find m rows = None <-> existsb m rows = false.
Proof.
  induction rows as [|r rows IH]; simpl; [tauto|].
  destruct (m r); simpl; [split; discriminate | exact IH].
Qed.

Lemma next_id_update_first {R} (rid : R -> Z) (m : R -> bool) (f : R -> R)
  (rows : list R) :
  (forall r, rid (f r) = rid r) ->
  next_id rid (update_first m f rows) = next_id rid rows.
Proof.
  intro Hid. unfold next_id. f_equal.
  induction rows as [|r rows IH]; simpl; [reflexivity|].
  destruct (m r); simpl; [now rewrite Hid | now rewrite IH].
Qed.

Lemma find_app_first {R} (m : R -> bool) (l1 l2 : list R) :
  find m (l1 ++ l2) =
  match find m l1 with
  | Some r => Some r
  | None => find m l2
  end.
Proof.
  induction l1 as [|r l1 IH]; simpl; [reflexivity|].
  destruct (m r); [reflexivity | exact IH].
Qed.

Lemma ids_update_first {R} (rid : R -> Z) (m : R -> bool) (f : R -> R)
  (rows : list R) :
  (forall r, rid (f r) = rid r) ->
  map rid (update_first m f rows) = map rid rows.
Proof.
  intro Hid. induction rows as [|r rows IH]; simpl; [reflexivity|].
  destruct (m r); simpl; [now rewrite Hid | now rewrite IH].
Qed.

Lemma nth_update_first_other {R} (m : R -> bool) (f : R -> R) (rows : list R)
  (i : nat) (r : R) :
  m r = false -> nth_error rows i = Some r ->
  nth_error (update_first m f rows) i = Some r.
Proof.
  intro Hm. revert i. induction rows as [|x rows IH]; intros i Hn;
    [destruct i; discriminate|].
  simpl. destruct (m x) eqn:Hx.
  - destruct i; simpl in *; [|assumption]. injection Hn as ->. congruence.
  - destruct i; simpl in *; [assumption | now apply IH].
Qed.

Lemma cell_in_In (c : cell) (seen : list cell) :
  cell_in c seen = true <-> In c seen.
Proof.
  unfold cell_in. rewrite existsb_exists. split.
  - intros [x [Hx E]]. apply cell_eqb_eq in E. now subst.
  - intro H. exists c. split; [assumption | apply cell_eqb_refl].
Qed.

Section UpsertFacts.
Context {R P : Type}.
Variables (rkey : R -> cell) (rid : R -> Z) (pkey : P -> cell).
Variables (assign : P -> R -> R) (create : P -> Z -> R).

(** The payloads the facts are about. *)
Variable ok : P -> Prop.
Hypothesis assign_key : forall p r, ok p -> rkey (assign p r) = pkey p.
Hypothesis create_key : forall p i, ok p -> rkey (create p i) = pkey p.
Hypothesis assign_id : forall p r, rid (assign p r) = rid r.

Local Notation "'looking'" := (keyed rkey).
Local Notation "'matching'" := (matches rkey pkey).
Local Notation "'put'" := (upsert rkey rid pkey assign create).
Local Notation "'put_all'" := (upsert_all rkey rid pkey assign create).

Lemma keyed_true (c : cell) (r : R) : looking c r = true <-> rkey r = c.
Proof. apply cell_eqb_eq. Qed.

Lemma keyed_false (c : cell) (r : R) : looking c r = false <-> rkey r <> c.
Proof. apply cell_eqb_neq. Qed.

Lemma matches_true (p : P) (r : R) : matching p r = true <-> rkey r = pkey p.
Proof. apply cell_eqb_eq. Qed.

Lemma covered_existsb (p : P) (rows : list R) :
  existsb (matching p) rows = true <-> In (pkey p) (map rkey rows).
Proof.
  rewrite existsb_exists, in_map_iff. split.
  - intros [r [Hr Hm]]. exists r. apply matches_true in Hm. now split.
  - intros [r [Hk Hr]]. exists r. split; [assumption|]. now apply matches_true.
Qed.

Lemma keys_update_first (p : P) (rows : list R) :
  ok p ->
  map rkey (update_first (matching p) (assign p) rows) = map rkey rows.
Proof.
  intro Hp. induction rows as [|r rows IH]; simpl; [reflexivity|].
  destruct (matching p r) eqn:E; simpl.
  - apply matches_true in E. now rewrite assign_key, E.
  - now rewrite IH.
Qed.

(** The keys of a table after an upsert. *)
Lemma keys_upsert (p : P) (rows : list R) :
  ok p ->
  map rkey (put p rows) =
  if existsb (matching p) rows then map rkey rows
  else map rkey rows ++ [pkey p].
Proof.
  intro Hp. unfold upsert.
  destruct (find (matching p) rows) eqn:Hf.
  - destruct (existsb (matching p) rows) eqn:He.
    + now apply keys_update_first.
    + apply find_existsb in He. congruence.
  - apply find_existsb in Hf. rewrite Hf.
    rewrite map_app. simpl. now rewrite create_key.
Qed.

Lemma covered_upsert (p q : P) (rows : list R) :
  ok p ->
  existsb (matching q) rows = true \/ pkey q = pkey p ->
  existsb (matching q) (put p rows) = true.
Proof.
  intros Hp Hq. apply covered_existsb. rewrite keys_upsert by assumption.
  destruct (existsb (matching p) rows) eqn:He.
  - destruct Hq as [Hq | Hq].
    + now apply covered_existsb.
    + rewrite Hq. now apply covered_existsb.
  - apply in_or_app. destruct Hq as [Hq | Hq].
    + left. now apply covered_existsb.
    + right. rewrite Hq. now left.
Qed.

Lemma covered_upsert_all (ps : list P) (q : P) (rows : list R) :
  Forall ok ps ->
  existsb (matching q) rows = true \/ In q ps ->
  existsb (matching q) (put_all ps rows) = true.
Proof.
  intro Hps. revert rows.
  induction Hps as [|p ps Hp _ IH]; intros rows Hq; simpl.
  - destruct Hq as [Hq | []]. exact Hq.
  - apply IH. destruct Hq as [Hq | [-> | Hq]].
    + left. apply covered_upsert; [assumption | now left].
    + left. apply covered_upsert; [assumption | now right].
    + now right.
Qed.

(** An upsert keeps the keys pairwise different. *)
Lemma NoDup_upsert (p : P) (rows : list R) :
  ok p -> NoDup (map rkey rows) -> NoDup (map rkey (put p rows)).
Proof.
  intros Hp Hn. rewrite keys_upsert by assumption.
  destruct (existsb (matching p) rows) eqn:He; [assumption|].
  apply NoDup_app; [assumption | constructor; [intros [] | constructor] |].
  intros k Hk [<- | []].
  apply covered_existsb in Hk. congruence.
Qed.

Lemma upsert_covered (p : P) (rows : list R) :
  existsb (matching p) rows = true ->
  put p rows = update_first (matching p) (assign p) rows.
Proof.
  intro He. unfold upsert.
  destruct (find (matching p) rows) eqn:Hf; [reflexivity|].
  apply find_existsb in Hf. congruence.
Qed.

Lemma upsert_all_app (ps qs : list P) (rows : list R) :
  put_all (ps ++ qs) rows = put_all qs (put_all ps rows).
Proof. apply fold_left_app. Qed.

Lemma upsert_all_cons (p : P) (ps : list P) (rows : list R) :
  put_all (p :: ps) rows = put_all ps (put p rows).
Proof. reflexivity. Qed.

(** A row with another key stays where it is and as it is. *)
Lemma nth_upsert_other (p : P) (rows : list R) (i : nat) (r : R) :
  rkey r <> pkey p -> nth_error rows i = Some r ->
  nth_error (put p rows) i = Some r.
Proof.
  intros Hk Hn. unfold upsert. destruct (find (matching p) rows).
  - apply nth_update_first_other; [|assumption].
    now apply keyed_false.
  - rewrite nth_error_app1; [assumption|].
    apply nth_error_Some. congruence.
Qed.

Lemma nth_upsert_all_other (ps : list P) (r : R) :
  (forall p, In p ps -> rkey r <> pkey p) ->
  forall rows i, nth_error rows i = Some r ->
                 nth_error (put_all ps rows) i = Some r.
Proof.
  induction ps as [|p ps IH]; intros Hk rows i Hn; [assumption|].
  simpl. apply IH.
  - intros q Hq. apply Hk. now right.
  - apply nth_upsert_other; [|assumption]. apply Hk. now left.
Qed.

(** An upsert keeps the ids of the rows, in their order. *)
Lemma ids_upsert_all (ps : list P) :
  forall rows, exists new, map rid (put_all ps rows) = map rid rows ++ new.
Proof.
  induction ps as [|p ps IH]; intro rows.
  - exists []. now rewrite app_nil_r.
  - simpl. destruct (IH (put p rows)) as [new Hnew]. rewrite Hnew.
    unfold upsert. destruct (find (matching p) rows).
    + exists new. now rewrite ids_update_first by (intro; apply assign_id).
    + rewrite map_app, <- app_assoc. eauto.
Qed.

(** And their keys. *)
Lemma keys_upsert_all (ps : list P) :
  Forall ok ps ->
  forall rows, exists new, map rkey (put_all ps rows) = map rkey rows ++ new.
Proof.
  induction 1 as [|p ps Hp _ IH]; intro rows.
  - exists []. now rewrite app_nil_r.
  - simpl. destruct (IH (put p rows)) as [new Hnew]. rewrite Hnew.
    rewrite keys_upsert by assumption.
    destruct (existsb (matching p) rows); [eauto|].
    rewrite <- app_assoc. eauto.
Qed.

Lemma NoDup_upsert_all (ps : list P) :
  Forall ok ps ->
  forall rows, NoDup (map rkey rows) -> NoDup (map rkey (put_all ps rows)).
Proof.
  induction 1 as [|p ps Hp _ IH]; intros rows Hn; simpl; [assumption|].
  apply IH. now apply NoDup_upsert.
Qed.

Lemma find_update_first_other (c : cell) (q : P) (rows : list R) :
  ok q -> pkey q <> c ->
  find (looking c) (update_first (matching q) (assign q) rows) =
  find (looking c) rows.
Proof.
  intros Hq N. induction rows as [|r rows IH]; simpl; [reflexivity|].
  destruct (matching q r) eqn:Eq; simpl.
  - assert (E1 : looking c (assign q r) = false).
    { apply keyed_false. now rewrite assign_key. }
    assert (E2 : looking c r = false).
    { apply keyed_false. apply matches_true in Eq. congruence. }
    now rewrite E1, E2.
  - destruct (looking c r); [reflexivity | exact IH].
Qed.

(** The row found for a key is not touched by a payload with another key. *)
Lemma find_upsert_other (c : cell) (q : P) (rows : list R) :
  ok q -> pkey q <> c ->
  find (looking c) (put q rows) = find (looking c) rows.
Proof.
  intros Hq N. unfold upsert. destruct (find (matching q) rows).
  - now apply find_update_first_other.
  - rewrite find_app_first. destruct (find (looking c) rows); [reflexivity|].
    simpl.
    assert (E : looking c (create q (next_id rid rows)) = false).
    { apply keyed_false. now rewrite create_key. }
    now rewrite E.
Qed.

Lemma find_upsert_all_others (c : cell) (ps : list P) :
  Forall ok ps -> (forall q, In q ps -> pkey q <> c) ->
  forall rows, find (looking c) (put_all ps rows) = find (looking c) rows.
Proof.
  induction 1 as [|q ps Hq _ IH]; intros N rows; [reflexivity|].
  simpl. rewrite IH by (intros q' Hq'; apply N; now right).
  apply find_upsert_other; [assumption|]. apply N. now left.
Qed.

(** The row found for the key of a payload, once the payload is written:
    the row that was found before with the payload assigned, or the row
    created from the payload. *)
Lemma find_upsert_same (p : P) (rows : list R) :
  ok p ->
  find (matching p) (put p rows) =
  Some match find (matching p) rows with
       | Some r0 => assign p r0
       | None => create p (next_id rid rows)
       end.
Proof.
  intro Hp. unfold upsert. destruct (find (matching p) rows) as [r0|] eqn:Hf.
  - assert (G : forall rows0,
               (exists r, find (matching p) rows0 = Some r) ->
               find (matching p) (update_first (matching p) (assign p) rows0) =
               option_map (assign p) (find (matching p) rows0)).
    { induction rows0 as [|r rows0 IH]; intros [x Hx]; [discriminate|].
      simpl in *. destruct (matching p r) eqn:E; simpl.
      - assert (E' : matching p (assign p r) = true).
        { apply matches_true. now rewrite assign_key. }
        now rewrite E'.
      - rewrite E. apply IH. now exists x. }
    rewrite G by now exists r0. now rewrite Hf.
  - rewrite find_app_first, Hf. simpl.
    assert (E : matching p (create p (next_id rid rows)) = true).
    { apply matches_true. now rewrite create_key. }
    now rewrite E.
Qed.
End UpsertFacts.

(** *** Upserting the same payloads twice

    Several payloads may have one key, and a payload may assign only some
    of the columns, so a second pass can change a row on its way; what is
    needed is that the payloads of one key, assigned one after the other a
    second time, leave the row as the first time. *)
Section UpsertTwice.
Context {R P : Type}.
Variables (rkey : R -> cell) (rid : R -> Z) (pkey : P -> cell).
Variables (assign : P -> R -> R) (create : P -> Z -> R) (blank : Z -> R).
Variable ok : P -> Prop.
Hypothesis assign_key : forall p r, ok p -> rkey (assign p r) = pkey p.
Hypothesis create_key : forall p i, ok p -> rkey (create p i) = pkey p.
Hypothesis create_blank : forall p i, create p i = assign p (blank i).
Hypothesis assign_class_twice :
  forall c ps r,
    assign_class pkey assign c ps (assign_class pkey assign c ps r) =
    assign_class pkey assign c ps r.

Local Notation "'looking'" := (keyed rkey).
Local Notation "'matching'" := (matches rkey pkey).
Local Notation "'put'" := (upsert rkey rid pkey assign create).
Local Notation "'put_all'" := (upsert_all rkey rid pkey assign create).
Local Notation "'every'" := (assign_class pkey assign).
Local Notation "'touch'" := (assign_first rkey pkey assign).

Lemma assign_class_same (c : cell) (p : P) (ps : list P) (r : R) :
  pkey p = c -> every c (p :: ps) r = every c ps (assign p r).
Proof.
  intro E. unfold assign_class. simpl. rewrite E. now rewrite cell_eqb_refl.
Qed.

Lemma assign_class_other (c : cell) (p : P) (ps : list P) (r : R) :
  pkey p <> c -> every c (p :: ps) r = every c ps r.
Proof.
  intro N. unfold assign_class. simpl.
  apply cell_eqb_neq in N. now rewrite N.
Qed.

Lemma assign_first_nil (seen : list cell) (rows : list R) :
  touch seen [] rows = rows.
Proof.
  revert seen. induction rows as [|r rows IH]; intro seen; simpl; [reflexivity|].
  rewrite IH. now destruct (cell_in (rkey r) seen).
Qed.

(** A payload whose key is among those set apart assigns nothing. *)
Lemma assign_first_seen (p : P) (ps : list P) (rows : list R) :
  forall seen, In (pkey p) seen -> touch seen (p :: ps) rows = touch seen ps rows.
Proof.
  induction rows as [|r rows IH]; intros seen Hin; simpl; [reflexivity|].
  rewrite IH by now right. f_equal.
  destruct (cell_in (rkey r) seen) eqn:E; [reflexivity|].
  apply assign_class_other. intros H. rewrite <- H in E.
  apply (proj2 (cell_in_In _ _)) in Hin. congruence.
Qed.

(** Assigning a payload to the first row of its key, and the others after
    it, is assigning them all. *)
Lemma assign_first_update (p : P) (ps : list P) (rows : list R) :
  ok p ->
  forall seen,
    ~ In (pkey p) seen ->
    touch seen ps (update_first (matching p) (assign p) rows) =
    touch seen (p :: ps) rows.
Proof.
  intro Hp. induction rows as [|r rows IH]; intros seen Hn; [reflexivity|].
  cbn [update_first]. destruct (matching p r) eqn:E.
  - apply matches_true in E. cbn [assign_first].
    rewrite (assign_key p r Hp), E.
    assert (Hs : cell_in (pkey p) seen = false).
    { destruct (cell_in (pkey p) seen) eqn:H; [|reflexivity].
      apply cell_in_In in H. contradiction. }
    rewrite Hs. rewrite (assign_class_same (pkey p) p ps r eq_refl).
    f_equal. symmetry. apply assign_first_seen. now left.
  - apply (proj1 (keyed_false rkey _ _)) in E. cbn [assign_first].
    rewrite IH.
    + f_equal. destruct (cell_in (rkey r) seen); [reflexivity|].
      symmetry. apply assign_class_other. congruence.
    + intros [H | H]; [congruence | contradiction].
Qed.

(** On a table that has a row for every key, the pass assigns to the first
    row of each key the payloads of that key. *)
Lemma upsert_all_assign_first (ps : list P) :
  Forall ok ps ->
  forall rows,
    (forall p, In p ps -> existsb (matching p) rows = true) ->
    put_all ps rows = touch [] ps rows.
Proof.
  induction 1 as [|p ps Hp Hps IH]; intros rows Hc.
  - symmetry. apply assign_first_nil.
  - cbn [upsert_all fold_left].
    change (fold_left (fun rows0 p0 => put p0 rows0) ps (put p rows))
      with (put_all ps (put p rows)).
    rewrite IH.
    + rewrite (upsert_covered rkey rid pkey assign create)
        by (apply Hc; now left).
      apply assign_first_update; [assumption | intros []].
    + intros q Hq.
      apply (covered_upsert rkey rid pkey assign create ok assign_key create_key);
        [assumption|]. left. apply Hc. now right.
Qed.

(** Nothing changes when the first row of each key is a fixed point. *)
Lemma assign_first_fixed (ps : list P) (rows : list R) :
  forall seen,
    (forall c r, ~ In c seen -> find (looking c) rows = Some r ->
                 every c ps r = r) ->
    touch seen ps rows = rows.
Proof.
  induction rows as [|r rows IH]; intros seen H; [reflexivity|].
  cbn [assign_first]. rewrite IH.
  - f_equal. destruct (cell_in (rkey r) seen) eqn:E; [reflexivity|].
    apply H.
    + intro Hin. apply (proj2 (cell_in_In _ _)) in Hin. congruence.
    + cbn [find].
      assert (Hk : looking (rkey r) r = true) by now apply keyed_true.
      now rewrite Hk.
  - intros c x Hc Hf. apply H.
    + intro Hin. apply Hc. now right.
    + cbn [find].
      assert (Hk : looking c r = false).
      { apply keyed_false. intro E. apply Hc. now left. }
      now rewrite Hk.
Qed.

(** The row found for a key after a pass: the row found before it, with
    the payloads of the key assigned. *)
Lemma find_upsert_all_found (ps : list P) :
  Forall ok ps ->
  forall c rows r0,
    find (looking c) rows = Some r0 ->
    find (looking c) (put_all ps rows) = Some (every c ps r0).
Proof.
  induction 1 as [|p ps Hp Hps IH]; intros c rows r0 Hf; [exact Hf|].
  cbn [upsert_all fold_left].
  change (fold_left (fun rows0 p0 => put p0 rows0) ps (put p rows))
    with (put_all ps (put p rows)).
  destruct (cell_eqb (pkey p) c) eqn:E.
  - apply cell_eqb_eq in E. rewrite (assign_class_same c p ps r0 E).
    apply IH. subst c.
    change (looking (pkey p)) with (matching p).
    rewrite (find_upsert_same rkey rid pkey assign create ok assign_key
               create_key p rows Hp).
    change (matching p) with (looking (pkey p)). now rewrite Hf.
  - apply cell_eqb_neq in E. rewrite (assign_class_other c p ps r0 E).
    apply IH.
    now rewrite (find_upsert_other rkey rid pkey assign create ok assign_key
                   create_key c p rows Hp E).
Qed.

(** When no row was found before the pass, the row found after it, if
    any, was created by the pass. *)
Lemma find_upsert_all_created (ps : list P) :
  Forall ok ps ->
  forall c rows,
    find (looking c) rows = None ->
    find (looking c) (put_all ps rows) = None \/
    exists i, find (looking c) (put_all ps rows) = Some (every c ps (blank i)).
Proof.
  induction 1 as [|p ps Hp Hps IH]; intros c rows Hf; [now left|].
  cbn [upsert_all fold_left].
  change (fold_left (fun rows0 p0 => put p0 rows0) ps (put p rows))
    with (put_all ps (put p rows)).
  destruct (cell_eqb (pkey p) c) eqn:E.
  - apply cell_eqb_eq in E. right. exists (next_id rid rows).
    rewrite (assign_class_same c p ps _ E).
    apply (find_upsert_all_found ps Hps). subst c.
    change (looking (pkey p)) with (matching p).
    rewrite (find_upsert_same rkey rid pkey assign create ok assign_key
               create_key p rows Hp).
    change (matching p) with (looking (pkey p)). rewrite Hf.
    now rewrite create_blank.
  - apply cell_eqb_neq in E.
    assert (Hf' : find (looking c) (put p rows) = None).
    { now rewrite (find_upsert_other rkey rid pkey assign create ok assign_key
                     create_key c p rows Hp E). }
    destruct (IH c _ Hf') as [H | [i H]]; [now left|].
    right. exists i. now rewrite (assign_class_other c p ps _ E).
Qed.

(** Upserting the same payloads a second time changes nothing. *)
Lemma upsert_all_twice (ps : list P) :
  Forall ok ps ->
  forall rows, put_all ps (put_all ps rows) = put_all ps rows.
Proof.
  intros Hps rows.
  rewrite (upsert_all_assign_first ps Hps (put_all ps rows)).
  - apply assign_first_fixed. intros c r _ Hf.
    destruct (find (looking c) rows) as [r0|] eqn:H0.
    + rewrite (find_upsert_all_found ps Hps c rows r0 H0) in Hf.
      injection Hf as <-. apply assign_class_twice.
    + destruct (find_upsert_all_created ps Hps c rows H0) as [H | [i H]];
        rewrite H in Hf; [discriminate|].
      injection Hf as <-. apply assign_class_twice.
  - intros p Hp.
    apply (covered_upsert_all rkey rid pkey assign create ok assign_key
             create_key); [assumption | now right].
Qed.
End UpsertTwice.

(** ** The inventory and the mapping as tables of upserts *)

Lemma upsert_inventory_eq (cells : inventory_cells)
  (rows : list DeviceInventory.t) :
  upsert_inventory (c_udid cells) cells rows =
  upsert DeviceInventory.udid DeviceInventory.id c_udid
    assign_inventory new_inventory cells rows.
Proof. reflexivity. Qed.

Lemma upsert_avbox_eq (q : cell * mapping_cells) (rows : list AVBoxMapping.t) :
  upsert_avbox (fst q) (snd q) rows =
  upsert AVBoxMapping.dut AVBoxMapping.id fst
    (fun e => assign_avbox (snd e)) (fun e i => new_avbox (snd e) i) q rows.
Proof. reflexivity. Qed.

Lemma NoDup_upsert_inventory (cells : inventory_cells)
  (rows : list DeviceInventory.t) :
  NoDup (map DeviceInventory.udid rows) ->
  NoDup (map DeviceInventory.udid (upsert_inventory (c_udid cells) cells rows)).
Proof.
  rewrite upsert_inventory_eq.
  apply (NoDup_upsert _ _ _ _ _ (fun _ => True)); auto.
Qed.

(** Deleting records keeps the identifiers pairwise different. *)
Lemma delete_keeps_unique (keep : DeviceInventory.t -> bool) (d : db) :
  unique_udids d -> unique_udids (set_inventory (filter keep) d).
Proof.
  unfold unique_udids. cbn [set_inventory device_inventory].
  generalize (device_inventory d) as rows.
  induction rows as [|r rows IH]; cbn [filter map]; intro U.
  - exact U.
  - apply NoDup_cons_iff in U. destruct U as [Hr U].
    destruct (keep r); cbn [map]; [|exact (IH U)].
    apply NoDup_cons_iff. split; [|exact (IH U)].
    intro Hin. apply Hr.
    apply in_map_iff in Hin. destruct Hin as [x [Ex Hx]].
    apply filter_In in Hx. rewrite <- Ex. apply in_map. apply Hx.
Qed.

(** A step that depends on a value that was computed keeps what it keeps
    for every value that can be computed. *)
Lemma preserves_lift_bind (I : session -> Prop) {A B} (r : result A)
  (k : A -> M B) :
  (forall a, r = Ok a -> preserves I (k a)) ->
  preserves I (bindM (lift r) k).
Proof.
  intros H s Hs. unfold bindM, lift. destruct r as [a|e]; [|exact Hs].
  now apply (H a eq_refl).
Qed.

Section Uniqueness.
Context {RT : Runtime}.

Lemma modify_unique (f : db -> db) :
  (forall d, unique_udids d -> unique_udids (f d)) ->
  preserves session_unique (modify f).
Proof.
  intro Hf. apply preserves_modify. intros s [Hs Ht].
  split; [exact Hs | now apply Hf].
Qed.

Lemma add_ledger_unique (c : cell) (status details : string) :
  preserves session_unique (add_ledger c status details).
Proof. apply modify_unique. intros d Hd. exact Hd. Qed.

Lemma remove_device_unique (k : key) :
  preserves session_unique (remove_device k).
Proof.
  unfold remove_device.
  repeat first [ apply preserves_bindM; [|intro]
               | apply preserves_query | apply preserves_lift
               | apply add_ledger_unique ].
  apply modify_unique. intros d Hd. now apply delete_keeps_unique.
Qed.

(** The lookup of line 227 is by the text the record is written with, so
    the record that is written takes the place of the one that was found,
    or has an identifier that no record had. *)
Lemma upsert_device_unique (T : json) (AV : avboxs) (added : list key)
  (device : json) :
  preserves session_unique (upsert_device T AV added device).
Proof.
  unfold upsert_device.
  apply preserves_bindM; [apply preserves_lift|]. intros [|];
    [|apply preserves_ret].
  apply preserves_bindM; [apply preserves_lift|]. intro data.
  apply preserves_lift_bind. intros udid Hu.
  apply preserves_lift_bind. intros cells Hc.
  assert (E : udid = c_udid cells).
  { rewrite (inventory_values_udid _ _ Hc) in Hu. now injection Hu. }
  subst udid.
  repeat first [ apply preserves_bindM; [|intro]
               | apply preserves_if
               | apply preserves_ret
               | apply preserves_lift
               | apply add_ledger_unique ].
  apply modify_unique. intros d Hd. now apply NoDup_upsert_inventory.
Qed.

Lemma upsert_mapping_unique (entry : key * bundle) :
  preserves session_unique (upsert_mapping entry).
Proof.
  destruct entry as [k b]. unfold upsert_mapping.
  repeat first [ apply preserves_bindM; [|intro] | apply preserves_lift ].
  apply modify_unique. intros d Hd. exact Hd.
Qed.

Lemma main_try_unique (raw T : json) :
  preserves session_unique (main_try raw T).
Proof.
  unfold main_try.
  repeat first [ apply remove_device_unique
               | apply upsert_device_unique
               | apply upsert_mapping_unique
               | apply preserves_forM; intro
               | apply preserves_bindM; [|intro]
               | apply preserves_if
               | apply preserves_ret
               | apply preserves_query | apply preserves_lift ].
  intros s [_ Ht]. split; exact Ht.
Qed.

(** C9.  If the identifiers of the persisted inventory are pairwise
    different, they are pairwise different after a run, whatever the
    snapshot. *)
Theorem identifiers_stay_unique (raw T : json) (d : db) :
  unique_udids d -> unique_udids (main raw T d).
Proof.
  intro Hd.
  assert (Hs : session_unique (Session d)) by (split; exact Hd).
  apply (main_try_unique raw T) in Hs. unfold main.
  destruct (main_try raw T (Session d)); simpl in *; apply Hs.
Qed.
End Uniqueness.

(** Two devices with one identifier leave one record, that of the second. *)
Lemma snapshot_twins_one_record :
  map (fun r => (DeviceInventory.udid r, DeviceInventory.model r))
    (device_inventory (main (RT := plain_runtime) snapshot_twins JNull empty_db)) =
  [(TEXT "id-T", TEXT "two")].
Proof. reflexivity. Qed.

Lemma identifiers_stay_unique_twins :
  unique_udids (main (RT := plain_runtime) snapshot_twins JNull empty_db).
Proof.
  apply (identifiers_stay_unique (RT := plain_runtime) snapshot_twins JNull empty_db).
  constructor.
Defined.

(** ** The bundles of a snapshot are well formed *)

Lemma avboxs_get_None (k : key) (m : avboxs) :
  avboxs_get k m = None -> ~ In k (map fst m).
Proof.
  induction m as [|[k' b] m IH]; simpl; [tauto|].
  destruct (key_eqb k k') eqn:E; [discriminate|].
  intros Hg [Hk | Hk]; [|now apply IH].
  subst. rewrite key_eqb_refl in E. discriminate.
Qed.

Lemma avboxs_wf_ensure (k : key) (m : avboxs) :
  avboxs_wf m -> avboxs_wf (ensure_bundle k m).
Proof.
  intros [Hn Hd]. unfold ensure_bundle.
  destruct (avboxs_get k m) eqn:E; [now split|].
  split.
  - rewrite map_app. simpl. apply NoDup_app.
    + assumption.
    + constructor; [intros [] | constructor].
    + intros x Hx [Hk | []]. subst x. exact (avboxs_get_None k m E Hx).
  - apply Forall_app. split; [assumption|]. now constructor.
Qed.

Lemma avboxs_wf_modify (k : key) (f : bundle -> bundle) (m : avboxs) :
  (forall b, b_dut (f b) = b_dut b) ->
  avboxs_wf m -> avboxs_wf (avboxs_modify k f m).
Proof.
  intros Hf [Hn Hd].
  assert (Hk : map fst (avboxs_modify k f m) = map fst m).
  { clear Hn Hd. induction m as [|[k' b] m IH]; simpl; [reflexivity|].
    destruct (key_eqb k k'); simpl; [reflexivity | now rewrite IH]. }
  split; [now rewrite Hk|].
  clear Hn Hk. induction Hd as [|[k' b] m Hb Hm IH]; simpl; [constructor|].
  destruct (key_eqb k k'); constructor; try assumption.
  simpl in *. now rewrite Hf.
Qed.

Lemma add_avbox_mapping_entry_wf (device : json) (A A' : avboxs) :
  add_avbox_mapping_entry device A = Ok A' -> avboxs_wf A -> avboxs_wf A'.
Proof.
  intros E Hwf. unfold add_avbox_mapping_entry in E.
  repeat match type of E with
         | context [bind ?m _] =>
             destruct m; cbn [bind] in E; try discriminate
         | context [if ?c then _ else _] => destruct c
         end;
    try discriminate;
    injection E as <-;
    repeat first [ assumption
                 | apply avboxs_wf_modify; [intro; reflexivity|]
                 | apply avboxs_wf_ensure ].
Qed.

Lemma group_avboxs_wf (devices : list json) (AV : avboxs) :
  group_avboxs devices = Ok AV -> avboxs_wf AV.
Proof.
  unfold group_avboxs.
  assert (G : forall A, avboxs_wf A -> foldM group_step devices A = Ok AV ->
                        avboxs_wf AV).
  { induction devices as [|d devices IH]; simpl; intros A HA E.
    - now injection E as <-.
    - destruct (group_step A d) as [A1|] eqn:E1; [|discriminate].
      cbn [bind] in E. apply (IH A1); [|assumption].
      unfold group_step in E1.
      destruct (get d "avbox_info"); cbn [bind] in E1; [|discriminate].
      destruct (truthy a).
      + now apply (add_avbox_mapping_entry_wf d A).
      + now injection E1 as <-. }
  apply G. split; constructor.
Qed.

(** ** Assigning the payloads of one key twice *)

Lemma keeps_or_sets_twice {R A} (f : R -> A) (g : R -> R) (x : R) :
  keeps_or_sets f g -> f (g (g x)) = f (g x).
Proof. intros [H | [a H]]; [apply H | now rewrite !H]. Qed.

Lemma keeps_or_sets_compose {R A} (f : R -> A) (g h : R -> R) :
  keeps_or_sets f g -> keeps_or_sets f h ->
  keeps_or_sets f (fun x => h (g x)).
Proof.
  intros [Hg | [a Hg]] [Hh | [b Hh]].
  - left. intro x. now rewrite Hh, Hg.
  - right. exists b. intro x. apply Hh.
  - right. exists a. intro x. now rewrite Hh, Hg.
  - right. exists b. intro x. apply Hh.
Qed.

(** A column that every payload keeps or sets is kept or set by the
    payloads of a key, assigned one after the other. *)
Lemma assign_class_keeps_or_sets {R P A} (pkey : P -> cell)
  (assign : P -> R -> R) (f : R -> A) :
  (forall p, keeps_or_sets f (assign p)) ->
  forall c ps, keeps_or_sets f (assign_class pkey assign c ps).
Proof.
  intros H c ps. induction ps as [|p ps IH].
  - left. reflexivity.
  - apply (keeps_or_sets_compose f
             (fun r => if cell_eqb (pkey p) c then assign p r else r)
             (assign_class pkey assign c ps)); [|exact IH].
    destruct (cell_eqb (pkey p) c); [apply H | left; reflexivity].
Qed.

Lemma or_else_keeps_or_sets {R A} (f : R -> A) (g : R -> R) (o : option A) :
  (forall x, f (g x) = or_else o (f x)) -> keeps_or_sets f g.
Proof.
  intro H. destruct o as [a|]; [right; exists a | left]; intro x; apply H.
Qed.

Lemma assign_avbox_twice (c : cell) (qs : list (cell * mapping_cells))
  (r : AVBoxMapping.t) :
  assign_class fst (fun e => assign_avbox (snd e)) c qs
    (assign_class fst (fun e => assign_avbox (snd e)) c qs r) =
  assign_class fst (fun e => assign_avbox (snd e)) c qs r.
Proof.
  set (g := assign_class fst (fun e : cell * mapping_cells => assign_avbox (snd e))
              c qs).
  assert (K : forall A (f : AVBoxMapping.t -> A),
             (forall q : cell * mapping_cells,
                 keeps_or_sets f (assign_avbox (snd q))) ->
             f (g (g r)) = f (g r)).
  { intros A f H. apply keeps_or_sets_twice.
    now apply assign_class_keeps_or_sets. }
  assert (E1 := K _ AVBoxMapping.id (fun q => or_introl (fun x => eq_refl))).
  assert (E2 := K _ AVBoxMapping.device_type
                  (fun q => or_else_keeps_or_sets AVBoxMapping.device_type
                              (assign_avbox (snd q)) (m_device_type (snd q))
                              (fun x => eq_refl))).
  assert (E3 := K _ AVBoxMapping.device_notes
                  (fun q => or_else_keeps_or_sets AVBoxMapping.device_notes
                              (assign_avbox (snd q)) (m_device_notes (snd q))
                              (fun x => eq_refl))).
  assert (E4 : AVBoxMapping.dut (g (g r)) = AVBoxMapping.dut (g r)).
  { apply K. intro q. right. exists (m_dut (snd q)). reflexivity. }
  assert (E5 := K _ AVBoxMapping.camera_device
                  (fun q => or_else_keeps_or_sets AVBoxMapping.camera_device
                              (assign_avbox (snd q)) (m_camera_device (snd q))
                              (fun x => eq_refl))).
  assert (E6 := K _ AVBoxMapping.control
                  (fun q => or_else_keeps_or_sets AVBoxMapping.control
                              (assign_avbox (snd q)) (m_control (snd q))
                              (fun x => eq_refl))).
  destruct (g (g r)), (g r). simpl in *. congruence.
Qed.

Lemma assign_inventory_twice (c : cell) (ps : list inventory_cells)
  (r : DeviceInventory.t) :
  assign_class c_udid assign_inventory c ps
    (assign_class c_udid assign_inventory c ps r) =
  assign_class c_udid assign_inventory c ps r.
Proof.
  set (g := assign_class c_udid assign_inventory c ps).
  assert (K : forall A (f : DeviceInventory.t -> A),
             (forall p, keeps_or_sets f (assign_inventory p)) ->
             f (g (g r)) = f (g r)).
  { intros A f H. apply keeps_or_sets_twice.
    now apply assign_class_keeps_or_sets. }
  assert (S : forall A (f : DeviceInventory.t -> A) (v : inventory_cells -> A),
             (forall p x, f (assign_inventory p x) = v p) ->
             f (g (g r)) = f (g r)).
  { intros A f v H. apply K. intro p. right. exists (v p). apply H. }
  assert (E0 := K _ DeviceInventory.id (fun p => or_introl (fun x => eq_refl))).
  assert (E1 := S _ DeviceInventory.device_type c_device_type
                  (fun p x => eq_refl)).
  assert (E2 := S _ DeviceInventory.model c_model (fun p x => eq_refl)).
  assert (E3 := S _ DeviceInventory.device_skus c_device_skus
                  (fun p x => eq_refl)).
  assert (E4 := S _ DeviceInventory.udid c_udid (fun p x => eq_refl)).
  assert (E5 := S _ DeviceInventory.host_name c_host_name (fun p x => eq_refl)).
  assert (E6 := S _ DeviceInventory.os_version c_os_version
                  (fun p x => eq_refl)).
  assert (E7 := S _ DeviceInventory.location c_location (fun p x => eq_refl)).
  assert (E8 := S _ DeviceInventory.device_notes c_device_notes
                  (fun p x => eq_refl)).
  assert (E9 := S _ DeviceInventory.teams c_teams (fun p x => eq_refl)).
  assert (E10 := S _ DeviceInventory.is_avbox c_is_avbox (fun p x => eq_refl)).
  destruct (g (g r)), (g r). simpl in *. congruence.
Qed.

(** The rows that are created are blank rows with the payload assigned. *)
Lemma new_inventory_blank (cells : inventory_cells) (i : Z) :
  new_inventory cells i = assign_inventory cells (blank_inventory i).
Proof. reflexivity. Qed.

Lemma new_avbox_blank (cells : mapping_cells) (i : Z) :
  new_avbox cells i = assign_avbox cells (blank_avbox i).
Proof. reflexivity. Qed.

(** Writing the bundles of a snapshot a second time changes nothing. *)
Lemma avbox_upsert_all_twice (qs : list (cell * mapping_cells))
  (rows : list AVBoxMapping.t) :
  Forall keyed_by_dut qs ->
  avbox_upsert_all qs (avbox_upsert_all qs rows) = avbox_upsert_all qs rows.
Proof.
  intro Hqs.
  apply (upsert_all_twice AVBoxMapping.dut AVBoxMapping.id fst
           (fun e => assign_avbox (snd e)) (fun e i => new_avbox (snd e) i)
           blank_avbox keyed_by_dut).
  - intros p r Hp. exact Hp.
  - intros p i Hp. exact Hp.
  - intros p i. apply new_avbox_blank.
  - apply assign_avbox_twice.
  - exact Hqs.
Qed.

(** Writing the devices of a snapshot a second time changes nothing. *)
Lemma inventory_upsert_all_twice (ps : list inventory_cells)
  (rows : list DeviceInventory.t) :
  inventory_upsert_all ps (inventory_upsert_all ps rows) =
  inventory_upsert_all ps rows.
Proof.
  apply (upsert_all_twice DeviceInventory.udid DeviceInventory.id c_udid
           assign_inventory new_inventory blank_inventory (fun _ => True));
    try reflexivity.
  - apply assign_inventory_twice.
  - apply Forall_forall. auto.
Qed.

Lemma inventory_upsert_all_covers (ps : list inventory_cells)
  (rows : list DeviceInventory.t) (p : inventory_cells) :
  In p ps ->
  In (c_udid p) (map DeviceInventory.udid (inventory_upsert_all ps rows)).
Proof.
  intro Hp.
  apply (covered_existsb DeviceInventory.udid c_udid).
  apply (covered_upsert_all _ _ _ _ _ (fun _ => True)); try reflexivity.
  - apply Forall_forall. auto.
  - now right.
Qed.

(** ** The passes of a run *)

Lemma mapping_values_dut (b : bundle) (cells : mapping_cells) :
  mapping_values b = Ok cells -> key_value (b_dut b) = Ok (m_dut cells).
Proof.
  unfold mapping_values. intro E.
  repeat match type of E with
         | context [bind ?m _] =>
             destruct m eqn:?; cbn [bind] in E; try discriminate
         end.
  now injection E as <-.
Qed.

Lemma mapping_plan_keyed (AV : avboxs) :
  Forall (fun e => b_dut (snd e) = fst e) AV ->
  forall qs, mapping_plan AV = Ok qs -> Forall keyed_by_dut qs.
Proof.
  unfold mapping_plan.
  induction 1 as [|[k b] AV Hb _ IH]; intros qs E; cbn [mapM] in E.
  - injection E as <-. constructor.
  - destruct (mapping_entry (k, b)) as [q|] eqn:Eq; cbn [bind] in E;
      [|discriminate].
    destruct (mapM mapping_entry AV) as [rest|]; cbn [bind] in E;
      [|discriminate].
    injection E as <-. constructor; [|now apply IH].
    unfold mapping_entry in Eq. cbn [fst snd] in Eq, Hb.
    destruct (key_value k) as [dut|] eqn:Ek; cbn [bind] in Eq; [|discriminate].
    destruct (mapping_values b) as [cells|] eqn:Ec; cbn [bind] in Eq;
      [|discriminate].
    injection Eq as <-. unfold keyed_by_dut. cbn [fst snd].
    apply mapping_values_dut in Ec. rewrite Hb, Ek in Ec. now injection Ec.
Qed.

Section Passes.
Context {RT : Runtime}.

Lemma upsert_device_Return (T : json) (AV : avboxs) (added : list key)
  (device : json) (s s1 : session) :
  upsert_device T AV added device s = Return tt s1 ->
  (in_inventory device = Ok false /\ s1 = s) \/
  (exists data cells k,
      in_inventory device = Ok true /\
      device_details_for_db device T = Ok data /\
      inventory_values data = Ok cells /\
      hash_key (d_udid data) = Ok k /\
      stored s1 = stored s /\
      device_inventory (txn s1) =
      upsert_inventory (c_udid cells) cells (device_inventory (txn s)) /\
      avbox_mapping (txn s1) = avbox_mapping (txn s) /\
      device_ledger (txn s1) =
      device_ledger (txn s) ++
      (if key_in k added
       then [DeviceLedger.mk (next_id DeviceLedger.id (device_ledger (txn s)))
               (c_udid cells) "added"
               match added_details device AV with
               | Ok details => json_dumps details
               | Raise _ => ""%string
               end]
       else [])).
Proof.
  destruct (in_inventory device) as [[|]|e] eqn:Hk.
  - destruct (device_details_for_db device T) as [data|e] eqn:Hd.
    + destruct (inventory_values data) as [cells|e] eqn:Hc.
      * destruct (column_value_key _ _ (inventory_values_udid _ _ Hc))
          as [k [Hh _]].
        rewrite (upsert_device_included T AV added device s data cells k
                   Hk Hd Hc Hh).
        cbv zeta. intro E. right. exists data, cells, k.
        do 4 (split; [first [reflexivity | assumption]|]).
        destruct (key_in k added).
        -- destruct (added_details device AV); [|discriminate].
           injection E as <-. repeat split.
        -- injection E as <-. repeat split. cbn. now rewrite app_nil_r.
      * intro E.
        destruct (upsert_device_unbound T AV added device s Hk) as [e' H].
        { rewrite Hd. now exists e. }
        rewrite H in E. discriminate.
    + intro E.
      destruct (upsert_device_unbound T AV added device s Hk) as [e' H].
      { now rewrite Hd. }
      rewrite H in E. discriminate.
  - rewrite (upsert_device_excluded T AV added device s Hk).
    intro E. injection E as <-. now left.
  - unfold upsert_device, bindM, lift. rewrite Hk. discriminate.
Qed.

Lemma plan_included (T : json) (device : json) (devices : list json)
  (data : inventory_data) (cells : inventory_cells) (k : key)
  (rest : list (key * inventory_cells)) :
  in_inventory device = Ok true ->
  device_details_for_db device T = Ok data ->
  inventory_values data = Ok cells ->
  hash_key (d_udid data) = Ok k ->
  inventory_plan T devices = Ok rest ->
  inventory_plan T (device :: devices) = Ok ((k, cells) :: rest).
Proof.
  intros Hk Hd Hc Hh Hr. cbn [inventory_plan].
  rewrite Hk. cbn [bind]. rewrite Hd. cbn [bind].
  rewrite (inventory_values_udid _ _ Hc). cbn [bind].
  rewrite Hc. cbn [bind]. rewrite Hh. cbn [bind]. now rewrite Hr.
Qed.

(** A pass over the devices that returns has written the planned data. *)
Lemma first_pass (T : json) (AV : avboxs) (added : list key)
  (devices : list json) :
  forall s s3,
    forM (upsert_device T AV added) devices s = Return tt s3 ->
    exists ps,
      inventory_plan T devices = Ok ps /\
      stored s3 = stored s /\
      device_inventory (txn s3) =
      inventory_upsert_all (map snd ps) (device_inventory (txn s)) /\
      avbox_mapping (txn s3) = avbox_mapping (txn s).
Proof.
  induction devices as [|device devices IH]; intros s s3 E.
  - injection E as <-. now exists [].
  - cbn [forM] in E. apply bindM_Return in E.
    destruct E as [[] [s1 [E1 E]]].
    destruct (IH _ _ E) as [ps [Hps [Hst [Hi Ha]]]].
    apply upsert_device_Return in E1.
    destruct E1 as [[Hk ->] |
                    [data [cells [k [Hk [Hd [Hc [Hh [Hs1 [Hi1 [Ha1 _]]]]]]]]]]].
    + exists ps. cbn [inventory_plan]. rewrite Hk. now split.
    + exists ((k, cells) :: ps).
      split; [now apply (plan_included T device devices data)|].
      split; [congruence|]. split; [|congruence].
      rewrite Hi, Hi1. reflexivity.
Qed.

(** A pass over devices none of which is new to Python writes the planned
    data and no ledger entry. *)
Lemma second_pass (T : json) (AV : avboxs) (added : list key)
  (devices : list json) :
  forall ps s,
    inventory_plan T devices = Ok ps ->
    (forall p, In p ps -> key_in (fst p) added = false) ->
    forM (upsert_device T AV added) devices s =
    Return tt
      {| stored := stored s;
         txn := {| device_inventory :=
                     inventory_upsert_all (map snd ps) (device_inventory (txn s));
                   avbox_mapping := avbox_mapping (txn s);
                   device_ledger := device_ledger (txn s) |} |}.
Proof.
  induction devices as [|device devices IH]; intros ps s Hps Hadd.
  - injection Hps as <-. destruct s as [st [i a l]]. reflexivity.
  - cbn [inventory_plan] in Hps. cbn [forM]. unfold bindM.
    destruct (in_inventory device) as [[|]|e] eqn:Hk;
      cbn [bind] in Hps; [| |discriminate].
    + destruct (device_details_for_db device T) as [data|e] eqn:Hd;
        cbn [bind] in Hps; [|discriminate].
      destruct (column_value (d_udid data)) as [c|e] eqn:Hu;
        cbn [bind] in Hps; [|discriminate].
      destruct (inventory_values data) as [cells|e] eqn:Hc;
        cbn [bind] in Hps; [|discriminate].
      destruct (hash_key (d_udid data)) as [k|e] eqn:Hh;
        cbn [bind] in Hps; [|discriminate].
      destruct (inventory_plan T devices) as [rest|e] eqn:Hr;
        cbn [bind] in Hps; [|discriminate].
      injection Hps as <-.
      rewrite (upsert_device_included T AV added device s data cells k
                 Hk Hd Hc Hh).
      assert (Hf : key_in k added = false) by (apply (Hadd (k, cells)); now left).
      cbv zeta. rewrite Hf.
      rewrite (IH rest) by (try reflexivity; intros p Hp; apply Hadd; now right).
      reflexivity.
    + rewrite (upsert_device_excluded T AV added device s Hk).
      now apply IH.
Qed.

Lemma upsert_mapping_entry (entry : key * bundle) (s : session) :
  upsert_mapping entry s =
  match mapping_entry entry with
  | Ok q => Return tt {| stored := stored s;
                         txn := set_avbox (upsert_avbox (fst q) (snd q)) (txn s) |}
  | Raise e => Raised e s
  end.
Proof.
  destruct entry as [k b]. unfold upsert_mapping, mapping_entry, bindM, lift.
  cbn [fst snd].
  destruct (key_value k); cbn [bind]; [|reflexivity].
  destruct (mapping_values b); reflexivity.
Qed.

(** The pass over the bundles writes them all, when all can be bound. *)
Lemma mapping_pass (AV : avboxs) :
  forall qs s,
    mapping_plan AV = Ok qs ->
    forM upsert_mapping AV s =
    Return tt
      {| stored := stored s;
         txn := {| device_inventory := device_inventory (txn s);
                   avbox_mapping := avbox_upsert_all qs (avbox_mapping (txn s));
                   device_ledger := device_ledger (txn s) |} |}.
Proof.
  unfold mapping_plan.
  induction AV as [|e AV IH]; intros qs s E; cbn [mapM] in E.
  - injection E as <-. destruct s as [st [i a l]]. reflexivity.
  - destruct (mapping_entry e) as [q|] eqn:Eq; cbn [bind] in E; [|discriminate].
    destruct (mapM mapping_entry AV) as [rest|]; cbn [bind] in E; [|discriminate].
    injection E as <-.
    cbn [forM]. unfold bindM. rewrite upsert_mapping_entry, Eq.
    rewrite (IH rest) by reflexivity. reflexivity.
Qed.

(** It raises when one cannot, and commits nothing. *)
Lemma mapping_pass_raises (AV : avboxs) :
  forall e s,
    mapping_plan AV = Raise e ->
    exists s', forM upsert_mapping AV s = Raised e s' /\ stored s' = stored s.
Proof.
  unfold mapping_plan.
  induction AV as [|x AV IH]; intros e s E; cbn [mapM] in E; [discriminate|].
  cbn [forM]. unfold bindM. rewrite upsert_mapping_entry.
  destruct (mapping_entry x) as [q|e1]; cbn [bind] in E.
  - destruct (mapM mapping_entry AV) as [rest|e2] eqn:Er; cbn [bind] in E;
      [discriminate|].
    injection E as ->.
    destruct (IH e {| stored := stored s;
                      txn := set_avbox (upsert_avbox (fst q) (snd q)) (txn s) |}
                eq_refl) as [s' [H1 H2]].
    exists s'. split; [exact H1 | exact H2].
  - injection E as ->. now exists s.
Qed.

(** A run either changes nothing, or it decoded its documents and leaves
    what the pass over the devices and the pass over the bundles wrote. *)
Lemma main_decoded (raw T : json) :
  (forall d, main raw T d = d) \/
  (exists devs devices AV ids,
      get raw "devices" = Ok devs /\
      py_iter devs = Ok devices /\
      devices <> [] /\
      group_avboxs devices = Ok AV /\
      mapM unique_key devices = Ok ids /\
      forall d,
        main raw T d =
        run_result AV d
          (forM (upsert_device T AV (added_ids (set_of ids) (db_unique_ids d)))
             devices (Session d))).
Proof.
  unfold main, main_try.
  destruct (negb (truthy raw)); [left; reflexivity|].
  destruct (get raw "devices") as [devs|e] eqn:E0; [|left; reflexivity].
  cbn [bindM lift].
  destruct (negb (truthy devs)) eqn:Et; [left; reflexivity|].
  destruct (py_iter devs) as [devices|e] eqn:E1; [|left; reflexivity].
  cbn [bindM lift].
  destruct (group_avboxs devices) as [AV|e] eqn:E2; [|left; reflexivity].
  cbn [bindM lift].
  destruct (mapM unique_key devices) as [ids|e] eqn:E3; [|left; reflexivity].
  right. exists devs, devices, AV, ids.
  split; [first [reflexivity | assumption]|].
  split; [first [reflexivity | assumption]|]. split.
  { intros ->. destruct devs as [| | |s|l|o]; try discriminate.
    - destruct s; discriminate.
    - destruct l; discriminate.
    - destruct o; discriminate. }
  split; [first [reflexivity | assumption]|].
  split; [first [reflexivity | assumption]|].
  intro d. unfold bindM, lift, query. cbv zeta. rewrite removed_ids_nil.
  cbn [forM ret txn Session].
  assert (P : preserves (stored_is d)
                (forM (upsert_device T AV
                         (added_ids (set_of ids) (db_unique_ids d)))
                   devices)).
  { apply preserves_forM. intro. apply upsert_device_keeps_stored. }
  specialize (P (Session d) eq_refl).
  destruct (forM _ devices (Session d)) as [u s3|e s3] eqn:E4;
    unfold run_result; cbn [after] in P.
  - destruct (mapping_plan AV) as [qs|e] eqn:Hm.
    + rewrite (mapping_pass AV qs s3 Hm). reflexivity.
    + destruct (mapping_pass_raises AV e s3 Hm) as [s' [E5 Hs']].
      rewrite E5. cbn [close rollback txn stored]. now rewrite Hs'.
  - cbn [close rollback txn stored]. exact P.
Qed.
End Passes.

(** ** Two runs on the same snapshot *)

Section Idempotence.
Context {RT : Runtime}.

Lemma details_udid (device T : json) (data : inventory_data) :
  device_details_for_db device T = Ok data ->
  get_unique_device_id device = Ok (d_udid data).
Proof.
  intro E. unfold device_details_for_db in E.
  repeat match type of E with
         | context [bind ?m _] =>
             destruct m eqn:?; cbn [bind] in E; try discriminate
         end.
  now injection E as <-.
Qed.

Lemma plan_cons (T : json) (device : json) (devices : list json)
  (ps : list (key * inventory_cells)) :
  inventory_plan T (device :: devices) = Ok ps ->
  (in_inventory device = Ok false /\ inventory_plan T devices = Ok ps) \/
  (exists data cells k rest,
      in_inventory device = Ok true /\
      device_details_for_db device T = Ok data /\
      inventory_values data = Ok cells /\
      unique_key device = Ok k /\
      key_value k = Ok (c_udid cells) /\
      inventory_plan T devices = Ok rest /\
      ps = (k, cells) :: rest).
Proof.
  cbn [inventory_plan].
  destruct (in_inventory device) as [[|]|]; cbn [bind]; [| |discriminate].
  - destruct (device_details_for_db device T) as [data|] eqn:Hd;
      cbn [bind]; [|discriminate].
    destruct (column_value (d_udid data)) as [c|] eqn:Hu;
      cbn [bind]; [|discriminate].
    destruct (inventory_values data) as [cells|] eqn:Hc;
      cbn [bind]; [|discriminate].
    destruct (hash_key (d_udid data)) as [k|] eqn:Hh; cbn [bind]; [|discriminate].
    destruct (inventory_plan T devices) as [rest|]; cbn [bind]; [|discriminate].
    intro E. injection E as <-. right. exists data, cells, k, rest.
    repeat split; try reflexivity; try assumption.
    + unfold unique_key. now rewrite (details_udid _ _ _ Hd).
    + rewrite <- (hash_key_value _ _ Hh). now apply inventory_values_udid.
  - intro E. now left.
Qed.

(** The planned data are those of the devices that go to the inventory. *)
Lemma plan_sound (T : json) (devices : list json) :
  forall ps p,
    inventory_plan T devices = Ok ps -> In p ps ->
    exists device data,
      In device devices /\ in_inventory device = Ok true /\
      device_details_for_db device T = Ok data /\
      inventory_values data = Ok (snd p) /\
      unique_key device = Ok (fst p) /\
      key_value (fst p) = Ok (c_udid (snd p)).
Proof.
  induction devices as [|device devices IH]; intros ps p E Hin.
  - injection E as <-. destruct Hin.
  - apply plan_cons in E.
    destruct E as [[_ E] |
                   [data [cells [k [rest [Hk [Hd [Hc [Hu [Hv [E ->]]]]]]]]]]].
    + destruct (IH _ _ E Hin) as [x [dx [Hx H]]].
      exists x, dx. split; [now right | exact H].
    + destruct Hin as [<- | Hin].
      * exists device, data. repeat split; try assumption. now left.
      * destruct (IH _ _ E Hin) as [x [dx [Hx H]]].
        exists x, dx. split; [now right | exact H].
Qed.

(** A second run on the same documents finds nothing to change, when the
    identifiers that go to the inventory are textual. *)
Lemma main_twice (raw T : json) (d : db) :
  textual_identifiers raw ->
  main raw T (main raw T d) = main raw T d.
Proof.
  intro Htext.
  destruct (main_decoded raw T)
    as [Hn | [devs [devices [AV [ids [Hget [Hiter [_ [Hg [_ Hmain]]]]]]]]]].
  - now rewrite !Hn.
  - assert (Same : main raw T d = d -> main raw T (main raw T d) = main raw T d).
    { intro E. now rewrite !E. }
    pose proof (Hmain d) as E1. unfold run_result in E1.
    destruct (forM _ devices (Session d)) as [[] s3|e s3] eqn:P1;
      [|exact (Same E1)].
    destruct (mapping_plan AV) as [qs|e] eqn:Hm; [|exact (Same E1)].
    destruct (first_pass _ _ _ _ _ _ P1) as [ps [Hps [_ [Hi Ha]]]].
    cbn [txn Session] in Hi, Ha.
    assert (Hq : Forall keyed_by_dut qs).
    { apply (mapping_plan_keyed AV); [|exact Hm].
      exact (proj2 (group_avboxs_wf _ _ Hg)). }
    rewrite E1 at 1. rewrite Hmain. unfold run_result. rewrite Hm.
    rewrite (second_pass T AV _ devices ps _ Hps).
    + rewrite E1. unfold committed_tables.
      cbn [txn Session device_inventory avbox_mapping device_ledger].
      rewrite Hi, Ha.
      rewrite inventory_upsert_all_twice.
      now rewrite (avbox_upsert_all_twice qs _ Hq).
    + intros p Hp.
      destruct (key_in (fst p) _) eqn:Hin; [|reflexivity].
      apply key_in_In in Hin. apply added_ids_In in Hin.
      destruct Hin as [_ Hnot]. exfalso. apply Hnot.
      unfold db_unique_ids. apply set_of_In.
      destruct (plan_sound _ _ _ _ Hps Hp)
        as [device [data [Hd [Hk [_ [_ [Hu Hv]]]]]]].
      assert (Ht : textual (fst p))
        by exact (Htext devs devices device (fst p) Hget Hiter Hd Hk Hu).
      unfold committed_tables. cbn [device_inventory]. rewrite Hi.
      assert (Hc : In (c_udid (snd p))
                     (map DeviceInventory.udid
                        (inventory_upsert_all (map snd ps) (device_inventory d)))).
      { apply inventory_upsert_all_covers. now apply in_map. }
      apply in_map_iff in Hc. destruct Hc as [r [Hr Hin]].
      apply in_map_iff. exists r. split; [|exact Hin].
      rewrite Hr. now apply textual_read_back.
Qed.

(** C3, as the code has it.  Run twice on the same snapshot, in which the
    identifier of every device that goes to the inventory is a string or
    null, the second run writes no ledger entry and leaves every record of
    the inventory and of the AV-box mapping as the first run left it. *)
Theorem second_run_changes_nothing (raw T : json) (d : db) :
  textual_identifiers raw ->
  let first := main raw T d in
  let second := main raw T first in
  device_ledger second = device_ledger first /\
  device_inventory second = device_inventory first /\
  avbox_mapping second = avbox_mapping first.
Proof. intro H. cbv zeta. now rewrite (main_twice raw T d H). Qed.
End Idempotence.

(** A device whose identifier is a number: the record of the first run is
    found by the second, which rewrites it, but Python does not find the
    number among the texts it reads from the column, and the second run
    writes the ledger entry of an addition again. *)
Lemma second_run_on_a_number :
  let first := main (RT := plain_runtime) snapshot_numbered JNull empty_db in
  let second := main (RT := plain_runtime) snapshot_numbered JNull first in
  device_inventory first = [record_7 1] /\
  device_inventory second = [record_7 1] /\
  device_ledger first = [DeviceLedger.mk 1 (TEXT "7") "added" ""] /\
  device_ledger second = [DeviceLedger.mk 1 (TEXT "7") "added" "";
                          DeviceLedger.mk 2 (TEXT "7") "added" ""] /\
  device_ledger second <> device_ledger first.
Proof. repeat split. discriminate. Qed.

(** Run twice on the box, whose identifiers are strings. *)
Lemma second_run_changes_nothing_box :
  let first := main (RT := plain_runtime) snapshot_box JNull db_P in
  let second := main (RT := plain_runtime) snapshot_box JNull first in
  List.length (device_ledger first) = 2%nat /\
  device_ledger second = device_ledger first /\
  device_inventory second = device_inventory first /\
  avbox_mapping second = avbox_mapping first.
Proof.
  split; [reflexivity|].
  apply (second_run_changes_nothing (RT := plain_runtime) snapshot_box JNull db_P).
  intros devs devices device k Hg Hi Hin Hk Hu.
  vm_compute in Hg. injection Hg as <-.
  vm_compute in Hi. injection Hi as <-.
  destruct Hin as [<- | [<- | [<- | []]]];
    vm_compute in Hk; try discriminate Hk;
    vm_compute in Hu; injection Hu as <-; exact I.
Defined.

(** * Further properties of the code *)

(** ** Helpers *)

(** X1.  [safe_get_device] on a list: Python's indexing, with [None] where the
    index is out of range; on a dict the [KeyError] is not caught. *)
Theorem safe_get_device_list (l : list json) (i : Z) :
  let n := Z.of_nat (List.length l) in
  (0 <= i < n -> safe_get_device (JList l) i = Ok (nth (Z.to_nat i) l JNull)) /\
  (- n <= i < 0 ->
   safe_get_device (JList l) i = Ok (nth (Z.to_nat (i + n)) l JNull)) /\
  (n <= i \/ i < - n -> safe_get_device (JList l) i = Ok JNull) /\
  (forall o, safe_get_device (JObj o) i = Raise KeyError).
Proof.
  intro n. unfold safe_get_device, py_index. fold n.
  repeat split.
  - intros [H0 H1].
    destruct (i <? 0) eqn:E; [apply Z.ltb_lt in E; lia|].
    assert (E0 : (0 <=? i) = true) by now apply Z.leb_le.
    assert (E1 : (i <? n) = true) by now apply Z.ltb_lt.
    now rewrite E0, E1.
  - intros [H0 H1].
    assert (E : (i <? 0) = true) by now apply Z.ltb_lt.
    rewrite E.
    assert (E0 : (0 <=? i + n) = true) by (apply Z.leb_le; lia).
    assert (E1 : (i + n <? n) = true) by (apply Z.ltb_lt; lia).
    now rewrite E0, E1.
  - intros H.
    destruct (i <? 0) eqn:E.
    + apply Z.ltb_lt in E.
      destruct (0 <=? i + n) eqn:E0; [|reflexivity].
      apply Z.leb_le in E0.
      assert (E1 : (i + n <? n) = true) by (apply Z.ltb_lt; lia).
      rewrite E1. simpl. destruct H; lia.
    + apply Z.ltb_ge in E.
      destruct (i <? n) eqn:E1.
      * apply Z.ltb_lt in E1. destruct H; lia.
      * now rewrite andb_false_r.
Qed.

Lemma safe_get_device_list_examples :
  safe_get_device (JList [JStr "a"; JStr "b"]) 1 = Ok (JStr "b") /\
  safe_get_device (JList [JStr "a"; JStr "b"]) (-1) = Ok (JStr "b") /\
  safe_get_device (JList [JStr "a"; JStr "b"]) 2 = Ok JNull.
Proof.
  destruct (safe_get_device_list [JStr "a"; JStr "b"] 1) as [H1 _].
  destruct (safe_get_device_list [JStr "a"; JStr "b"] (-1)) as [_ [H2 _]].
  destruct (safe_get_device_list [JStr "a"; JStr "b"] 2) as [_ [_ [H3 _]]].
  split; [apply H1; simpl; lia|].
  split; [apply H2; simpl; lia|].
  apply H3; simpl; lia.
Defined.

(** ** Identity Resolver: faults and defaults *)

(** X2.  Without a sub-category, a device that has no category gets the empty
    string, and a device whose category is not a string makes both
    resolvers raise [AttributeError]; so does a device that is not a
    dict. *)
Theorem resolver_faults (o : list (string * json)) :
  truthy (lookup_or_null "device_subtype" o) = false ->
  (lookup "device_type" o = None ->
   get_effective_device_type (JObj o) = Ok (JStr "")) /\
  (forall v, lookup "device_type" o = Some v -> (forall s, v <> JStr s) ->
             get_effective_device_type (JObj o) = Raise AttributeError /\
             get_unique_device_id (JObj o) = Raise AttributeError).
Proof.
  intro Hsub. unfold lookup_or_null in Hsub.
  assert (E : get_effective_device_type (JObj o) =
              (lowered <- str_lower (match lookup "device_type" o with
                                     | Some v => v
                                     | None => JStr ""
                                     end) ;;
               if existsb (String.eqb lowered) browser_names
               then Ok (JStr "browser")
               else Ok (match lookup "device_type" o with
                        | Some v => v
                        | None => JStr ""
                        end))).
  { unfold get_effective_device_type, get, get_default. cbn [bind].
    now rewrite Hsub. }
  split.
  - intro Hn. rewrite E, Hn. reflexivity.
  - intros v Hv Hns.
    assert (E' : get_effective_device_type (JObj o) = Raise AttributeError).
    { rewrite E, Hv. destruct v; try reflexivity. now destruct (Hns s). }
    split; [exact E'|]. unfold get_unique_device_id. now rewrite E'.
Qed.

Lemma resolver_faults_null_type :
  get_effective_device_type device_null_type = Raise AttributeError /\
  get_unique_device_id device_null_type = Raise AttributeError.
Proof.
  refine (proj2 (resolver_faults
                   [("device_id", JStr "id-N"); ("device_type", JNull)] eq_refl)
            JNull eq_refl _).
  discriminate.
Defined.

(** ** The record built for the inventory *)

Ltac split_binds E :=
  repeat match type of E with
         | context [bind ?m _] =>
             let H := fresh "Hb" in
             destruct m eqn:H; cbn [bind] in E; try discriminate
         end.

Section Details.
Context {RT : Runtime}.

(** X3.  The fields of the record agree with one another: the category is the
    effective category, the identifier is the address exactly when the
    category is [browser] (else the device identifier), the AV-box flag is
    a boolean and the teams are a string. *)
Theorem details_consistent (device T : json) (data : inventory_data) :
  device_details_for_db device T = Ok data ->
  get_effective_device_type device = Ok (d_device_type data) /\
  get_unique_device_id device = Ok (d_udid data) /\
  (d_device_type data = JStr "browser" ->
   get device "device_address" = Ok (d_udid data)) /\
  (d_device_type data <> JStr "browser" ->
   get device "device_id" = Ok (d_udid data)) /\
  (exists avbox_info,
      get device "avbox_info" = Ok avbox_info /\
      d_is_avbox data = JBool (truthy avbox_info)) /\
  (exists s, d_teams data = JStr s).
Proof.
  intro E. unfold device_details_for_db in E.
  split_binds E. injection E as <-. cbn.
  split; [reflexivity|]. split; [reflexivity|].
  assert (Hu : get_unique_device_id device =
               if py_eq a2 (JStr "browser") then get device "device_address"
               else get device "device_id").
  { unfold get_unique_device_id. now rewrite Hb2. }
  split; [|split; [|split]].
  - intros ->. now rewrite <- Hb5, Hu.
  - intro N. rewrite <- Hb5, Hu.
    destruct (py_eq a2 (JStr "browser")) eqn:P; [|reflexivity].
    apply py_eq_str in P. contradiction.
  - eexists. split; reflexivity.
  - unfold device_details_teams in Hb11.
    destruct (truthy (JList a0)).
    + destruct (join ", " a0); [|discriminate]. injection Hb11 as <-. eauto.
    + injection Hb11 as <-. eauto.
Qed.

(** X4.  When the team snapshot is absent, the teams of every record are the
    empty string. *)
Theorem details_without_team_snapshot (device T : json) (data : inventory_data) :
  truthy T = false ->
  device_details_for_db device T = Ok data ->
  d_teams data = JStr "".
Proof.
  intros HT E. unfold device_details_for_db in E.
  assert (Ht : forall a, get_device_teams a T = Ok []).
  { intro a. unfold get_device_teams. now rewrite HT. }
  destruct (get device "device_address"); cbn [bind] in E; [|discriminate].
  rewrite Ht in E. cbn [bind] in E.
  split_binds E. injection E as <-. cbn.
  now injection Hb9 as <-.
Qed.
Lemma join_strings (sep : string) (l : list string) :
  join sep (map JStr l) = Ok (String.concat sep l).
Proof.
  induction l as [|x l IH]; [reflexivity|].
  cbn [map join String.concat]. destruct l as [|y l]; [reflexivity|].
  cbn [map] in *. now rewrite IH.
Qed.

Lemma join_not_string (sep : string) (l : list json) (x : json) :
  In x l -> (forall s, x <> JStr s) -> join sep l = Raise TypeError.
Proof.
  induction l as [|y l IH]; intros Hin Hx; [destruct Hin|].
  destruct Hin as [-> | Hin].
  - cbn [join]. destruct x; try reflexivity. now destruct (Hx s).
  - cbn [join]. destruct y; try reflexivity.
    destruct l as [|z l]; [destruct Hin|].
    now rewrite (IH Hin Hx).
Qed.

(** X5.  The SKUs of a record: a list of strings is joined with a comma and a
    space, a value that is no list is kept as it is, and a list with an
    item that is no string makes the record fail. *)
Theorem details_skus (device T : json) :
  (forall data l,
      device_details_for_db device T = Ok data ->
      get device "device_skus" = Ok (JList (map JStr l)) ->
      d_device_skus data = JStr (String.concat ", " l)) /\
  (forall data v,
      device_details_for_db device T = Ok data ->
      get device "device_skus" = Ok v -> (forall l, v <> JList l) ->
      d_device_skus data = v) /\
  (forall l x,
      get device "device_skus" = Ok (JList l) ->
      In x l -> (forall s, x <> JStr s) ->
      forall data, device_details_for_db device T <> Ok data).
Proof.
  split; [|split].
  - intros data l E Hs. unfold device_details_for_db in E.
    destruct (get device "device_address"); cbn [bind] in E; [|discriminate].
    destruct (get_device_teams a T); cbn [bind] in E; [|discriminate].
    rewrite Hs in E. cbn [bind] in E.
    destruct (get_effective_device_type device); cbn [bind] in E; [|discriminate].
    destruct (get device "model"); cbn [bind] in E; [|discriminate].
    rewrite join_strings in E. cbn [bind] in E.
    split_binds E. now injection E as <-.
  - intros data v E Hs Hv. unfold device_details_for_db in E.
    destruct (get device "device_address"); cbn [bind] in E; [|discriminate].
    destruct (get_device_teams a T); cbn [bind] in E; [|discriminate].
    rewrite Hs in E. cbn [bind] in E.
    destruct (get_effective_device_type device); cbn [bind] in E; [|discriminate].
    destruct (get device "model"); cbn [bind] in E; [|discriminate].
    destruct v; try (now destruct (Hv l)); cbn [bind] in E;
      split_binds E; now injection E as <-.
  - intros l x Hs Hin Hx data E. unfold device_details_for_db in E.
    destruct (get device "device_address"); cbn [bind] in E; [|discriminate].
    destruct (get_device_teams a T); cbn [bind] in E; [|discriminate].
    rewrite Hs in E. cbn [bind] in E.
    destruct (get_effective_device_type device); cbn [bind] in E; [|discriminate].
    destruct (get device "model"); cbn [bind] in E; [|discriminate].
    rewrite (join_not_string _ _ _ Hin Hx) in E. discriminate.
Qed.
End Details.

Lemma details_consistent_plain_device :
  exists data,
    device_details_for_db (RT := plain_runtime) plain_device JNull = Ok data /\
    get_effective_device_type plain_device = Ok (d_device_type data) /\
    get_unique_device_id plain_device = Ok (d_udid data) /\
    d_udid data = JStr "id-P".
Proof.
  eexists. split; [reflexivity|].
  split; [|split].
  - exact (proj1 (details_consistent (RT := plain_runtime)
                    plain_device JNull _ eq_refl)).
  - exact (proj1 (proj2 (details_consistent (RT := plain_runtime)
                           plain_device JNull _ eq_refl))).
  - reflexivity.
Defined.

Lemma details_without_team_snapshot_empty :
  exists data,
    device_details_for_db (RT := plain_runtime) plain_device (JObj []) = Ok data /\
    d_teams data = JStr "".
Proof.
  eexists. split; [reflexivity|].
  exact (details_without_team_snapshot (RT := plain_runtime)
           plain_device (JObj []) _ eq_refl eq_refl).
Defined.

Lemma details_skus_examples :
  (exists data,
      device_details_for_db (RT := plain_runtime) device_two_skus JNull = Ok data /\
      d_device_skus data = JStr "a, b") /\
  (forall data,
      device_details_for_db (RT := plain_runtime) device_numeric_sku JNull <> Ok data).
Proof.
  split.
  - eexists. split; [reflexivity|].
    exact (proj1 (details_skus (RT := plain_runtime) device_two_skus JNull)
             _ ["a"; "b"]%string eq_refl eq_refl).
  - refine (proj2 (proj2 (details_skus (RT := plain_runtime)
                            device_numeric_sku JNull))
              [JStr "a"; JInt 7] (JInt 7) eq_refl _ _).
    + right. now left.
    + discriminate.
Defined.

(** ** Team Annotator: what a returned list holds *)

Lemma not_contained (x : json) (l : list json) :
  list_contains x l = false -> forall a, In a l -> py_eq x a = false.
Proof.
  intros Hc a Ha. destruct (py_eq x a) eqn:E; [|reflexivity].
  assert (list_contains x l = true).
  { apply existsb_exists. now exists a. }
  congruence.
Qed.

Lemma no_repeats_snoc (l : list json) (x : json) :
  no_repeats l -> list_contains x l = false -> no_repeats (l ++ [x]).
Proof.
  intros Hl Hx i j a b Hij Hi Hj.
  assert (Hlen : (j < List.length (l ++ [x]))%nat).
  { apply nth_error_Some. congruence. }
  rewrite length_app in Hlen. simpl in Hlen.
  assert (Hi' : nth_error l i = Some a).
  { rewrite nth_error_app1 in Hi by lia. exact Hi. }
  destruct (Nat.eq_dec j (List.length l)) as [-> | Hne].
  - rewrite nth_error_app2 in Hj by lia.
    rewrite Nat.sub_diag in Hj. injection Hj as <-.
    apply (not_contained x l Hx). now apply nth_error_In with i.
  - rewrite nth_error_app1 in Hj by lia.
    now apply (Hl i j).
Qed.

Lemma no_repeats_nil : no_repeats [].
Proof. intros i j x y _ Hi. destruct i; discriminate. Qed.

Lemma collect_team_no_repeats (acc : list json) (team : json) (acc' : list json) :
  collect_team acc team = Ok acc' -> no_repeats acc -> no_repeats acc'.
Proof.
  unfold collect_team. destruct (subscript team "team_name"); [|discriminate].
  cbn [bind]. destruct (list_contains a acc) eqn:Hc; cbn [negb];
    intros E Hn; injection E as <-; [assumption|].
  now apply no_repeats_snoc.
Qed.

Lemma foldM_invariant {A B} (P : A -> Prop) (f : A -> B -> result A)
  (l : list B) :
  (forall a b a', f a b = Ok a' -> P a -> P a') ->
  forall a a', foldM f l a = Ok a' -> P a -> P a'.
Proof.
  intro Hf. induction l as [|b l IH]; intros a a' E Ha.
  - now injection E as <-.
  - cbn [foldM] in E. destruct (f a b) as [a1|] eqn:E1; [|discriminate].
    apply (IH a1 a' E). now apply (Hf a b).
Qed.

Lemma collect_device_no_repeats (address : json) (acc : list json)
  (device : json) (acc' : list json) :
  collect_device address acc device = Ok acc' -> no_repeats acc -> no_repeats acc'.
Proof.
  unfold collect_device. destruct (get device "device_address"); [|discriminate].
  cbn [bind]. destruct (py_eq address a).
  - destruct (get_default device "teams" (JList [])); [|discriminate].
    cbn [bind]. destruct (py_iter a0); [|discriminate]. cbn [bind].
    apply foldM_invariant. apply collect_team_no_repeats.
  - intros E Hn. now injection E as <-.
Qed.

(** X6.  Whatever the team snapshot, a list of teams that is returned names no
    team twice. *)
Theorem teams_never_repeat (address T : json) (l : list json) :
  get_device_teams address T = Ok l -> no_repeats l.
Proof.
  unfold get_device_teams.
  destruct (negb (truthy T)).
  { intro E. injection E as <-. apply no_repeats_nil. }
  destruct (get T "devices"); [|discriminate]. cbn [bind].
  destruct (negb (truthy a)).
  { intro E. injection E as <-. apply no_repeats_nil. }
  destruct (py_iter a); [|discriminate]. cbn [bind].
  intro E.
  apply (foldM_invariant no_repeats (collect_device address) a0
           (collect_device_no_repeats address) _ _ E).
  apply no_repeats_nil.
Qed.

Lemma teams_never_repeat_P :
  get_device_teams (JStr "P") teams_P = Ok [JStr "qa"; JStr "lab"] /\
  no_repeats [JStr "qa"; JStr "lab"].
Proof.
  split; [reflexivity|].
  exact (teams_never_repeat (JStr "P") teams_P _ eq_refl).
Defined.

Lemma py_eq_str_l (s : string) (v : json) : py_eq (JStr s) v = true <-> v = JStr s.
Proof.
  destruct v; simpl; split; intro E; try discriminate.
  - apply String.eqb_eq in E. now subst.
  - injection E as ->. apply String.eqb_refl.
Qed.

Lemma contains_string (n : string) (l : list json) :
  list_contains (JStr n) l = true <-> In (JStr n) l.
Proof.
  unfold list_contains. rewrite existsb_exists. split.
  - intros [x [Hx E]]. apply py_eq_str_l in E. now subst.
  - intro H. exists (JStr n). split; [assumption | now apply py_eq_str_l].
Qed.

Lemma collect_team_In (n : string) (acc acc' : list json) (team : json) :
  collect_team acc team = Ok acc' ->
  (In (JStr n) acc' <->
   In (JStr n) acc \/ subscript team "team_name" = Ok (JStr n)).
Proof.
  unfold collect_team. destruct (subscript team "team_name") as [name|];
    [|discriminate].
  cbn [bind]. destruct (list_contains name acc) eqn:Hc; cbn [negb];
    intro E; injection E as <-.
  - split; [tauto|]. intros [H | H]; [assumption|].
    injection H as ->. now apply contains_string.
  - rewrite in_app_iff. simpl. split.
    + intros [H | [H | []]]; [now left | right; now rewrite H].
    + intros [H | H]; [now left|]. right. left. now injection H.
Qed.

Lemma fold_teams_In (n : string) (teams : list json) :
  forall acc acc',
    foldM collect_team teams acc = Ok acc' ->
    (In (JStr n) acc' <->
     In (JStr n) acc \/
     exists team, In team teams /\ subscript team "team_name" = Ok (JStr n)).
Proof.
  induction teams as [|team teams IH]; intros acc acc' E.
  - injection E as <-. split; [tauto|]. intros [H | [t [[] _]]]. exact H.
  - cbn [foldM] in E.
    destruct (collect_team acc team) as [acc1|] eqn:E1; [|discriminate].
    cbn [bind] in E. rewrite (IH _ _ E), (collect_team_In n _ _ _ E1).
    split.
    + intros [[H | H] | [t [Ht Hs]]].
      * now left.
      * right. exists team. split; [now left | assumption].
      * right. exists t. split; [now right | assumption].
    + intros [H | [t [[<- | Ht] Hs]]].
      * left. now left.
      * left. now right.
      * right. now exists t.
Qed.

Lemma collect_device_In (address : json) (n : string) (acc acc' : list json)
  (device : json) :
  collect_device address acc device = Ok acc' ->
  (In (JStr n) acc' <-> In (JStr n) acc \/ listed_team address [device] n).
Proof.
  unfold collect_device.
  destruct (get device "device_address") as [a|] eqn:Ha; [|discriminate].
  cbn [bind]. destruct (py_eq address a) eqn:Hp.
  - destruct (get_default device "teams" (JList [])) as [ts|] eqn:Ht;
      [|discriminate].
    cbn [bind]. destruct (py_iter ts) as [teams|] eqn:Hi; [|discriminate].
    cbn [bind]. intro E. rewrite (fold_teams_In n _ _ _ E). split.
    + intros [H | [team [Hin Hs]]]; [now left|]. right.
      exists device, a, ts, teams, team. repeat split; try assumption. now left.
    + intros [H | [d [a' [ts' [teams' [team [Hd [Ha' [_ [Ht' [Hi' [Hin Hs]]]]]]]]]]]];
        [now left|].
      destruct Hd as [<- | []].
      right. exists team. split; [|assumption].
      rewrite Ht in Ht'. injection Ht' as <-.
      rewrite Hi in Hi'. now injection Hi' as <-.
  - intro E. injection E as <-. split; [tauto|].
    intros [H | [d [a' [ts' [teams' [team [Hd [Ha' [Hp' _]]]]]]]]]; [assumption|].
    destruct Hd as [<- | []]. rewrite Ha in Ha'. injection Ha' as <-. congruence.
Qed.

Lemma fold_devices_In (address : json) (n : string) (devices : list json) :
  forall acc acc',
    foldM (collect_device address) devices acc = Ok acc' ->
    (In (JStr n) acc' <-> In (JStr n) acc \/ listed_team address devices n).
Proof.
  induction devices as [|device devices IH]; intros acc acc' E.
  - injection E as <-. split; [tauto|].
    intros [H | [d [a [ts [teams [team [[] _]]]]]]]. exact H.
  - cbn [foldM] in E.
    destruct (collect_device address acc device) as [acc1|] eqn:E1;
      [|discriminate].
    cbn [bind] in E. rewrite (IH _ _ E), (collect_device_In address n _ _ _ E1).
    split.
    + intros [[H | H] | H].
      * now left.
      * right. destruct H as [d [a [ts [teams [team [Hd H]]]]]].
        destruct Hd as [<- | []].
        exists device, a, ts, teams, team. split; [now left | exact H].
      * right. destruct H as [d [a [ts [teams [team [Hd H]]]]]].
        exists d, a, ts, teams, team. split; [now right | exact H].
    + intros [H | [d [a [ts [teams [team [[<- | Hd] H]]]]]]].
      * left. now left.
      * left. right. exists device, a, ts, teams, team.
        split; [now left | exact H].
      * right. exists d, a, ts, teams, team. split; [assumption | exact H].
Qed.

(** X7.  A returned list holds the team name [n] exactly when the snapshot lists
    a team of that name under an address equal to the device's. *)
Theorem teams_are_the_listed_ones (address : json) (o : list (string * json))
  (devices l : list json) (n : string) :
  lookup "devices" o = Some (JList devices) ->
  get_device_teams address (JObj o) = Ok l ->
  (In (JStr n) l <-> listed_team address devices n).
Proof.
  intros Hd E. unfold get_device_teams in E.
  assert (Ho : truthy (JObj o) = true).
  { destruct o; [discriminate | reflexivity]. }
  rewrite Ho in E. cbn [negb get get_default bind] in E. rewrite Hd in E.
  destruct devices as [|d devices].
  - cbn in E. injection E as <-. split; [intros []|].
    intros [x [a [ts [teams [team [[] _]]]]]].
  - cbn [truthy negb py_iter bind] in E.
    rewrite (fold_devices_In address n _ _ _ E). split; [|tauto].
    intros [[] | H]. exact H.
Qed.

Lemma teams_are_the_listed_ones_P :
  In (JStr "lab") [JStr "qa"; JStr "lab"] <->
  listed_team (JStr "P") [team_entry "P" ["qa"; "lab"; "qa"]] "lab".
Proof.
  exact (teams_are_the_listed_ones (JStr "P")
           [("devices", JList [team_entry "P" ["qa"; "lab"; "qa"]])]
           _ _ "lab" eq_refl eq_refl).
Defined.

(** ** Box Grouper: what one device does to the bundles *)

Lemma add_entry_effect (device : json) (AV AV' : avboxs) :
  add_avbox_mapping_entry device AV = Ok AV' -> entry_effect device AV AV'.
Proof.
  intro E. unfold add_avbox_mapping_entry in E.
  repeat match type of E with
         | context [bind ?m _] =>
             let H := fresh "Hb" in
             destruct m eqn:H; cbn [bind] in E; try discriminate
         | context [if ?c then _ else _] =>
             let H := fresh "Hc" in destruct c eqn:H
         end;
    try discriminate; injection E as <-;
    first [ apply effect_skip | apply effect_camera | apply effect_control
          | apply effect_ensure | apply effect_dut ].
  all: unfold dut_record; cbn [negb] in *.
  all: repeat eexists; first [eassumption | congruence].
Qed.

Lemma group_step_effect (device : json) (AV AV' : avboxs) :
  group_step AV device = Ok AV' -> entry_effect device AV AV'.
Proof.
  unfold group_step. destruct (get device "avbox_info"); [|discriminate].
  cbn [bind]. destruct (truthy a).
  - apply add_entry_effect.
  - intro E. injection E as <-. apply effect_skip.
Qed.

Lemma get_modify_ensure (k k' : key) (f : bundle -> bundle) (m : avboxs) :
  avboxs_get k' (avboxs_modify k f (ensure_bundle k m)) =
  if key_eqb k' k
  then Some (f match avboxs_get k m with
               | Some b => b
               | None => new_bundle k
               end)
  else avboxs_get k' m.
Proof.
  rewrite avboxs_get_modify. destruct (key_eqb k' k) eqn:E.
  - rewrite avboxs_get_ensure, key_eqb_refl.
    destruct (avboxs_get k m); reflexivity.
  - rewrite avboxs_get_ensure, E. destruct (avboxs_get k' m); reflexivity.
Qed.

Lemma keys_modify (k : key) (f : bundle -> bundle) (m : avboxs) :
  map fst (avboxs_modify k f m) = map fst m.
Proof.
  induction m as [|[k' b] m IH]; simpl; [reflexivity|].
  destruct (key_eqb k k'); simpl; [reflexivity | now rewrite IH].
Qed.

Lemma keys_ensure (k : key) (m : avboxs) :
  exists tail, map fst (ensure_bundle k m) = map fst m ++ tail.
Proof.
  unfold ensure_bundle. destruct (avboxs_get k m).
  - exists []. now rewrite app_nil_r.
  - exists [k]. now rewrite map_app.
Qed.

Lemma keeps_fields_refl (b : bundle) : keeps_fields b b.
Proof. repeat split; auto. Qed.

Lemma keeps_fields_trans (b1 b2 b3 : bundle) :
  keeps_fields b1 b2 -> keeps_fields b2 b3 -> keeps_fields b1 b3.
Proof.
  intros [H1 [H2 [H3 [H4 H5]]]] [G1 [G2 [G3 [G4 G5]]]].
  repeat split; [congruence | auto ..].
Qed.

(** One device never removes a bundle, never moves one and never clears a
    field. *)
Lemma entry_effect_keeps (device : json) (AV AV' : avboxs) :
  entry_effect device AV AV' ->
  (exists tail, map fst AV' = map fst AV ++ tail) /\
  (forall k b, avboxs_get k AV = Some b ->
               exists b', avboxs_get k AV' = Some b' /\ keeps_fields b b').
Proof.
  assert (M : forall k f,
             (forall b, keeps_fields b (f b)) ->
             (exists tail,
                 map fst (avboxs_modify k f (ensure_bundle k AV)) =
                 map fst AV ++ tail) /\
             (forall k' b, avboxs_get k' AV = Some b ->
                           exists b',
                             avboxs_get k' (avboxs_modify k f (ensure_bundle k AV)) =
                             Some b' /\ keeps_fields b b')).
  { intros k f Hf. split.
    - rewrite keys_modify. apply keys_ensure.
    - intros k' b Hg. rewrite get_modify_ensure.
      destruct (key_eqb k' k) eqn:E.
      + apply key_eqb_eq in E. subst k'. rewrite Hg. eauto.
      + exists b. split; [assumption | apply keeps_fields_refl]. }
  intros [ | k t n _ | k a | k a | k ].
  - split; [exists []; now rewrite app_nil_r|].
    intros k b Hg. exists b. split; [assumption | apply keeps_fields_refl].
  - apply M. intro b. repeat split; simpl; auto; discriminate.
  - apply M. intro b. repeat split; simpl; auto; discriminate.
  - apply M. intro b. repeat split; simpl; auto; discriminate.
  - split; [apply keys_ensure|].
    intros k' b Hg. exists b. rewrite avboxs_get_ensure, Hg.
    split; [reflexivity | apply keeps_fields_refl].
Qed.

Lemma foldM_app {A B} (f : A -> B -> result A) (l1 l2 : list B) (a : A) :
  foldM f (l1 ++ l2) a = (a1 <- foldM f l1 a ;; foldM f l2 a1).
Proof.
  revert a. induction l1 as [|b l1 IH]; intro a; [reflexivity|].
  cbn [app foldM]. destruct (f a b); [apply IH | reflexivity].
Qed.

(** X8.  The bundles grouped from the first devices of a snapshot survive the
    rest of it: the later devices add bundles at the end and set fields,
    and never remove a bundle or clear a field. *)
Theorem grouping_only_adds (first rest : list json) (AV : avboxs) :
  group_avboxs (first ++ rest) = Ok AV ->
  exists AV1,
    group_avboxs first = Ok AV1 /\
    (exists tail, map fst AV = map fst AV1 ++ tail) /\
    (forall k b, avboxs_get k AV1 = Some b ->
                 exists b', avboxs_get k AV = Some b' /\ keeps_fields b b').
Proof.
  unfold group_avboxs. rewrite foldM_app.
  destruct (foldM group_step first []) as [AV1|]; [|discriminate].
  cbn [bind]. intro E. exists AV1. split; [reflexivity|].
  revert AV1 E. induction rest as [|device rest IH]; intros AV1 E.
  - injection E as <-. split; [exists []; now rewrite app_nil_r|].
    intros k b Hg. exists b. split; [assumption | apply keeps_fields_refl].
  - cbn [foldM] in E.
    destruct (group_step AV1 device) as [AV2|] eqn:E1; [|discriminate].
    cbn [bind] in E.
    destruct (entry_effect_keeps _ _ _ (group_step_effect _ _ _ E1))
      as [[t1 K1] F1].
    destruct (IH _ E) as [[t2 K2] F2].
    split.
    + exists (t1 ++ t2). now rewrite K2, K1, app_assoc.
    + intros k b Hg. destruct (F1 k b Hg) as [b1 [Hg1 Hk1]].
      destruct (F2 k b1 Hg1) as [b2 [Hg2 Hk2]].
      exists b2. split; [assumption | now apply keeps_fields_trans with b1].
Qed.

Lemma grouping_only_adds_box :
  exists AV1,
    group_avboxs [control_of_X; dut_listing_companions] = Ok AV1 /\
    (exists tail, map fst [(KStr "X",
                            {| b_dut := KStr "X";
                               b_device_type := Some (JStr "android");
                               b_device_notes := Some (JStr "rack 3");
                               b_camera_device := Some (JStr "C");
                               b_control := Some (JStr "K") |})] =
                  map fst AV1 ++ tail) /\
    (forall k b, avboxs_get k AV1 = Some b ->
                 exists b',
                   avboxs_get k [(KStr "X",
                                  {| b_dut := KStr "X";
                                     b_device_type := Some (JStr "android");
                                     b_device_notes := Some (JStr "rack 3");
                                     b_camera_device := Some (JStr "C");
                                     b_control := Some (JStr "K") |})] = Some b' /\
                   keeps_fields b b').
Proof.
  exact (grouping_only_adds [control_of_X; dut_listing_companions] [camera_of_X]
           _ eq_refl).
Defined.

(** X9.  The bundles of a snapshot have pairwise different keys, each holds its
    key in [dut], and each is the bundle found under its key. *)
Theorem bundles_are_keyed (devices : list json) (AV : avboxs) :
  group_avboxs devices = Ok AV ->
  NoDup (map fst AV) /\
  (forall k b, In (k, b) AV -> b_dut b = k /\ avboxs_get k AV = Some b).
Proof.
  intro E. destruct (group_avboxs_wf _ _ E) as [Hn Hd].
  split; [exact Hn|].
  intros k b Hin. split.
  - rewrite Forall_forall in Hd. exact (Hd (k, b) Hin).
  - clear Hd E. induction AV as [|[k0 b0] AV IH]; [destruct Hin|].
    simpl. inversion Hn as [|? ? Hnot Hn']; subst.
    destruct Hin as [Heq | Hin].
    + injection Heq as -> ->. now rewrite key_eqb_refl.
    + destruct (key_eqb k k0) eqn:Ek.
      * apply key_eqb_eq in Ek. subst k0. exfalso. apply Hnot.
        apply in_map_iff. now exists (k, b).
      * now apply IH.
Qed.

Lemma bundles_are_keyed_box :
  NoDup (map fst [(KStr "X",
                   {| b_dut := KStr "X";
                      b_device_type := Some (JStr "android");
                      b_device_notes := Some (JStr "rack 3");
                      b_camera_device := Some (JStr "C");
                      b_control := Some (JStr "K") |})]).
Proof.
  exact (proj1 (bundles_are_keyed
                  [control_of_X; dut_listing_companions; camera_of_X] _ eq_refl)).
Defined.

Lemma category_from_more (seen more : list json) (k : key) (b : bundle) :
  category_from seen k b -> category_from (seen ++ more) k b.
Proof.
  intros [H | [device [t [n [Hin H]]]]]; [now left|].
  right. exists device, t, n. split; [|exact H].
  apply in_or_app. now left.
Qed.

Lemma entry_effect_category (device : json) (seen : list json) (AV AV' : avboxs) :
  entry_effect device AV AV' ->
  (forall k b, avboxs_get k AV = Some b -> category_from seen k b) ->
  forall k b, avboxs_get k AV' = Some b -> category_from (seen ++ [device]) k b.
Proof.
  intros Heff Q.
  assert (Q0 : forall k,
             category_from (seen ++ [device]) k
               match avboxs_get k AV with
               | Some b => b
               | None => new_bundle k
               end).
  { intro k. destruct (avboxs_get k AV) eqn:E.
    - apply category_from_more. now apply Q.
    - left. split; reflexivity. }
  assert (C : forall k f,
             (forall b, b_device_type (f b) = b_device_type b /\
                        b_device_notes (f b) = b_device_notes b) ->
             forall k' b,
               avboxs_get k' (avboxs_modify k f (ensure_bundle k AV)) = Some b ->
               category_from (seen ++ [device]) k' b).
  { intros k f Hf k' b Hg. rewrite get_modify_ensure in Hg.
    destruct (key_eqb k' k) eqn:E.
    - apply key_eqb_eq in E. subst k'. injection Hg as <-.
      destruct (Hf match avboxs_get k AV with
                   | Some b => b
                   | None => new_bundle k
                   end) as [Ht Hn].
      destruct (Q0 k) as [[T N] | [d [t [n [Hin [Hr [T N]]]]]]].
      + left. split; congruence.
      + right. exists d, t, n. repeat split; try assumption; congruence.
    - apply category_from_more. now apply Q. }
  destruct Heff as [ | k t n Hrec | k a | k a | k ]; intros k' b Hg.
  - apply category_from_more. now apply Q.
  - rewrite get_modify_ensure in Hg. destruct (key_eqb k' k) eqn:E.
    + apply key_eqb_eq in E. subst k'. injection Hg as <-.
      right. exists device, t, n. repeat split; try assumption.
      apply in_or_app. right. now left.
    + apply category_from_more. now apply Q.
  - apply (C k (set_camera_device a)); [|assumption]. intro. now split.
  - apply (C k (set_control a)); [|assumption]. intro. now split.
  - rewrite avboxs_get_ensure in Hg. destruct (avboxs_get k' AV) eqn:E.
    + injection Hg as <-. apply category_from_more. now apply Q.
    + destruct (key_eqb k' k); [|discriminate]. injection Hg as <-.
      left. split; reflexivity.
Qed.

(** X10.  A bundle has a category and a note only from a device under test of
    the snapshot that is filed under the bundle's key; companions alone
    leave both unset. *)
Theorem category_comes_from_a_dut (devices : list json) (AV : avboxs)
  (k : key) (b : bundle) :
  group_avboxs devices = Ok AV ->
  avboxs_get k AV = Some b ->
  category_from devices k b.
Proof.
  unfold group_avboxs.
  assert (G : forall ds seen AV0,
             (forall k b, avboxs_get k AV0 = Some b -> category_from seen k b) ->
             foldM group_step ds AV0 = Ok AV ->
             forall k b, avboxs_get k AV = Some b ->
                         category_from (seen ++ ds) k b).
  { induction ds as [|device ds IH]; intros seen AV0 Q E k0 b0 Hg.
    - injection E as <-. rewrite app_nil_r. now apply Q.
    - cbn [foldM] in E.
      destruct (group_step AV0 device) as [AV1|] eqn:E1; [|discriminate].
      cbn [bind] in E.
      replace (seen ++ device :: ds) with ((seen ++ [device]) ++ ds)
        by now rewrite <- app_assoc.
      apply (IH (seen ++ [device]) AV1); try assumption.
      apply (entry_effect_category device seen AV0 AV1);
        [now apply group_step_effect | assumption]. }
  intros E Hg. apply (G devices [] [] ); try assumption.
  intros k0 b0 H0. discriminate.
Qed.

Lemma category_comes_from_a_dut_box :
  category_from [control_of_X; dut_listing_companions; camera_of_X] (KStr "X")
    {| b_dut := KStr "X";
       b_device_type := Some (JStr "android");
       b_device_notes := Some (JStr "rack 3");
       b_camera_device := Some (JStr "C");
       b_control := Some (JStr "K") |}.
Proof.
  exact (category_comes_from_a_dut
           [control_of_X; dut_listing_companions; camera_of_X] _ (KStr "X") _
           eq_refl eq_refl).
Defined.

(** ** Runs *)

Lemma NoDup_set_of (l : list key) : NoDup (set_of l).
Proof.
  induction l as [|k l IH]; simpl; [constructor|].
  destruct (key_in k l) eqn:E; [assumption|].
  constructor; [|assumption].
  intro H. apply (proj1 (set_of_In l k)) in H.
  apply (proj2 (key_in_In k l)) in H. congruence.
Qed.

(** X11.  The added identifiers are those of the snapshot that are not persisted,
    each once. *)
Theorem added_ids_are_the_new_ones (ids db_ids : list key) :
  NoDup (added_ids (set_of ids) db_ids) /\
  (forall k, In k (added_ids (set_of ids) db_ids) <->
             In k ids /\ ~ In k db_ids).
Proof.
  split.
  - unfold added_ids, set_diff. apply NoDup_filter. apply NoDup_set_of.
  - intro k. unfold added_ids. rewrite set_diff_In, set_of_In. tauto.
Qed.

Section MoreRuns.
Context {RT : Runtime}.

(** X12.  A snapshot that is absent, or lists no devices, ends the run at once:
    nothing is written and nothing is raised. *)
Theorem no_devices_no_change (raw T : json) (d : db) :
  truthy raw = false \/
  (exists o, raw = JObj o /\ truthy (lookup_or_null "devices" o) = false) ->
  main_try raw T (Session d) = Return tt (Session d) /\ main raw T d = d.
Proof.
  intro H.
  assert (E : main_try raw T (Session d) = Return tt (Session d)).
  { unfold main_try. destruct H as [H | [o [-> H]]].
    - now rewrite H.
    - destruct (negb (truthy (JObj o))); [reflexivity|].
      unfold bindM, lift, get, get_default. unfold lookup_or_null in H.
      now rewrite H. }
  split; [exact E|]. unfold main. now rewrite E.
Qed.

(** X13.  A request that fails - the transport raises, or the status is not 200 -
    leaves the tables as they are when it is the request for the devices;
    when it is the request for the teams, the run goes on without team
    data. *)
Theorem fetch_failures (d : db) :
  (forall e team_info, main_fetching (Raise e) team_info d = d) /\
  (forall r team_info,
      status_code r <> 200 -> main_fetching (Ok r) team_info d = d) /\
  (forall r1 r2 raw,
      status_code r1 = 200 -> response_json r1 = Ok raw ->
      status_code r2 <> 200 ->
      main_fetching (Ok r1) (Ok r2) d = main raw JNull d).
Proof.
  split; [|split].
  - intros e team_info. reflexivity.
  - intros r team_info Hs. unfold main_fetching, main_try_fetching, fetch_data.
    cbn [bind]. apply Z.eqb_neq in Hs. rewrite Hs.
    unfold bindM at 1. cbn [lift].
    unfold bindM. destruct team_info as [r2|e]; cbn [bind lift]; [|reflexivity].
    destruct (if status_code r2 =? 200 then response_json r2 else Ok JNull)
      as [T|e]; [|reflexivity].
    reflexivity.
  - intros r1 r2 raw H1 Hj H2. unfold main_fetching, main_try_fetching, fetch_data.
    cbn [bind]. apply Z.eqb_eq in H1. apply Z.eqb_neq in H2.
    rewrite H1, H2, Hj. reflexivity.
Qed.
End MoreRuns.

Lemma no_devices_no_change_null :
  main_try (RT := plain_runtime) JNull JNull (Session empty_db) =
  Return tt (Session empty_db) /\
  main (RT := plain_runtime) JNull JNull empty_db = empty_db.
Proof.
  exact (no_devices_no_change (RT := plain_runtime) JNull JNull empty_db
           (or_introl eq_refl)).
Defined.

Lemma fetch_failures_503 :
  main_fetching (RT := plain_runtime) response_503 response_503 empty_db = empty_db.
Proof.
  refine (proj1 (proj2 (fetch_failures (RT := plain_runtime) empty_db))
            {| status_code := 503; response_json := Raise TypeError |}
            response_503 _).
  discriminate.
Defined.

(** ** What a run writes *)

Lemma mapM_In {A B} (f : A -> result B) (l : list A) :
  forall bs a b, mapM f l = Ok bs -> In a l -> f a = Ok b -> In b bs.
Proof.
  induction l as [|x l IH]; intros bs a b E Hin Hf; [destruct Hin|].
  cbn [mapM] in E. destruct (f x) as [y|] eqn:Ex; [|discriminate].
  cbn [bind] in E. destruct (mapM f l) as [ys|]; [|discriminate].
  cbn [bind] in E. injection E as <-.
  destruct Hin as [-> | Hin].
  - left. congruence.
  - right. now apply (IH ys a b).
Qed.

Lemma mapM_from {A B} (f : A -> result B) (l : list A) :
  forall bs b, mapM f l = Ok bs -> In b bs -> exists a, In a l /\ f a = Ok b.
Proof.
  induction l as [|x l IH]; intros bs b E Hin; cbn [mapM] in E.
  - injection E as <-. destruct Hin.
  - destruct (f x) as [y|] eqn:Ex; [|discriminate].
    cbn [bind] in E. destruct (mapM f l) as [ys|]; [|discriminate].
    cbn [bind] in E. injection E as <-.
    destruct Hin as [<- | Hin].
    + exists x. split; [now left | exact Ex].
    + destruct (IH ys b eq_refl Hin) as [a [Ha Hf]].
      exists a. split; [now right | exact Hf].
Qed.

Lemma mapM_split {A B} (f : A -> result B) (l1 : list A) (a : A) (l2 : list A) :
  forall bs,
    mapM f (l1 ++ a :: l2) = Ok bs ->
    exists bs1 b bs2,
      bs = bs1 ++ b :: bs2 /\
      mapM f l1 = Ok bs1 /\ f a = Ok b /\ mapM f l2 = Ok bs2.
Proof.
  induction l1 as [|x l1 IH]; intros bs E; cbn [app mapM] in E.
  - destruct (f a) as [b|] eqn:Ea; [|discriminate].
    cbn [bind] in E. destruct (mapM f l2) as [bs2|]; [|discriminate].
    cbn [bind] in E. injection E as <-.
    now exists [], b, bs2.
  - destruct (f x) as [y|] eqn:Ex; [|discriminate].
    cbn [bind] in E.
    destruct (mapM f (l1 ++ a :: l2)) as [ys|] eqn:Er; [|discriminate].
    cbn [bind] in E. injection E as <-.
    destruct (IH ys eq_refl) as [bs1 [b [bs2 [-> [H1 [Hb H2]]]]]].
    exists (y :: bs1), b, bs2. cbn [mapM]. rewrite Ex, H1. now repeat split.
Qed.

Section Writes.
Context {RT : Runtime}.

Lemma plan_app (T : json) (pre : list json) (device : json) (post : list json) :
  forall ps,
    inventory_plan T (pre ++ device :: post) = Ok ps ->
    in_inventory device = Ok true ->
    exists ps1 ps2 data cells k,
      ps = ps1 ++ (k, cells) :: ps2 /\
      device_details_for_db device T = Ok data /\
      inventory_values data = Ok cells /\
      inventory_plan T post = Ok ps2.
Proof.
  induction pre as [|x pre IH]; intros ps E Hk.
  - cbn [app] in E. apply plan_cons in E.
    destruct E as [[Hf _] |
                   [data [cells [k [rest [_ [Hd [Hc [_ [_ [E ->]]]]]]]]]]];
      [congruence|].
    exists [], rest, data, cells, k. now repeat split.
  - cbn [app] in E. apply plan_cons in E.
    destruct E as [[_ E] |
                   [data [cells [k [rest [_ [_ [_ [_ [_ [E ->]]]]]]]]]]].
    + apply (IH _ E Hk).
    + destruct (IH _ E Hk) as [ps1 [ps2 [data' [cells' [k' [-> H]]]]]].
      exists ((k, cells) :: ps1), ps2, data', cells', k'.
      split; [reflexivity | exact H].
Qed.

(** What the pass over the devices writes to the ledger: an entry for each
    planned device whose identifier is among the added ones. *)
Lemma pass_ledger (T : json) (AV : avboxs) (added : list key)
  (devices : list json) :
  forall s s3,
    forM (upsert_device T AV added) devices s = Return tt s3 ->
    exists ps new,
      inventory_plan T devices = Ok ps /\
      device_ledger (txn s3) = device_ledger (txn s) ++ new /\
      Forall (fun e => DeviceLedger.status e = "added"%string) new /\
      map DeviceLedger.udid new =
      map (fun p => c_udid (snd p)) (filter (fun p => key_in (fst p) added) ps).
Proof.
  induction devices as [|device devices IH]; intros s s3 E.
  - injection E as <-. exists [], []. repeat split; [|constructor].
    now rewrite app_nil_r.
  - cbn [forM] in E. apply bindM_Return in E.
    destruct E as [[] [s1 [E1 E]]].
    destruct (IH _ _ E) as [ps [new [Hps [L [F Hk]]]]].
    apply upsert_device_Return in E1.
    destruct E1 as [[Hin ->] |
                    [data [cells [k [Hin [Hd [Hc [Hh [_ [_ [_ L1]]]]]]]]]]].
    + exists ps, new. cbn [inventory_plan]. rewrite Hin. now repeat split.
    + exists ((k, cells) :: ps).
      eexists. split; [now apply (plan_included T device devices data)|].
      split; [rewrite L, L1, <- app_assoc; reflexivity|].
      cbn [filter fst]. destruct (key_in k added).
      * split; [constructor; [reflexivity | exact F]|].
        cbn [app map snd DeviceLedger.udid]. now rewrite Hk.
      * split; [exact F | exact Hk].
Qed.

(** X14.  The ledger only grows: a run keeps every entry it finds, as it is and
    where it is, and the entries it adds record additions of identifiers
    that Python does not find among those it reads from the inventory. *)
Theorem ledger_only_grows (raw T : json) (d : db) :
  exists new,
    device_ledger (main raw T d) = device_ledger d ++ new /\
    Forall (added_entry d) new.
Proof.
  assert (Same : exists new,
             device_ledger d = device_ledger d ++ new /\
             Forall (added_entry d) new).
  { exists []. split; [now rewrite app_nil_r | constructor]. }
  destruct (main_decoded raw T)
    as [E | [devs [devices [AV [ids [_ [_ [_ [_ [_ E]]]]]]]]]];
    rewrite E; [exact Same|].
  unfold run_result.
  destruct (forM _ devices (Session d)) as [[] s3|e s3] eqn:E1; [|exact Same].
  destruct (mapping_plan AV) as [qs|e]; [|exact Same].
  destruct (pass_ledger _ _ _ _ _ _ E1) as [ps [new [Hps [L [F Hk]]]]].
  exists new. split; [exact L|].
  assert (G : forall l new0,
             (forall p, In p l -> In p ps) ->
             Forall (fun e => DeviceLedger.status e = "added"%string) new0 ->
             map DeviceLedger.udid new0 =
             map (fun p => c_udid (snd p))
               (filter (fun p => key_in (fst p)
                                   (added_ids (set_of ids) (db_unique_ids d))) l) ->
             Forall (added_entry d) new0).
  { induction l as [|p l IHl]; intros new0 Hl F0 M.
    - destruct new0; [constructor | discriminate].
    - cbn [filter] in M.
      assert (Hl' : forall q, In q l -> In q ps) by (intros q Hq; apply Hl; now right).
      destruct (key_in (fst p) _) eqn:Ka; [|now apply IHl].
      destruct new0 as [|e0 new0]; [discriminate|].
      cbn [map] in M. injection M as M0 M.
      inversion F0 as [|? ? Hs F1]; subst.
      constructor; [|now apply IHl].
      split; [exact Hs|]. exists (fst p). split.
      + rewrite M0.
        destruct (plan_sound _ _ _ _ Hps (Hl p (or_introl eq_refl)))
          as [device [data [_ [_ [_ [_ [_ Hv]]]]]]].
        exact Hv.
      + apply key_in_In in Ka. apply added_ids_In in Ka.
        destruct Ka as [_ Hnot]. intro H. apply Hnot.
        unfold db_unique_ids. now apply set_of_In. }
  exact (G ps new (fun p Hp => Hp) F Hk).
Qed.

(** X15.  A run removes no record and no mapping and moves none: the ids and the
    keys of the rows it finds stay, in their order, before those it adds. *)
Theorem rows_are_never_removed (raw T : json) (d : db) :
  (exists new,
      map DeviceInventory.id (device_inventory (main raw T d)) =
      map DeviceInventory.id (device_inventory d) ++ new) /\
  (exists new,
      map DeviceInventory.udid (device_inventory (main raw T d)) =
      map DeviceInventory.udid (device_inventory d) ++ new) /\
  (exists new,
      map AVBoxMapping.id (avbox_mapping (main raw T d)) =
      map AVBoxMapping.id (avbox_mapping d) ++ new) /\
  (exists new,
      map AVBoxMapping.dut (avbox_mapping (main raw T d)) =
      map AVBoxMapping.dut (avbox_mapping d) ++ new).
Proof.
  assert (Same : forall d0 : db,
             (exists new,
                 map DeviceInventory.id (device_inventory d0) =
                 map DeviceInventory.id (device_inventory d0) ++ new) /\
             (exists new,
                 map DeviceInventory.udid (device_inventory d0) =
                 map DeviceInventory.udid (device_inventory d0) ++ new) /\
             (exists new,
                 map AVBoxMapping.id (avbox_mapping d0) =
                 map AVBoxMapping.id (avbox_mapping d0) ++ new) /\
             (exists new,
                 map AVBoxMapping.dut (avbox_mapping d0) =
                 map AVBoxMapping.dut (avbox_mapping d0) ++ new)).
  { intro d0. repeat split; exists []; now rewrite app_nil_r. }
  destruct (main_decoded raw T)
    as [E | [devs [devices [AV [ids [_ [_ [_ [Hg [_ E]]]]]]]]]];
    rewrite E; [apply Same|].
  unfold run_result.
  destruct (forM _ devices (Session d)) as [[] s3|e s3] eqn:E1; [|apply Same].
  destruct (mapping_plan AV) as [qs|e] eqn:Hm; [|apply Same].
  destruct (first_pass _ _ _ _ _ _ E1) as [ps [_ [_ [Hi Ha]]]].
  cbn [txn Session] in Hi, Ha.
  unfold committed_tables. cbn [device_inventory avbox_mapping].
  rewrite Hi, Ha.
  assert (Hq : Forall keyed_by_dut qs).
  { apply (mapping_plan_keyed AV); [|exact Hm].
    exact (proj2 (group_avboxs_wf _ _ Hg)). }
  split; [|split; [|split]].
  - apply ids_upsert_all. reflexivity.
  - apply (keys_upsert_all _ _ _ _ _ (fun _ => True)); try reflexivity.
    apply Forall_forall. auto.
  - apply ids_upsert_all. reflexivity.
  - apply (keys_upsert_all _ _ _ _ _ keyed_by_dut).
    + intros p r Hp. exact Hp.
    + intros p i Hp. exact Hp.
    + exact Hq.
Qed.

(** A run that returns after decoding a snapshot with devices has
    committed what the two passes wrote. *)
Lemma main_try_returned (raw T : json) (d : db) (s' : session)
  (devs : json) (devices : list json) :
  main_try raw T (Session d) = Return tt s' ->
  get raw "devices" = Ok devs ->
  py_iter devs = Ok devices ->
  devices <> [] ->
  exists AV ids s3 qs,
    group_avboxs devices = Ok AV /\
    mapM unique_key devices = Ok ids /\
    forM (upsert_device T AV (added_ids (set_of ids) (db_unique_ids d)))
      devices (Session d) = Return tt s3 /\
    mapping_plan AV = Ok qs /\
    main raw T d = committed_tables qs s3.
Proof.
  intros H Hget Hiter Hne.
  assert (Hmain : main raw T d = txn (close s')).
  { unfold main. now rewrite H. }
  unfold main_try in H.
  assert (Hraw : truthy raw = true).
  { destruct raw; try discriminate.
    destruct o; [|reflexivity].
    injection Hget as <-. discriminate. }
  assert (Hdevs : truthy devs = true).
  { destruct devs as [| | |s|l|o]; try discriminate.
    - destruct s; [|reflexivity]. injection Hiter as <-. contradiction.
    - destruct l; [|reflexivity]. injection Hiter as <-. contradiction.
    - destruct o; [|reflexivity]. injection Hiter as <-. contradiction. }
  rewrite Hraw in H. cbn [negb] in H.
  unfold bindM at 1 in H. rewrite Hget in H. cbn [lift] in H.
  rewrite Hdevs in H. cbn [negb] in H.
  unfold bindM at 1 in H. rewrite Hiter in H. cbn [lift] in H.
  unfold bindM at 1 in H.
  destruct (group_avboxs devices) as [AV|]; cbn [lift] in H; [|discriminate].
  unfold bindM at 1 in H.
  destruct (mapM unique_key devices) as [ids|]; cbn [lift] in H; [|discriminate].
  cbv zeta in H. unfold bindM at 1 in H. cbn [query txn Session] in H.
  rewrite removed_ids_nil in H. cbn [forM] in H.
  unfold bindM at 1 in H. cbn [ret] in H.
  unfold bindM at 1 in H.
  destruct (forM _ devices (Session d)) as [[] s3|] eqn:E1; [|discriminate].
  unfold bindM in H.
  destruct (mapping_plan AV) as [qs|e] eqn:Hm.
  - rewrite (mapping_pass AV qs s3 Hm) in H. injection H as <-.
    exists AV, ids, s3, qs.
    do 4 (split; [first [reflexivity | assumption]|]). exact Hmain.
  - destruct (mapping_pass_raises AV e s3 Hm) as [s1 [E5 _]].
    rewrite E5 in H. discriminate.
Qed.

(** X16.  The record of a device that is gone from the snapshot is neither
    removed nor changed: a record whose identifier is not the text of the
    identifier of any device of the snapshot is after the run where and as
    it was. *)
Theorem stale_records_stay (raw T : json) (d : db) (devs : json)
  (devices : list json) (ids : list key) (r : DeviceInventory.t) (i : nat) :
  get raw "devices" = Ok devs ->
  py_iter devs = Ok devices ->
  mapM unique_key devices = Ok ids ->
  (forall k, In k ids -> key_value k <> Ok (DeviceInventory.udid r)) ->
  nth_error (device_inventory d) i = Some r ->
  nth_error (device_inventory (main raw T d)) i = Some r.
Proof.
  intros Hget Hiter Hids Hnot Hn.
  destruct (main_decoded raw T)
    as [E | [devs' [devices' [AV [ids' [Hget' [Hiter' [_ [_ [_ E]]]]]]]]]];
    rewrite E; [exact Hn|].
  rewrite Hget in Hget'. injection Hget' as <-.
  rewrite Hiter in Hiter'. injection Hiter' as <-.
  unfold run_result.
  destruct (forM _ devices (Session d)) as [[] s3|e s3] eqn:E1; [|exact Hn].
  destruct (mapping_plan AV) as [qs|e]; [|exact Hn].
  destruct (first_pass _ _ _ _ _ _ E1) as [ps [Hps [_ [Hi _]]]].
  cbn [txn Session] in Hi.
  unfold committed_tables. cbn [device_inventory]. rewrite Hi.
  apply nth_upsert_all_other; [|exact Hn].
  intros p Hp Heq. apply in_map_iff in Hp. destruct Hp as [p0 [<- Hp0]].
  destruct (plan_sound _ _ _ _ Hps Hp0)
    as [device [data [Hin [_ [_ [_ [Hu Hv]]]]]]].
  apply (Hnot (fst p0)).
  - exact (mapM_In _ _ _ _ _ Hids Hin Hu).
  - now rewrite Heq.
Qed.

(** X17.  The mapping of a device under test that no device of the snapshot is
    grouped under is neither removed nor changed: a mapping whose [dut] is
    not the text of the key of any bundle. *)
Theorem stale_mappings_stay (raw T : json) (d : db) (devs : json)
  (devices : list json) (AV : avboxs) (r : AVBoxMapping.t) (i : nat) :
  get raw "devices" = Ok devs ->
  py_iter devs = Ok devices ->
  group_avboxs devices = Ok AV ->
  (forall e, In e AV -> key_value (fst e) <> Ok (AVBoxMapping.dut r)) ->
  nth_error (avbox_mapping d) i = Some r ->
  nth_error (avbox_mapping (main raw T d)) i = Some r.
Proof.
  intros Hget Hiter Hg Hnone Hn.
  destruct (main_decoded raw T)
    as [E | [devs' [devices' [AV' [ids' [Hget' [Hiter' [_ [Hg' [_ E]]]]]]]]]];
    rewrite E; [exact Hn|].
  rewrite Hget in Hget'. injection Hget' as <-.
  rewrite Hiter in Hiter'. injection Hiter' as <-.
  rewrite Hg in Hg'. injection Hg' as <-.
  unfold run_result.
  destruct (forM _ devices (Session d)) as [[] s3|e s3] eqn:E1; [|exact Hn].
  destruct (mapping_plan AV) as [qs|e] eqn:Hm; [|exact Hn].
  destruct (first_pass _ _ _ _ _ _ E1) as [ps [_ [_ [_ Ha]]]].
  cbn [txn Session] in Ha.
  unfold committed_tables. cbn [avbox_mapping]. rewrite Ha.
  apply nth_upsert_all_other; [|exact Hn].
  intros q Hq Heq.
  destruct (mapM_from _ _ _ _ Hm Hq) as [e [He Hqe]].
  apply (Hnone e He). unfold mapping_entry in Hqe.
  destruct (key_value (fst e)) as [dut|]; cbn [bind] in Hqe; [|discriminate].
  destruct (mapping_values (snd e)); cbn [bind] in Hqe; [|discriminate].
  injection Hqe as <-. cbn [fst] in Heq. now rewrite Heq.
Qed.

(** X18.  When several devices of a snapshot are written to one record, the
    record holds, after a run that committed, the data of the last of
    them, as the columns hold them. *)
Theorem last_device_wins (raw T : json) (d : db) (s' : session) (devs : json)
  (pre post : list json) (device : json) (data : inventory_data)
  (cells : inventory_cells) :
  main_try raw T (Session d) = Return tt s' ->
  get raw "devices" = Ok devs ->
  py_iter devs = Ok (pre ++ device :: post) ->
  in_inventory device = Ok true ->
  device_details_for_db device T = Ok data ->
  inventory_values data = Ok cells ->
  (forall device' k, In device' post -> in_inventory device' = Ok true ->
                     unique_key device' = Ok k ->
                     key_value k <> Ok (c_udid cells)) ->
  exists r,
    find (has_udid (c_udid cells)) (device_inventory (main raw T d)) = Some r /\
    holds_cells cells r.
Proof.
  intros H Hget Hiter Hkeep Hd Hc Hpost.
  destruct (main_try_returned raw T d s' devs _ H Hget Hiter)
    as [AV [ids [s3 [qs [_ [_ [E1 [_ ->]]]]]]]].
  { now destruct pre. }
  destruct (first_pass _ _ _ _ _ _ E1) as [ps [Hps [_ [Hi _]]]].
  cbn [txn Session] in Hi.
  unfold committed_tables. cbn [device_inventory]. rewrite Hi.
  destruct (plan_app _ _ _ _ _ Hps Hkeep)
    as [ps1 [ps2 [data' [cells' [k [-> [Hd' [Hc' Hps2]]]]]]]].
  assert (data' = data) by congruence. subst data'.
  assert (cells' = cells) by congruence. subst cells'.
  rewrite map_app. cbn [map snd].
  unfold inventory_upsert_all. rewrite upsert_all_app, upsert_all_cons.
  change (has_udid (c_udid cells))
    with (keyed DeviceInventory.udid (c_udid cells)).
  assert (Hothers : forall q, In q (map snd ps2) -> c_udid q <> c_udid cells).
  { intros q Hq Heq. apply in_map_iff in Hq. destruct Hq as [p0 [<- Hp0]].
    destruct (plan_sound _ _ _ _ Hps2 Hp0)
      as [device' [data' [Hin [Hk' [_ [_ [Hu Hv]]]]]]].
    apply (Hpost device' (fst p0) Hin Hk' Hu). now rewrite Hv, Heq. }
  assert (Hall : Forall (fun _ : inventory_cells => True) (map snd ps2)).
  { apply Forall_forall. auto. }
  rewrite (find_upsert_all_others DeviceInventory.udid DeviceInventory.id c_udid
             assign_inventory new_inventory
             (fun _ => True) (fun _ _ _ => eq_refl) (fun _ _ _ => eq_refl)
             (c_udid cells) (map snd ps2) Hall Hothers).
  change (keyed DeviceInventory.udid (c_udid cells))
    with (matches DeviceInventory.udid c_udid cells).
  rewrite (find_upsert_same DeviceInventory.udid DeviceInventory.id c_udid
             assign_inventory new_inventory
             (fun _ => True) (fun _ _ _ => eq_refl) (fun _ _ _ => eq_refl)
             cells _ I).
  eexists. split; [reflexivity|].
  destruct (find _ _); repeat split.
Qed.

(** X19.  After a run that committed, the mapping found for the key of a bundle
    that is the only one written to it holds, in each column, the item of
    the bundle, or, where the bundle has none, what was persisted - NULL
    when no mapping was. *)
Theorem mapping_of_a_bundle (raw T : json) (d : db) (s' : session) (devs : json)
  (devices : list json) (AV : avboxs) (k : key) (b : bundle)
  (dut : cell) (cells : mapping_cells) :
  main_try raw T (Session d) = Return tt s' ->
  get raw "devices" = Ok devs ->
  py_iter devs = Ok devices ->
  group_avboxs devices = Ok AV ->
  In (k, b) AV ->
  key_value k = Ok dut ->
  mapping_values b = Ok cells ->
  (forall e, In e AV -> fst e <> k -> key_value (fst e) <> Ok dut) ->
  let persisted := find (has_dut dut) (avbox_mapping d) in
  exists r,
    find (has_dut dut) (avbox_mapping (main raw T d)) = Some r /\
    AVBoxMapping.dut r = dut /\
    AVBoxMapping.device_type r =
    column_after (m_device_type cells)
      (option_map AVBoxMapping.device_type persisted) /\
    AVBoxMapping.device_notes r =
    column_after (m_device_notes cells)
      (option_map AVBoxMapping.device_notes persisted) /\
    AVBoxMapping.camera_device r =
    column_after (m_camera_device cells)
      (option_map AVBoxMapping.camera_device persisted) /\
    AVBoxMapping.control r =
    column_after (m_control cells)
      (option_map AVBoxMapping.control persisted) /\
    (forall r0, persisted = Some r0 -> AVBoxMapping.id r = AVBoxMapping.id r0).
Proof.
  intros H Hget Hiter Hg Hin Hk Hc Hother persisted.
  destruct (main_try_returned raw T d s' devs devices H Hget Hiter)
    as [AV' [ids [s3 [qs [Hg' [_ [E1 [Hm ->]]]]]]]].
  { intros ->. cbv in Hg. injection Hg as <-. destruct Hin. }
  rewrite Hg in Hg'. injection Hg' as <-.
  destruct (first_pass _ _ _ _ _ _ E1) as [ps [_ [_ [_ Ha]]]].
  cbn [txn Session] in Ha.
  unfold committed_tables. cbn [avbox_mapping]. rewrite Ha.
  destruct (group_avboxs_wf _ _ Hg) as [Hn Hd].
  assert (Hq : Forall keyed_by_dut qs) by exact (mapping_plan_keyed AV Hd qs Hm).
  destruct (in_split _ _ Hin) as [l1 [l2 ->]].
  unfold mapping_plan in Hm.
  destruct (mapM_split _ _ _ _ _ Hm) as [q1 [q [q2 [-> [Hm1 [Hq0 Hm2]]]]]].
  assert (Eq : q = (dut, cells)).
  { unfold mapping_entry in Hq0. cbn [fst snd] in Hq0.
    rewrite Hk, Hc in Hq0. cbn [bind] in Hq0. now injection Hq0. }
  subst q.
  assert (Hkeys : forall l, (forall e, In e l -> In e l1 \/ In e l2) ->
                            forall qs0, mapM mapping_entry l = Ok qs0 ->
                                        forall q, In q qs0 -> fst q <> dut).
  { intros l Hl qs0 Hqs0 q Hq' Heq.
    destruct (mapM_from _ _ _ _ Hqs0 Hq') as [e [He Hqe]].
    assert (Hne : fst e <> k).
    { rewrite map_app in Hn. cbn [map fst] in Hn.
      apply NoDup_remove_2 in Hn. intro Hek. apply Hn.
      rewrite <- Hek. apply in_or_app.
      destruct (Hl e He); [left | right]; now apply in_map. }
    apply (Hother e); [|exact Hne|].
    - apply in_or_app. destruct (Hl e He); [now left | right; now right].
    - unfold mapping_entry in Hqe.
      destruct (key_value (fst e)) as [c|]; cbn [bind] in Hqe; [|discriminate].
      destruct (mapping_values (snd e)); cbn [bind] in Hqe; [|discriminate].
      injection Hqe as <-. cbn [fst] in Heq. now rewrite Heq. }
  apply Forall_app in Hq. destruct Hq as [Hq1 Hq2].
  inversion Hq2 as [|? ? Hq0' Hq2']; subst.
  unfold avbox_upsert_all. rewrite upsert_all_app, upsert_all_cons.
  change (has_dut dut) with (keyed AVBoxMapping.dut dut).
  rewrite (find_upsert_all_others AVBoxMapping.dut AVBoxMapping.id fst
             (fun e => assign_avbox (snd e)) (fun e i => new_avbox (snd e) i)
             keyed_by_dut (fun p r Hp => Hp) (fun p i Hp => Hp)
             dut q2 Hq2' (Hkeys l2 (fun e He => or_intror He) q2 Hm2)).
  change (keyed AVBoxMapping.dut dut)
    with (matches AVBoxMapping.dut (@fst cell mapping_cells) (dut, cells)).
  rewrite (find_upsert_same AVBoxMapping.dut AVBoxMapping.id fst
             (fun e => assign_avbox (snd e)) (fun e i => new_avbox (snd e) i)
             keyed_by_dut (fun p r Hp => Hp) (fun p i Hp => Hp)
             (dut, cells) _ Hq0').
  change (matches AVBoxMapping.dut (@fst cell mapping_cells) (dut, cells))
    with (keyed AVBoxMapping.dut dut).
  rewrite (find_upsert_all_others AVBoxMapping.dut AVBoxMapping.id fst
             (fun e => assign_avbox (snd e)) (fun e i => new_avbox (snd e) i)
             keyed_by_dut (fun p r Hp => Hp) (fun p i Hp => Hp)
             dut q1 Hq1 (Hkeys l1 (fun e He => or_introl He) q1 Hm1)).
  change (keyed AVBoxMapping.dut dut) with (has_dut dut). fold persisted.
  eexists. split; [reflexivity|].
  unfold keyed_by_dut in Hq0'. cbn [fst snd] in Hq0'.
  destruct persisted as [r0|]; cbn [snd option_map];
    (split; [exact Hq0'|]);
    destruct cells as [[?|] [?|] ? [?|] [?|]]; cbn;
    repeat split; intros; first [reflexivity | discriminate | congruence].
Qed.
End Writes.

Lemma stale_records_stay_P :
  nth_error (device_inventory db_P) 0 = Some (record_P 1) /\
  nth_error (device_inventory
               (main (RT := plain_runtime) snapshot_twins JNull db_P)) 0 =
  Some (record_P 1).
Proof.
  split; [reflexivity|].
  eapply (stale_records_stay (RT := plain_runtime) snapshot_twins JNull db_P).
  - reflexivity.
  - reflexivity.
  - vm_compute. reflexivity.
  - intros k [<- | [<- | []]]; discriminate.
  - reflexivity.
Defined.

Lemma stale_mappings_stay_box :
  exists r,
    nth_error (avbox_mapping db_box) 0 = Some r /\
    AVBoxMapping.dut r = TEXT "X" /\
    nth_error (avbox_mapping
                 (main (RT := plain_runtime) snapshot_box_Y JNull db_box)) 0 = Some r.
Proof.
  eexists. split; [vm_compute; reflexivity|]. split; [reflexivity|].
  eapply (stale_mappings_stay (RT := plain_runtime) snapshot_box_Y JNull db_box).
  - reflexivity.
  - reflexivity.
  - vm_compute. reflexivity.
  - intros e [<- | []]. discriminate.
  - vm_compute. reflexivity.
Defined.

Lemma last_device_wins_twins :
  exists r,
    find (has_udid (TEXT "id-T"))
      (device_inventory
         (main (RT := plain_runtime) snapshot_twins_and_P JNull empty_db)) =
    Some r /\
    DeviceInventory.model r = TEXT "two".
Proof.
  destruct (last_device_wins (RT := plain_runtime) snapshot_twins_and_P JNull
              empty_db)
    with (pre := [twin "T1" "one"])
         (device := twin "T2" "two")
         (post := [plain_device])
         (data := {| d_device_type := JStr "android"; d_model := JStr "two";
                     d_device_skus := JNull; d_udid := JStr "id-T";
                     d_host_name := JNull; d_os_version := JNull;
                     d_location := JStr ", "; d_device_notes := JNull;
                     d_teams := JStr ""; d_is_avbox := JBool false |})
         (cells := {| c_device_type := TEXT "android"; c_model := TEXT "two";
                      c_device_skus := NULL; c_udid := TEXT "id-T";
                      c_host_name := NULL; c_os_version := NULL;
                      c_location := TEXT ", "; c_device_notes := NULL;
                      c_teams := TEXT ""; c_is_avbox := Some false |})
         (devs := JList [twin "T1" "one"; twin "T2" "two"; plain_device])
         (s' := after (main_try (RT := plain_runtime) snapshot_twins_and_P JNull
                         (Session empty_db)))
    as [r [Hf [_ [Hm _]]]].
  - vm_compute. reflexivity.
  - reflexivity.
  - reflexivity.
  - reflexivity.
  - reflexivity.
  - reflexivity.
  - intros device' k [<- | []] _ Hu. vm_compute in Hu.
    injection Hu as <-. discriminate.
  - exists r. split; [exact Hf | exact Hm].
Defined.

(** The device under test of a box reports without its companions, next to
    that of another box: the mapping keeps the camera and the control that
    were persisted. *)
Lemma mapping_of_a_bundle_dut_only :
  exists r,
    find (has_dut (TEXT "X"))
      (avbox_mapping (main (RT := plain_runtime) snapshot_two_duts JNull db_box)) =
    Some r /\
    AVBoxMapping.device_type r = TEXT "android" /\
    AVBoxMapping.camera_device r = TEXT "C" /\
    AVBoxMapping.control r = TEXT "K".
Proof.
  destruct (mapping_of_a_bundle (RT := plain_runtime) snapshot_two_duts JNull db_box
              (after (main_try (RT := plain_runtime) snapshot_two_duts JNull
                        (Session db_box)))
              (JList [dut_listing_companions; dut_Y])
              [dut_listing_companions; dut_Y]
              [(KStr "X", set_dut_fields (JStr "android") (JStr "rack 3")
                            (new_bundle (KStr "X")));
               (KStr "Y", set_dut_fields (JStr "ios") JNull
                            (new_bundle (KStr "Y")))]
              (KStr "X")
              (set_dut_fields (JStr "android") (JStr "rack 3")
                 (new_bundle (KStr "X")))
              (TEXT "X")
              {| m_device_type := Some (TEXT "android");
                 m_device_notes := Some (TEXT "rack 3");
                 m_dut := TEXT "X";
                 m_camera_device := None;
                 m_control := None |})
    as [r [Hf [_ [Ht [_ [Hcam [Hctl _]]]]]]].
  - vm_compute. reflexivity.
  - reflexivity.
  - reflexivity.
  - reflexivity.
  - now left.
  - reflexivity.
  - reflexivity.
  - intros e [<- | [<- | []]] Hne; [now contradiction Hne | discriminate].
  - exists r. split; [exact Hf|]. split; [exact Ht|].
    split; [exact Hcam | exact Hctl].
Defined.

(** ** The ledger entries of a run *)

Section LedgerEntries.
Context {RT : Runtime}.

(** X20.  A run that committed a snapshot with devices added one ledger entry
    for each device that goes to the inventory and whose identifier Python
    does not find among those it reads from the inventory, in the order of
    the snapshot, under the text the identifier is bound to - two for two
    devices with one identifier. *)
Theorem ledger_follows_the_snapshot (raw T : json) (d : db) (s' : session)
  (devs : json) (devices : list json) :
  main_try raw T (Session d) = Return tt s' ->
  get raw "devices" = Ok devs ->
  py_iter devs = Ok devices ->
  devices <> [] ->
  exists ps new,
    inventory_plan T devices = Ok ps /\
    device_ledger (main raw T d) = device_ledger d ++ new /\
    Forall (fun e => DeviceLedger.status e = "added"%string) new /\
    map DeviceLedger.udid new =
    map (fun p => c_udid (snd p))
      (filter (fun p => negb (key_in (fst p) (persisted_keys d))) ps).
Proof.
  intros H Hget Hiter Hne.
  destruct (main_try_returned raw T d s' devs devices H Hget Hiter Hne)
    as [AV [ids [s3 [qs [_ [Hids [E1 [_ ->]]]]]]]].
  destruct (pass_ledger _ _ _ _ _ _ E1) as [ps [new [Hps [L [F Hk]]]]].
  exists ps, new. split; [exact Hps|]. split; [exact L|]. split; [exact F|].
  rewrite Hk. f_equal. apply filter_ext_in. intros p Hp.
  destruct (plan_sound _ _ _ _ Hps Hp) as [device [data [Hd [_ [_ [_ [Hu _]]]]]]].
  assert (Hi : In (fst p) ids) by exact (mapM_In _ _ _ _ _ Hids Hd Hu).
  unfold added_ids, set_diff, db_unique_ids. fold (persisted_keys d).
  destruct (key_in (fst p) (persisted_keys d)) eqn:Kd; cbn [negb].
  - apply key_in_In in Kd.
    destruct (key_in (fst p) (filter _ _)) eqn:Kf; [|reflexivity].
    apply key_in_In in Kf. apply filter_In in Kf. destruct Kf as [_ Kf].
    apply negb_true_iff in Kf.
    assert (K2 : key_in (fst p) (set_of (persisted_keys d)) = true).
    { apply key_in_In. now apply set_of_In. }
    rewrite K2 in Kf. discriminate.
  - apply key_in_In. apply filter_In. split; [now apply set_of_In|].
    apply negb_true_iff.
    destruct (key_in (fst p) (set_of (persisted_keys d))) eqn:Ks; [|reflexivity].
    apply (proj1 (key_in_In _ _)) in Ks. apply (proj1 (set_of_In _ _)) in Ks.
    apply (proj2 (key_in_In _ _)) in Ks. rewrite Ks in Kd. discriminate.
Qed.
End LedgerEntries.

(** A device whose identifier is a number gets an entry on every run: the
    inventory holds the text of the number, which Python does not take for
    the number. *)
Lemma ledger_follows_the_snapshot_numbered :
  map DeviceLedger.udid (device_ledger db_7) = [TEXT "7"] /\
  map DeviceLedger.udid
    (device_ledger (main (RT := plain_runtime) snapshot_numbered JNull db_7)) =
  [TEXT "7"; TEXT "7"].
Proof.
  split; [reflexivity|].
  destruct (ledger_follows_the_snapshot (RT := plain_runtime)
              snapshot_numbered JNull db_7
              (after (main_try (RT := plain_runtime) snapshot_numbered JNull
                        (Session db_7)))
              (JList [numbered_device]) [numbered_device])
    as [ps [new [Hps [L [_ Hk]]]]].
  - vm_compute. reflexivity.
  - reflexivity.
  - reflexivity.
  - discriminate.
  - rewrite L, map_app, Hk.
    vm_compute in Hps. injection Hps as <-. reflexivity.
Defined.
